(** * Deployment orchestration of [packages/aws-cdk/lib/api/deploy-stack.ts]

    A shallow embedding of [deployStack], [destroyStack] and their private
    helpers.  Every awaited call to a collaborator (the CloudFormation client,
    the helpers of [./util/cloudformation], the toolkit bucket, the asset
    preparer, the activity monitor) is an operation of a small trace monad:
    it asks an oracle for the settled promise (a value or a thrown error) and
    appends one event, carrying the call and its outcome, to the history of
    the invocation.  The oracle sees the whole history, so it stands for an
    arbitrary remote service; a promise that never settles is outside the
    model.

    Strings are sequences of characters whose [String.length] plays the part
    of the JavaScript [length] property: a character stands for a UTF-16
    code unit below 256, and [utf8_size] counts the bytes of the string as
    it is sent.  The numbers of a document are the integers.  Console logging ([debug], [print], [error]) is not part of the
    model, except where evaluating the logged message can throw. *)

From Stdlib Require Import ZArith Ascii String.
From Stdlib Require Import DecimalString DecimalPos DecimalZ.
From stdpp Require Import gmap strings list.

Set Warnings "-register-all".
Local Open Scope string_scope.

(** ** JavaScript values reaching this module *)

(** A deserialized template document.  The members of an object are kept in
    enumeration order, as [JSON.stringify] visits them. *)
Inductive json : Type :=
| JNull
| JBool (b : bool)
| JNum (n : Z)
| JStr (s : string)
| JArr (items : list json)
| JObj (members : list (string * json)).

(** An exception value: [e.code] and [e.message]. *)
Record JsError : Type := mkError {
  err_code : option string;
  err_message : string
}.

(** [new Error(msg)] *)
Definition Error (msg : string) : JsError :=
  {| err_code := None; err_message := msg |}.

(** A settled promise. *)
Inductive Outcome (A : Type) : Type :=
| Ok (a : A)
| Throw (e : JsError).
Arguments Ok {A} a.
Arguments Throw {A} e.

Definition is_ok {A} (r : Outcome A) : bool :=
  match r with Ok _ => true | Throw _ => false end.

(** Truthiness of an optional flag and of a document. *)
Definition truthy_flag (b : option bool) : bool :=
  match b with Some true => true | _ => false end.

Definition truthy_json (v : json) : bool :=
  match v with
  | JNull => false
  | JBool b => b
  | JNum n => negb (Z.eqb n 0)
  | JStr s => negb (String.eqb s "")
  | JArr _ | JObj _ => true
  end.

(** [a || b] on strings. *)
Definition or_string (a : option string) (b : string) : string :=
  match a with
  | Some s => if String.eqb s "" then b else s
  | None => b
  end.

(** [s.includes(needle)] *)
Fixpoint includes (needle s : string) : bool :=
  String.prefix needle s ||
  match s with
  | EmptyString => false
  | String _ rest => includes needle rest
  end.

(** ** [JSON.stringify] on documents *)

Definition dquote : ascii := ascii_of_nat 34.
Definition backslash : ascii := ascii_of_nat 92.

Definition hex_digit (n : nat) : ascii :=
  if Nat.ltb n 10 then ascii_of_nat (48 + n) else ascii_of_nat (87 + n).

(** One character of a quoted JSON string. *)
Definition escape_char (c : ascii) : string :=
  let n := nat_of_ascii c in
  if Nat.eqb n 34 then String backslash (String dquote EmptyString)
  else if Nat.eqb n 92 then String backslash (String backslash EmptyString)
  else if Nat.eqb n 8 then String backslash "b"
  else if Nat.eqb n 9 then String backslash "t"
  else if Nat.eqb n 10 then String backslash "n"
  else if Nat.eqb n 12 then String backslash "f"
  else if Nat.eqb n 13 then String backslash "r"
  else if Nat.ltb n 32 then
    String backslash
      ("u00" +:+ String (hex_digit (n / 16)) (String (hex_digit (n mod 16)) EmptyString))
  else String c EmptyString.

Fixpoint escape (s : string) : string :=
  match s with
  | EmptyString => EmptyString
  | String c rest => escape_char c +:+ escape rest
  end.

Definition quote (s : string) : string :=
  String dquote (escape s +:+ String dquote EmptyString).

Definition number_to_string (n : Z) : string :=
  NilZero.string_of_int (Z.to_int n).

Definition join_comma (parts : list string) : string :=
  match parts with
  | [] => ""
  | p :: ps => p +:+ fold_right (fun q acc => "," +:+ q +:+ acc) "" ps
  end.

Fixpoint JSON_stringify (v : json) : string :=
  match v with
  | JNull => "null"
  | JBool true => "true"
  | JBool false => "false"
  | JNum n => number_to_string n
  | JStr s => quote s
  | JArr items =>
      "[" +:+ join_comma (List.map JSON_stringify items) +:+ "]"
  | JObj members =>
      "{" +:+ join_comma
                (List.map (fun kv => quote (fst kv) +:+ ":" +:+ JSON_stringify (snd kv))
                          members) +:+ "}"
  end.

(** ** Data exchanged with the collaborators *)

Record Environment : Type := {
  env_account : string;
  env_region : string;
  env_name : string
}.

(** [cxapi.CloudFormationStackArtifact], the fields read here. *)
Record CloudFormationStackArtifact : Type := {
  art_id : string;
  art_stackName : string;
  art_displayName : string;
  art_template : json;
  art_environment : option Environment
}.

Record ToolkitInfo : Type := { bucketUrl : string }.

Record Tag : Type := { tag_Key : string; tag_Value : string }.

Record StackParameter : Type := { ParameterKey : string; ParameterValue : string }.

Record Output : Type := { OutputKey : string; OutputValue : string }.

Record Stack : Type := {
  StackId : option string;
  StackStatus : string;
  Outputs : option (list Output)
}.

Record DescribeStacksOutput : Type := { Stacks : option (list Stack) }.

Record GetTemplateOutput : Type := { got_TemplateBody : option string }.

Inductive ChangeSetType : Type := UPDATE | CREATE.

Record CreateChangeSetInput : Type := {
  ccs_StackName : string;
  ccs_ChangeSetName : string;
  ccs_ChangeSetType : ChangeSetType;
  ccs_Description : string;
  ccs_TemplateBody : option string;
  ccs_TemplateURL : option string;
  ccs_Parameters : list StackParameter;
  ccs_RoleARN : option string;
  ccs_NotificationARNs : option (list string);
  ccs_Capabilities : list string;
  ccs_Tags : option (list Tag)
}.

Record CreateChangeSetOutput : Type := {
  ccs_Id : option string;
  ccs_StackId : option string
}.

Record Change : Type := { change_LogicalResourceId : string }.

Record DescribeChangeSetOutput : Type := {
  dcs_Status : option string;
  dcs_StatusReason : option string;
  dcs_Changes : option (list Change)
}.

Record UploadProps : Type := {
  s3KeyPrefix : string;
  s3KeySuffix : string;
  contentType : string
}.

Record TemplateBodyParameter : Type := {
  TemplateBody : option string;
  TemplateURL : option string
}.

Record DeployStackResult : Type := {
  noOp : bool;
  outputs : gmap string string;
  stackArn : option string;
  stackArtifact : CloudFormationStackArtifact
}.

Record DeployStackOptions : Type := {
  dso_stack : CloudFormationStackArtifact;
  dso_toolkitInfo : option ToolkitInfo;
  dso_roleArn : option string;
  dso_notificationArns : option (list string);
  dso_deployName : option string;
  dso_quiet : option bool;
  dso_reuseAssets : option (list string);
  dso_tags : option (list Tag);
  dso_execute : option bool;
  dso_parameters : option (list (string * option string));
  dso_force : option bool
}.

Record DestroyStackOptions : Type := {
  dst_stack : CloudFormationStackArtifact;
  dst_roleArn : option string;
  dst_deployName : option string;
  dst_quiet : option bool
}.

(** [Mode] of [./aws-auth/credentials]: what the session is asked for. *)
Inductive Mode : Type := ForReading | ForWriting.

(** ** Events: one per call to a collaborator, with its settled outcome *)

Inductive Event : Type :=
| EvCloudFormation (account region : string) (mode : Mode) (r : Outcome unit)
| EvDescribeStacks (stackName : string) (r : Outcome DescribeStacksOutput)
| EvGetTemplate (stackName : string) (r : Outcome GetTemplateOutput)
| EvDeleteStack (stackName : string) (roleArn : option string) (r : Outcome unit)
| EvCreateChangeSet (input : CreateChangeSetInput) (r : Outcome CreateChangeSetOutput)
| EvDeleteChangeSet (stackName changeSetName : string) (r : Outcome unit)
| EvExecuteChangeSet (stackName changeSetName : string) (r : Outcome unit)
| EvDescribeStack (stackName : string) (r : Outcome (option Stack))
| EvStackExists (stackName : string) (r : Outcome bool)
| EvStackFailedCreating (stackName : string) (r : Outcome bool)
| EvWaitForStack (stackName : string) (failOnDeletedStack : bool)
                 (r : Outcome (option Stack))
| EvWaitForChangeSet (stackName changeSetName : string)
                     (r : Outcome DescribeChangeSetOutput)
| EvPrepareAssets (stack : CloudFormationStackArtifact)
                  (toolkitInfo : option ToolkitInfo)
                  (reuse : option (list string)) (r : Outcome (list StackParameter))
| EvUploadIfChanged (toolkitInfo : ToolkitInfo) (data : string)
                    (props : UploadProps) (r : Outcome string)
| EvMonitorStart (stackName : string) (resourcesTotal : option nat)
| EvMonitorStop (stackName : string) (r : Outcome unit).

(** The calls that ask the remote side to change something. *)
Definition mutating (e : Event) : bool :=
  match e with
  | EvDeleteStack _ _ _ | EvCreateChangeSet _ _ | EvDeleteChangeSet _ _ _
  | EvExecuteChangeSet _ _ _ | EvPrepareAssets _ _ _ _
  | EvUploadIfChanged _ _ _ _ => true
  | _ => false
  end.

Definition is_monitor_start (e : Event) : bool :=
  match e with EvMonitorStart _ _ => true | _ => false end.

Definition is_monitor_stop (e : Event) : bool :=
  match e with EvMonitorStop _ _ => true | _ => false end.

Definition is_create_change_set (e : Event) : bool :=
  match e with EvCreateChangeSet _ _ => true | _ => false end.

Definition is_execute_change_set (e : Event) : bool :=
  match e with EvExecuteChangeSet _ _ _ => true | _ => false end.

Definition is_delete_stack (e : Event) : bool :=
  match e with EvDeleteStack _ _ _ => true | _ => false end.

Definition count (p : Event -> bool) (tr : list Event) : nat :=
  length (List.filter p tr).

(** ** The collaborators

    Each awaited call is answered from the history so far.  The pure helpers
    imported from [../serialize], [./util/cloudformation] and
    [./util/cloudformation/stack-status] are fields too; their code is not
    part of this module. *)
Record World : Type := {
  sdk_cloudFormation : list Event -> string -> string -> Mode -> Outcome unit;
  cfn_describeStacks : list Event -> string -> Outcome DescribeStacksOutput;
  cfn_getTemplate : list Event -> string -> Outcome GetTemplateOutput;
  cfn_deleteStack : list Event -> string -> option string -> Outcome unit;
  cfn_createChangeSet :
    list Event -> CreateChangeSetInput -> Outcome CreateChangeSetOutput;
  cfn_deleteChangeSet : list Event -> string -> string -> Outcome unit;
  cfn_executeChangeSet : list Event -> string -> string -> Outcome unit;
  util_describeStack : list Event -> string -> Outcome (option Stack);
  util_stackExists : list Event -> string -> Outcome bool;
  util_stackFailedCreating : list Event -> string -> Outcome bool;
  util_waitForStack : list Event -> string -> bool -> Outcome (option Stack);
  util_waitForChangeSet :
    list Event -> string -> string -> Outcome DescribeChangeSetOutput;
  assets_prepareAssets :
    list Event -> CloudFormationStackArtifact -> option ToolkitInfo ->
    option (list string) -> Outcome (list StackParameter);
  toolkit_uploadIfChanged :
    list Event -> ToolkitInfo -> string -> UploadProps -> Outcome string;
  monitor_stop : list Event -> string -> Outcome unit;
  uuid_v4 : list Event -> string;
  toYAML : json -> string;
  deserializeStructure : string -> Outcome json;
  changeSetHasNoChanges : DescribeChangeSetOutput -> bool;
  StackStatus_toString : Stack -> string
}.

(** ** The trace monad *)

Definition M (A : Type) : Type :=
  World -> list Event -> Outcome A * list Event.

Definition ret {A} (a : A) : M A := fun _ h => (Ok a, h).

Definition throw {A} (e : JsError) : M A := fun _ h => (Throw e, h).

Definition bind {A B} (m : M A) (k : A -> M B) : M B :=
  fun w h =>
    match m w h with
    | (Ok a, h') => k a w h'
    | (Throw e, h') => (Throw e, h')
    end.

(** [try { m } catch (e) { handler e }] *)
Definition try_catch {A} (m : M A) (handler : JsError -> M A) : M A :=
  fun w h =>
    match m w h with
    | (Ok a, h') => (Ok a, h')
    | (Throw e, h') => handler e w h'
    end.

(** An awaited call: ask the oracle, record the event. *)
Definition perform {A} (ask : World -> list Event -> Outcome A)
    (log : Outcome A -> Event) : M A :=
  fun w h => let r := ask w h in (r, (h ++ [log r])%list).

(** A synchronous effect that cannot throw. *)
Definition emit (e : Event) : M unit := fun _ h => (Ok tt, (h ++ [e])%list).

(** Read a pure collaborator. *)
Definition asks {A} (f : World -> list Event -> A) : M A :=
  fun w h => (Ok (f w h), h).

(** Lift a synchronous computation that may throw. *)
Definition lift {A} (f : World -> Outcome A) : M A := fun w h => (f w, h).

Definition run {A} (m : M A) (w : World) : Outcome A * list Event := m w [].

Notation "x <- m ;; k" := (bind m (fun x => k))
  (at level 100, m at next level, right associativity).
Notation "m ;;; k" := (bind m (fun _ => k))
  (at level 100, right associativity).

(** ** The awaited calls *)

Definition cloudFormation (account region : string) (mode : Mode) : M unit :=
  perform (fun w h => sdk_cloudFormation w h account region mode)
          (EvCloudFormation account region mode).

Definition describeStacks (stackName : string) : M DescribeStacksOutput :=
  perform (fun w h => cfn_describeStacks w h stackName)
          (EvDescribeStacks stackName).

Definition getTemplate (stackName : string) : M GetTemplateOutput :=
  perform (fun w h => cfn_getTemplate w h stackName) (EvGetTemplate stackName).

Definition deleteStack (stackName : string) (roleArn : option string) : M unit :=
  perform (fun w h => cfn_deleteStack w h stackName roleArn)
          (EvDeleteStack stackName roleArn).

Definition createChangeSet (input : CreateChangeSetInput)
  : M CreateChangeSetOutput :=
  perform (fun w h => cfn_createChangeSet w h input) (EvCreateChangeSet input).

Definition deleteChangeSet (stackName changeSetName : string) : M unit :=
  perform (fun w h => cfn_deleteChangeSet w h stackName changeSetName)
          (EvDeleteChangeSet stackName changeSetName).

Definition executeChangeSet (stackName changeSetName : string) : M unit :=
  perform (fun w h => cfn_executeChangeSet w h stackName changeSetName)
          (EvExecuteChangeSet stackName changeSetName).

Definition describeStack (stackName : string) : M (option Stack) :=
  perform (fun w h => util_describeStack w h stackName)
          (EvDescribeStack stackName).

Definition stackExists (stackName : string) : M bool :=
  perform (fun w h => util_stackExists w h stackName) (EvStackExists stackName).

Definition stackFailedCreating (stackName : string) : M bool :=
  perform (fun w h => util_stackFailedCreating w h stackName)
          (EvStackFailedCreating stackName).

Definition waitForStack (stackName : string) (failOnDeletedStack : bool)
  : M (option Stack) :=
  perform (fun w h => util_waitForStack w h stackName failOnDeletedStack)
          (EvWaitForStack stackName failOnDeletedStack).

Definition waitForChangeSet (stackName changeSetName : string)
  : M DescribeChangeSetOutput :=
  perform (fun w h => util_waitForChangeSet w h stackName changeSetName)
          (EvWaitForChangeSet stackName changeSetName).

Definition prepareAssets (stack : CloudFormationStackArtifact)
    (toolkitInfo : option ToolkitInfo) (reuse : option (list string))
  : M (list StackParameter) :=
  perform (fun w h => assets_prepareAssets w h stack toolkitInfo reuse)
          (EvPrepareAssets stack toolkitInfo reuse).

Definition uploadIfChanged (toolkitInfo : ToolkitInfo) (data : string)
    (props : UploadProps) : M string :=
  perform (fun w h => toolkit_uploadIfChanged w h toolkitInfo data props)
          (EvUploadIfChanged toolkitInfo data props).

(** [new StackActivityMonitor(...).start()] *)
Definition monitorStart (stackName : string) (resourcesTotal : option nat)
  : M unit :=
  emit (EvMonitorStart stackName resourcesTotal).

(** [await monitor.stop()] *)
Definition monitorStop (stackName : string) : M unit :=
  perform (fun w h => monitor_stop w h stackName) (EvMonitorStop stackName).

(** ** The module's functions *)

Definition LARGE_TEMPLATE_SIZE_KB : Z := 50.

(** What reading a property of [undefined] throws. *)
Definition TypeError_undefined (prop : string) : JsError :=
  Error ("Cannot read property '" +:+ prop +:+ "' of undefined").

(** [e.code === c] *)
Definition code_is (e : JsError) (c : string) : bool :=
  match err_code e with
  | Some c' => String.eqb c' c
  | None => false
  end.

(** [result[key] = value] on a plain object, for a [value] that is a
    string.  The key [__proto__] is not stored: the assignment reaches the
    setter of [Object.prototype], which ignores a value that is not an
    object. *)
Definition set_property (result : gmap string string) (key value : string)
  : gmap string string :=
  if String.eqb key "__proto__" then result else <[key := value]> result.

Definition outputs_of (description : option Stack) : gmap string string :=
  match description with
  | Some d =>
      match Outputs d with
      | Some outs =>
          fold_left
            (fun result o => set_property result (OutputKey o) (OutputValue o))
            outs ∅
      | None => ∅
      end
  | None => ∅
  end.

(** The stack's current outputs, as the specification speaks of them: the
    description lists [v] under the key [k], and lists nothing under [k]
    after it. *)
Definition current_output (description : option Stack) (k v : string) : Prop :=
  exists d pre o post,
    description = Some d /\
    Outputs d = Some (pre ++ o :: post)%list /\
    OutputKey o = k /\ OutputValue o = v /\
    forall o', In o' post -> OutputKey o' <> k.

(** The number of bytes of a string in UTF-8, its characters being code
    units below 256: one byte for a code unit below 128, two from 128 on. *)
Definition utf8_size (s : string) : Z :=
  fold_right
    (fun c n => ((if (nat_of_ascii c <? 128)%nat then 1 else 2) + n)%Z)
    0%Z (list_ascii_of_string s).

Definition getStackOutputs (stackName : string) : M (gmap string string) :=
  description <- describeStack stackName ;;
  ret (outputs_of description).

Definition too_large_message : string :=
  "Template too large to deploy (" +:+
  String dquote ("cdk bootstrap" +:+ String dquote " is required)").

Definition makeBodyParameter (stack : CloudFormationStackArtifact)
    (toolkitInfo : option ToolkitInfo) : M TemplateBodyParameter :=
  templateJson <- asks (fun w _ => toYAML w (art_template stack)) ;;
  match toolkitInfo with
  | Some tk =>
      let prefix := "cdk/" +:+ art_id stack +:+ "/" in
      let suffix := ".yml" in
      key <- uploadIfChanged tk templateJson
               {| s3KeyPrefix := prefix; s3KeySuffix := suffix;
                  contentType := "application/x-yaml" |} ;;
      let templateURL := bucketUrl tk +:+ "/" +:+ key in
      ret {| TemplateBody := None; TemplateURL := Some templateURL |}
  | None =>
      if (LARGE_TEMPLATE_SIZE_KB * 1024 <? Z.of_nat (String.length templateJson))%Z
      then
        (* the logged message reads stack.environment!.name *)
        match art_environment stack with
        | Some _ => throw (Error too_large_message)
        | None => throw (TypeError_undefined "name")
        end
      else ret {| TemplateBody := Some templateJson; TemplateURL := None |}
  end.

Definition not_exist_message (stackName : string) : string :=
  "Stack with id " +:+ stackName +:+ " does not exist".

Definition readCurrentTemplate (stackName : string) : M json :=
  try_catch
    (response <- getTemplate stackName ;;
     match got_TemplateBody response with
     | Some body =>
         if String.eqb body "" then ret (JObj [])
         else
           parsed <- lift (fun w => deserializeStructure w body) ;;
           ret (if truthy_json parsed then parsed else JObj [])
     | None => ret (JObj [])
     end)
    (fun e =>
       if code_is e "ValidationError" &&
          String.eqb (err_message e) (not_exist_message stackName)
       then ret (JObj [])
       else throw e).

Definition getStackId (stackName : string) : M (option string) :=
  try_catch
    (stacks <- describeStacks stackName ;;
     match Stacks stacks with
     | None => ret None
     | Some l =>
         if negb (Nat.eqb (length l) 1) then ret None
         else
           match l !! 0%nat with
           | Some s => ret (StackId s)
           | None => throw (TypeError_undefined "StackId")
           end
     end)
    (fun e =>
       if includes "does not exist" (err_message e) then ret None
       else throw e).

Record DeployedTemplate : Type := {
  deployed_template : json;
  deployed_stackId : string
}.

Definition getDeployedTemplate (stackName : string) : M (option DeployedTemplate) :=
  stackId <- getStackId stackName ;;
  match stackId with
  | Some id =>
      if String.eqb id "" then ret None
      else
        template <- readCurrentTemplate stackName ;;
        ret (Some {| deployed_template := template; deployed_stackId := id |})
  | None => ret None
  end.

(** The loop over [Object.entries(options.parameters || {})]. *)
Definition push_parameters (params : list StackParameter)
    (entries : option (list (string * option string))) : list StackParameter :=
  fold_left
    (fun acc entry =>
       match snd entry with
       | Some value =>
           if String.eqb value "" then acc
           else (acc ++ [{| ParameterKey := fst entry; ParameterValue := value |}])%list
       | None => acc
       end)
    (default [] entries) params.

Definition capabilities : list string :=
  ["CAPABILITY_IAM"; "CAPABILITY_NAMED_IAM"; "CAPABILITY_AUTO_EXPAND"].

Definition failed_deleting_message (deployName status : string) : string :=
  "Failed deleting stack " +:+ deployName +:+
  " that had previously failed creation (current state: " +:+ status +:+ ")".

(** [deployStack], the block that deletes a stack left over from a failed
    creation before a changeset is attempted. *)
Definition recoverFailedCreation (deployName : string) : M unit :=
  failed <- stackFailedCreating deployName ;;
  if failed then
    (deleteStack deployName None ;;;
     deletedStack <- waitForStack deployName false ;;
     match deletedStack with
     | Some d =>
         if negb (String.eqb (StackStatus d) "DELETE_COMPLETE")
         then throw (Error (failed_deleting_message deployName (StackStatus d)))
         else ret tt
     | None => ret tt
     end)
  else ret tt.

Definition deploy_result (options : DeployStackOptions) (noop : bool)
    (outs : gmap string string) (arn : option string) : DeployStackResult :=
  {| noOp := noop; outputs := outs; stackArn := arn;
     stackArtifact := dso_stack options |}.

(** [const execute = options.execute === undefined ? true : options.execute] *)
Definition execute_requested (options : DeployStackOptions) : bool :=
  match dso_execute options with
  | None => true
  | Some b => b
  end.

(** [(changeSetDescription.Changes || []).length] *)
Definition change_count (description : DescribeChangeSetOutput) : nat :=
  length (default [] (dcs_Changes description)).

(** [deployStack], from the empty-changeset test to the returned result. *)
Definition concludeChangeSet (options : DeployStackOptions)
    (deployName changeSetName : string) (changeSet : CreateChangeSetOutput)
    (changeSetDescription : DescribeChangeSetOutput) : M DeployStackResult :=
  noChanges <- asks (fun w _ => changeSetHasNoChanges w changeSetDescription) ;;
  if noChanges then
    (deleteChangeSet deployName changeSetName ;;;
     outs <- getStackOutputs deployName ;;
     ret (deploy_result options true outs (ccs_StackId changeSet)))
  else
    (if execute_requested options then
       (executeChangeSet deployName changeSetName ;;;
        monitor <-
          (if truthy_flag (dso_quiet options) then ret false
           else
             (monitorStart deployName (Some (change_count changeSetDescription)) ;;;
              ret true)) ;;
        waitForStack deployName true ;;;
        if monitor then monitorStop deployName else ret tt)
     else ret tt) ;;;
    outs <- getStackOutputs deployName ;;
    ret (deploy_result options false outs (ccs_StackId changeSet)).

Definition change_set_input (options : DeployStackOptions)
    (deployName executionId : string) (update : bool)
    (bodyParameter : TemplateBodyParameter) (params : list StackParameter)
  : CreateChangeSetInput :=
  {| ccs_StackName := deployName;
     ccs_ChangeSetName := "CDK-" +:+ executionId;
     ccs_ChangeSetType := if update then UPDATE else CREATE;
     ccs_Description := "CDK Changeset for execution " +:+ executionId;
     ccs_TemplateBody := TemplateBody bodyParameter;
     ccs_TemplateURL := TemplateURL bodyParameter;
     ccs_Parameters := params;
     ccs_RoleARN := dso_roleArn options;
     ccs_NotificationARNs := dso_notificationArns options;
     ccs_Capabilities := capabilities;
     ccs_Tags := dso_tags options |}.

(** [deployStack] from the asset preparation on: what runs when the skip
    check did not return. *)
Definition deployStack_proceed (options : DeployStackOptions)
    (deployName : string) : M DeployStackResult :=
  let stack := dso_stack options in
  assetParams <- prepareAssets stack (dso_toolkitInfo options)
                   (dso_reuseAssets options) ;;
  let params := push_parameters assetParams (dso_parameters options) in
  executionId <- asks uuid_v4 ;;
  bodyParameter <- makeBodyParameter stack (dso_toolkitInfo options) ;;
  recoverFailedCreation deployName ;;;
  update <- stackExists deployName ;;
  let changeSetName := "CDK-" +:+ executionId in
  changeSet <- createChangeSet
                 (change_set_input options deployName executionId update
                    bodyParameter params) ;;
  changeSetDescription <- waitForChangeSet deployName changeSetName ;;
  concludeChangeSet options deployName changeSetName changeSet
    changeSetDescription.

(** The name under which the stack is deployed:
    [options.deployName || options.stack.stackName]. *)
Definition deploy_name (o : DeployStackOptions) : string :=
  or_string (dso_deployName o) (art_stackName (dso_stack o)).

(** The session for writing in the environment of the stack, granted at the
    start of an invocation, and the event that records it. *)
Definition session_granted (w : World) (env : Environment) : Prop :=
  sdk_cloudFormation w [] (env_account env) (env_region env) ForWriting =
  Ok tt.

Definition session_event (env : Environment) : Event :=
  EvCloudFormation (env_account env) (env_region env) ForWriting (Ok tt).

Definition no_environment_message (displayName : string) : string :=
  "The stack " +:+ displayName +:+ " does not have an environment".

Definition deployStack (options : DeployStackOptions) : M DeployStackResult :=
  let stack := dso_stack options in
  match art_environment stack with
  | None => throw (Error (no_environment_message (art_displayName stack)))
  | Some environment =>
      cloudFormation (env_account environment) (env_region environment)
        ForWriting ;;;
      let deployName := deploy_name options in
      if negb (truthy_flag (dso_force options)) then
        deployed <- getDeployedTemplate deployName ;;
        match deployed with
        | Some d =>
            if String.eqb (JSON_stringify (art_template stack))
                          (JSON_stringify (deployed_template d))
            then
              outs <- getStackOutputs deployName ;;
              ret (deploy_result options true outs (Some (deployed_stackId d)))
            else deployStack_proceed options deployName
        | None => deployStack_proceed options deployName
        end
      else deployStack_proceed options deployName
  end.

Definition failed_destroy_message (deployName status : string) : string :=
  "Failed to destroy " +:+ deployName +:+ ": " +:+ status.

Definition destroyStack (options : DestroyStackOptions) : M unit :=
  let stack := dst_stack options in
  match art_environment stack with
  | None => throw (Error (no_environment_message (art_displayName stack)))
  | Some environment =>
      let deployName := or_string (dst_deployName options) (art_stackName stack) in
      cloudFormation (env_account environment) (env_region environment)
        ForWriting ;;;
      present <- stackExists deployName ;;
      if negb present then ret tt
      else
        monitor <-
          (if truthy_flag (dst_quiet options) then ret false
           else (monitorStart deployName None ;;; ret true)) ;;
        deleteStack deployName (dst_roleArn options) ;;;
        destroyedStack <- waitForStack deployName false ;;
        (if monitor then monitorStop deployName else ret tt) ;;;
        match destroyedStack with
        | Some d =>
            if negb (String.eqb (StackStatus d) "DELETE_COMPLETE") then
              status <- asks (fun w _ => StackStatus_toString w d) ;;
              throw (Error (failed_destroy_message deployName status))
            else ret tt
        | None => ret tt
        end
  end.

(** ** Shapes of traces

    The calls of [deployStack] fall into the skip check, the staging of
    assets and template, the recovery from a failed creation, the changeset
    request and its conclusion. *)

Definition is_guard_event (e : Event) : bool :=
  match e with
  | EvCloudFormation _ _ _ _ | EvDescribeStacks _ _ | EvGetTemplate _ _
  | EvDescribeStack _ _ => true
  | _ => false
  end.

Definition is_staging_event (e : Event) : bool :=
  match e with
  | EvPrepareAssets _ _ _ _ | EvUploadIfChanged _ _ _ _ => true
  | _ => false
  end.

Definition guard_only (h : list Event) : Prop :=
  List.Forall (fun e => is_guard_event e = true) h.

Definition staging_only (h : list Event) : Prop :=
  List.Forall (fun e => is_staging_event e = true) h.

(** What [recoverFailedCreation] can append for stack [n], and its outcome. *)
Inductive recovery (n : string) : Outcome unit -> list Event -> Prop :=
| recovery_check_throws e :
    recovery n (Throw e) [EvStackFailedCreating n (Throw e)]
| recovery_not_needed :
    recovery n (Ok tt) [EvStackFailedCreating n (Ok false)]
| recovery_delete_throws e :
    recovery n (Throw e)
      [EvStackFailedCreating n (Ok true); EvDeleteStack n None (Throw e)]
| recovery_wait_throws e :
    recovery n (Throw e)
      [EvStackFailedCreating n (Ok true); EvDeleteStack n None (Ok tt);
       EvWaitForStack n false (Throw e)]
| recovery_stuck d :
    StackStatus d <> "DELETE_COMPLETE" ->
    recovery n (Throw (Error (failed_deleting_message n (StackStatus d))))
      [EvStackFailedCreating n (Ok true); EvDeleteStack n None (Ok tt);
       EvWaitForStack n false (Ok (Some d))]
| recovery_deleted d :
    StackStatus d = "DELETE_COMPLETE" ->
    recovery n (Ok tt)
      [EvStackFailedCreating n (Ok true); EvDeleteStack n None (Ok tt);
       EvWaitForStack n false (Ok (Some d))]
| recovery_absent :
    recovery n (Ok tt)
      [EvStackFailedCreating n (Ok true); EvDeleteStack n None (Ok tt);
       EvWaitForStack n false (Ok None)].

(** The result built from the answer of the final [describeStack]. *)
Definition described (o : DeployStackOptions) (noop : bool)
    (c : CreateChangeSetOutput) (dr : Outcome (option Stack))
  : Outcome DeployStackResult :=
  match dr with
  | Ok d => Ok (deploy_result o noop (outputs_of d) (ccs_StackId c))
  | Throw e => Throw e
  end.

Definition monitor_started (o : DeployStackOptions) (n : string)
    (desc : DescribeChangeSetOutput) : list Event :=
  if truthy_flag (dso_quiet o) then []
  else [EvMonitorStart n (Some (change_count desc))].

Definition monitor_stopped (o : DeployStackOptions) (n : string) : list Event :=
  if truthy_flag (dso_quiet o) then [] else [EvMonitorStop n (Ok tt)].

(** What [concludeChangeSet] can append, and its outcome. *)
Inductive conclusion (o : DeployStackOptions) (w : World) (n cs : string)
    (c : CreateChangeSetOutput) (desc : DescribeChangeSetOutput)
  : Outcome DeployStackResult -> list Event -> Prop :=
| conclusion_discard_throws e :
    changeSetHasNoChanges w desc = true ->
    conclusion o w n cs c desc (Throw e) [EvDeleteChangeSet n cs (Throw e)]
| conclusion_discarded dr :
    changeSetHasNoChanges w desc = true ->
    conclusion o w n cs c desc (described o true c dr)
      [EvDeleteChangeSet n cs (Ok tt); EvDescribeStack n dr]
| conclusion_review dr :
    changeSetHasNoChanges w desc = false ->
    execute_requested o = false ->
    conclusion o w n cs c desc (described o false c dr) [EvDescribeStack n dr]
| conclusion_execute_throws e :
    changeSetHasNoChanges w desc = false ->
    execute_requested o = true ->
    conclusion o w n cs c desc (Throw e) [EvExecuteChangeSet n cs (Throw e)]
| conclusion_wait_throws e :
    changeSetHasNoChanges w desc = false ->
    execute_requested o = true ->
    conclusion o w n cs c desc (Throw e)
      (EvExecuteChangeSet n cs (Ok tt) ::
       monitor_started o n desc ++ [EvWaitForStack n true (Throw e)])%list
| conclusion_stop_throws st e :
    changeSetHasNoChanges w desc = false ->
    execute_requested o = true ->
    truthy_flag (dso_quiet o) = false ->
    conclusion o w n cs c desc (Throw e)
      [EvExecuteChangeSet n cs (Ok tt);
       EvMonitorStart n (Some (change_count desc));
       EvWaitForStack n true (Ok st); EvMonitorStop n (Throw e)]
| conclusion_executed st dr :
    changeSetHasNoChanges w desc = false ->
    execute_requested o = true ->
    conclusion o w n cs c desc (described o false c dr)
      (EvExecuteChangeSet n cs (Ok tt) ::
       monitor_started o n desc ++
       EvWaitForStack n true (Ok st) ::
       monitor_stopped o n ++ [EvDescribeStack n dr])%list.

(** The request for a changeset and what follows it: the traces of the
    recovery, of the changeset request and of the conclusion, with the
    outcome of [deployStack]. *)
Inductive flow (o : DeployStackOptions) (w : World) (n : string)
  : Outcome DeployStackResult -> list Event -> list Event -> list Event -> Prop :=
| flow_recovery_throws e s2 :
    recovery n (Throw e) s2 ->
    flow o w n (Throw e) s2 [] []
| flow_exists_throws e s2 :
    recovery n (Ok tt) s2 ->
    flow o w n (Throw e) s2 [EvStackExists n (Throw e)] []
| flow_create_throws e s2 update input :
    recovery n (Ok tt) s2 ->
    flow o w n (Throw e) s2
      [EvStackExists n (Ok update); EvCreateChangeSet input (Throw e)] []
| flow_stabilize_throws e s2 update input c :
    recovery n (Ok tt) s2 ->
    flow o w n (Throw e) s2
      [EvStackExists n (Ok update); EvCreateChangeSet input (Ok c);
       EvWaitForChangeSet n (ccs_ChangeSetName input) (Throw e)] []
| flow_concluded r s2 (update : bool) input c desc s4 :
    recovery n (Ok tt) s2 ->
    ccs_StackName input = n ->
    ccs_ChangeSetType input = (if update then UPDATE else CREATE) ->
    conclusion o w n (ccs_ChangeSetName input) c desc r s4 ->
    flow o w n r s2
      [EvStackExists n (Ok update); EvCreateChangeSet input (Ok c);
       EvWaitForChangeSet n (ccs_ChangeSetName input) (Ok desc)] s4.

Definition is_recovery_event (e : Event) : bool :=
  match e with
  | EvStackFailedCreating _ _ | EvDeleteStack _ _ _
  | EvWaitForStack _ false _ => true
  | _ => false
  end.

Definition is_request_event (e : Event) : bool :=
  match e with
  | EvStackExists _ _ | EvCreateChangeSet _ _ | EvWaitForChangeSet _ _ _ => true
  | _ => false
  end.

Definition is_conclusion_event (e : Event) : bool :=
  match e with
  | EvDeleteChangeSet _ _ _ | EvExecuteChangeSet _ _ _ | EvMonitorStart _ _
  | EvMonitorStop _ _ | EvWaitForStack _ true _ | EvDescribeStack _ _ => true
  | _ => false
  end.

(** Everything up to the moment a changeset has stabilized. *)
Definition is_preparatory_event (e : Event) : bool :=
  match e with
  | EvWaitForChangeSet _ _ (Ok _) => false
  | EvDeleteChangeSet _ _ _ | EvExecuteChangeSet _ _ _ | EvMonitorStart _ _
  | EvMonitorStop _ _ | EvWaitForStack _ true _ => false
  | _ => true
  end.

Definition preparatory_only (h : list Event) : Prop :=
  List.Forall (fun e => is_preparatory_event e = true) h.

Definition recovery_only (h : list Event) : Prop :=
  List.Forall (fun e => is_recovery_event e = true) h.

Definition request_only (h : list Event) : Prop :=
  List.Forall (fun e => is_request_event e = true) h.

Definition conclusion_only (h : list Event) : Prop :=
  List.Forall (fun e => is_conclusion_event e = true) h.

(** The two operations that can start a [StackActivityMonitor]. *)
Inductive Operation : Type :=
| Deploy (o : DeployStackOptions)
| Destroy (o : DestroyStackOptions).

Definition trace_of (op : Operation) (w : World) : list Event :=
  match op with
  | Deploy o => snd (run (deployStack o) w)
  | Destroy o => snd (run (destroyStack o) w)
  end.

(** The [failOnDeletedStack] argument of the wait that the monitor
    accompanies: [waitForStack(cfn, deployName)] in [deployStack],
    [waitForStack(cfn, deployName, false)] in [destroyStack]. *)
Definition monitored_wait_flag (op : Operation) : bool :=
  match op with
  | Deploy _ => true
  | Destroy _ => false
  end.

(** ** A family of concrete remote services

    The stack [Orders] in one account and region, against a remote side
    whose answers do not depend on the history; each scenario fixes the
    answers that matter to it. *)

Definition orders_environment : Environment :=
  {| env_account := "123456789012"; env_region := "eu-west-1";
     env_name := "aws://123456789012/eu-west-1" |}.

Definition orders_template : json :=
  JObj [("Resources",
         JObj [("Queue", JObj [("Type", JStr "AWS::SQS::Queue")])]);
        ("Outputs",
         JObj [("QueueName", JObj [("Value", JStr "orders-queue")])])].

(** The same document with the two top-level keys in the other order. *)
Definition orders_template_reordered : json :=
  JObj [("Outputs",
         JObj [("QueueName", JObj [("Value", JStr "orders-queue")])]);
        ("Resources",
         JObj [("Queue", JObj [("Type", JStr "AWS::SQS::Queue")])])].

Definition orders_stack : CloudFormationStackArtifact :=
  {| art_id := "Orders"; art_stackName := "Orders";
     art_displayName := "Orders"; art_template := orders_template;
     art_environment := Some orders_environment |}.

Definition orders_arn : string :=
  "arn:aws:cloudformation:eu-west-1:123456789012:stack/Orders/1".

Definition orders_description (status : string) : Stack :=
  {| StackId := Some orders_arn; StackStatus := status;
     Outputs := Some [{| OutputKey := "QueueName";
                         OutputValue := "orders-queue" |}] |}.

Definition deploy_options (toolkit : option ToolkitInfo)
    (execute quiet force : option bool) : DeployStackOptions :=
  {| dso_stack := orders_stack; dso_toolkitInfo := toolkit;
     dso_roleArn := None; dso_notificationArns := None;
     dso_deployName := None; dso_quiet := quiet; dso_reuseAssets := None;
     dso_tags := None; dso_execute := execute; dso_parameters := None;
     dso_force := force |}.

Definition destroy_options : DestroyStackOptions :=
  {| dst_stack := orders_stack; dst_roleArn := None; dst_deployName := None;
     dst_quiet := None |}.

(** The answers that vary between the scenarios. *)
Record Scenario : Type := {
  sc_stacks : Outcome DescribeStacksOutput;
  sc_template : Outcome GetTemplateOutput;
  sc_parsed : json;
  sc_yaml : string;
  sc_failed : bool;
  sc_exists : bool;
  sc_wait : bool -> Outcome (option Stack);
  sc_changeset : DescribeChangeSetOutput
}.

(** An empty changeset as CloudFormation reports it. *)
Definition no_changes_reason : string :=
  "The submitted information didn't contain changes.".

Definition scenario_has_no_changes (d : DescribeChangeSetOutput) : bool :=
  match dcs_Status d, dcs_StatusReason d with
  | Some status, Some reason =>
      String.eqb status "FAILED" && String.prefix no_changes_reason reason
  | _, _ => false
  end.

Definition world_of (sc : Scenario) : World :=
  {| sdk_cloudFormation := fun _ _ _ _ => Ok tt;
     cfn_describeStacks := fun _ _ => sc_stacks sc;
     cfn_getTemplate := fun _ _ => sc_template sc;
     cfn_deleteStack := fun _ _ _ => Ok tt;
     cfn_createChangeSet := fun _ _ =>
       Ok {| ccs_Id := Some "changeset-1"; ccs_StackId := Some orders_arn |};
     cfn_deleteChangeSet := fun _ _ _ => Ok tt;
     cfn_executeChangeSet := fun _ _ _ => Ok tt;
     util_describeStack := fun _ _ =>
       Ok (Some (orders_description "UPDATE_COMPLETE"));
     util_stackExists := fun _ _ => Ok (sc_exists sc);
     util_stackFailedCreating := fun _ _ => Ok (sc_failed sc);
     util_waitForStack := fun _ _ flag => sc_wait sc flag;
     util_waitForChangeSet := fun _ _ _ => Ok (sc_changeset sc);
     assets_prepareAssets := fun _ _ _ _ => Ok [];
     toolkit_uploadIfChanged := fun _ _ _ _ => Ok "cdk/Orders/0a1b.yml";
     monitor_stop := fun _ _ => Ok tt;
     uuid_v4 := fun _ => "110ec58a-a0f2-4ac4-8393-c866d813b8d1";
     toYAML := fun _ => sc_yaml sc;
     deserializeStructure := fun _ => Ok (sc_parsed sc);
     changeSetHasNoChanges := scenario_has_no_changes;
     StackStatus_toString := StackStatus |}.

Definition one_change : DescribeChangeSetOutput :=
  {| dcs_Status := Some "CREATE_COMPLETE"; dcs_StatusReason := None;
     dcs_Changes := Some [{| change_LogicalResourceId := "Queue" |}] |}.

Definition empty_changeset : DescribeChangeSetOutput :=
  {| dcs_Status := Some "FAILED";
     dcs_StatusReason := Some no_changes_reason;
     dcs_Changes := Some [] |}.

Definition orders_yaml : string :=
  "Resources: {Queue: {Type: 'AWS::SQS::Queue'}}".

Definition orders_deployed : Outcome DescribeStacksOutput :=
  Ok {| Stacks := Some [orders_description "CREATE_COMPLETE"] |}.

Definition orders_body : Outcome GetTemplateOutput :=
  Ok {| got_TemplateBody := Some orders_yaml |}.

Definition wait_ok (_ : bool) : Outcome (option Stack) :=
  Ok (Some (orders_description "UPDATE_COMPLETE")).

(** The deployed template is the desired one. *)
Definition unchanged : Scenario :=
  {| sc_stacks := orders_deployed; sc_template := orders_body;
     sc_parsed := orders_template; sc_yaml := orders_yaml;
     sc_failed := false; sc_exists := true; sc_wait := wait_ok;
     sc_changeset := one_change |}.

(** The deployed template has the keys of the desired one in another order. *)
Definition reordered : Scenario :=
  {| sc_stacks := orders_deployed; sc_template := orders_body;
     sc_parsed := orders_template_reordered; sc_yaml := orders_yaml;
     sc_failed := false; sc_exists := true; sc_wait := wait_ok;
     sc_changeset := one_change |}.

(** Nothing is deployed yet; the changeset has one change. *)
Definition first_deployment : Scenario :=
  {| sc_stacks := Ok {| Stacks := Some [] |};
     sc_template := Throw (mkError (Some "ValidationError")
                             (not_exist_message "Orders"));
     sc_parsed := JObj []; sc_yaml := orders_yaml;
     sc_failed := false; sc_exists := false; sc_wait := wait_ok;
     sc_changeset := one_change |}.

Definition timeout_error : JsError :=
  mkError (Some "TimeoutError") "Connection timed out after 120000ms".

(** As [first_deployment], but the wait for the stack throws. *)
Definition wait_fails : Scenario :=
  {| sc_stacks := Ok {| Stacks := Some [] |};
     sc_template := Throw (mkError (Some "ValidationError")
                             (not_exist_message "Orders"));
     sc_parsed := JObj []; sc_yaml := orders_yaml;
     sc_failed := false; sc_exists := true;
     sc_wait := fun _ => Throw timeout_error;
     sc_changeset := one_change |}.

(** A stack left in [ROLLBACK_COMPLETE] whose deletion fails. *)
Definition stuck_deletion : Scenario :=
  {| sc_stacks := Ok {| Stacks := Some [orders_description "ROLLBACK_COMPLETE"] |};
     sc_template := Ok {| got_TemplateBody := None |};
     sc_parsed := JObj []; sc_yaml := orders_yaml;
     sc_failed := true; sc_exists := true;
     sc_wait := fun _ => Ok (Some (orders_description "DELETE_FAILED"));
     sc_changeset := one_change |}.

(** The changeset stabilizes without changes. *)
Definition nothing_to_change : Scenario :=
  {| sc_stacks := orders_deployed; sc_template := orders_body;
     sc_parsed := JObj []; sc_yaml := orders_yaml;
     sc_failed := false; sc_exists := true; sc_wait := wait_ok;
     sc_changeset := empty_changeset |}.

(** A serialized template of 51201 characters. *)
Definition oversized : Scenario :=
  {| sc_stacks := Ok {| Stacks := Some [] |};
     sc_template := Ok {| got_TemplateBody := None |};
     sc_parsed := JObj [];
     sc_yaml := string_of_list_ascii (repeat "a"%char (Z.to_nat 51201));
     sc_failed := false; sc_exists := false; sc_wait := wait_ok;
     sc_changeset := one_change |}.

(** A serialized template of 30007 characters [e-acute] (code unit 233):
    within 50 * 1024 by its [length], 60014 bytes in UTF-8. *)
Definition accented_yaml : string :=
  string_of_list_ascii (repeat (ascii_of_nat 233) (Z.to_nat 30007)).

Definition accented : Scenario :=
  {| sc_stacks := Ok {| Stacks := Some [] |};
     sc_template := Ok {| got_TemplateBody := None |};
     sc_parsed := JObj [];
     sc_yaml := accented_yaml;
     sc_failed := false; sc_exists := false; sc_wait := wait_ok;
     sc_changeset := one_change |}.

(** The stack is deployed, but reading its template fails with a message
    that says so in other words. *)
Definition vanished_error : JsError :=
  mkError (Some "ValidationError") "Stack [Orders] does not exist".

Definition template_vanished : Scenario :=
  {| sc_stacks := orders_deployed; sc_template := Throw vanished_error;
     sc_parsed := JObj []; sc_yaml := orders_yaml;
     sc_failed := false; sc_exists := true; sc_wait := wait_ok;
     sc_changeset := one_change |}.

(** Describing the stack fails because it does not exist. *)
Definition not_found_error : JsError :=
  mkError (Some "ValidationError") (not_exist_message "Orders").

Definition never_deployed : Scenario :=
  {| sc_stacks := Throw not_found_error; sc_template := Throw not_found_error;
     sc_parsed := JObj []; sc_yaml := orders_yaml;
     sc_failed := false; sc_exists := false; sc_wait := wait_ok;
     sc_changeset := one_change |}.

(** Deep equality of two documents that disregards the order of the keys of
    an object: what [deep structural equality] means when whitespace and key
    ordering are to be immaterial. *)
Fixpoint json_deep_equal (a b : json) : bool :=
  match a, b with
  | JNull, JNull => true
  | JBool x, JBool y => Bool.eqb x y
  | JNum x, JNum y => Z.eqb x y
  | JStr x, JStr y => String.eqb x y
  | JArr xs, JArr ys =>
      (fix items (xs ys : list json) : bool :=
         match xs, ys with
         | [], [] => true
         | x :: xs', y :: ys' => json_deep_equal x y && items xs' ys'
         | _, _ => false
         end) xs ys
  | JObj ms, JObj ns =>
      Nat.eqb (length ms) (length ns) &&
      (fix members (ms : list (string * json)) : bool :=
         match ms with
         | [] => true
         | (key, x) :: ms' =>
             match List.find (fun kv => String.eqb (fst kv) key) ns with
             | Some (_, y) => json_deep_equal x y
             | None => false
             end && members ms'
         end) ms
  | _, _ => false
  end.

(** ** Reading [JSON.stringify] backwards

    What is needed to show that the text determines the document. *)
(** Decoding one character of a quoted string: the inverse of
    [escape_char], undefined at the closing quote. *)
Definition hex_value (c : ascii) : option nat :=
  let n := nat_of_ascii c in
  if Nat.leb 48 n && Nat.leb n 57 then Some (n - 48)%nat
  else if Nat.leb 97 n && Nat.leb n 102 then Some (n - 87)%nat
  else None.

Definition unescape_head (s : string) : option (ascii * string) :=
  match s with
  | EmptyString => None
  | String c rest =>
      if Ascii.eqb c dquote then None
      else if Ascii.eqb c backslash then
        match rest with
        | EmptyString => None
        | String x rest' =>
            if Ascii.eqb x dquote then Some (dquote, rest')
            else if Ascii.eqb x backslash then Some (backslash, rest')
            else if Ascii.eqb x "b" then Some (ascii_of_nat 8, rest')
            else if Ascii.eqb x "t" then Some (ascii_of_nat 9, rest')
            else if Ascii.eqb x "n" then Some (ascii_of_nat 10, rest')
            else if Ascii.eqb x "f" then Some (ascii_of_nat 12, rest')
            else if Ascii.eqb x "r" then Some (ascii_of_nat 13, rest')
            else if Ascii.eqb x "u" then
              match rest' with
              | String "0" (String "0" (String h1 (String h2 rest''))) =>
                  match hex_value h1, hex_value h2 with
                  | Some a, Some b => Some (ascii_of_nat (16 * a + b), rest'')
                  | _, _ => None
                  end
              | _ => None
              end
            else None
        end
      else Some (c, rest)
  end.

Definition is_number_char (c : ascii) : bool :=
  let n := nat_of_ascii c in
  Nat.eqb n 45 || (Nat.leb 48 n && Nat.leb n 57).

(** A continuation that cannot be mistaken for more digits. *)
Definition delimited (r : string) : Prop :=
  match r with
  | EmptyString => True
  | String c _ => is_number_char c = false
  end.

(** The constructor of a document, and the one announced by the first
    character of a text. *)
Definition tag (v : json) : nat :=
  match v with
  | JNull => 0 | JBool true => 1 | JBool false => 2 | JNum _ => 3
  | JStr _ => 4 | JArr _ => 5 | JObj _ => 6
  end.

Definition tag_of_char (c : ascii) : nat :=
  let n := nat_of_ascii c in
  if Nat.eqb n 110 then 0
  else if Nat.eqb n 116 then 1
  else if Nat.eqb n 102 then 2
  else if is_number_char c then 3
  else if Nat.eqb n 34 then 4
  else if Nat.eqb n 91 then 5
  else if Nat.eqb n 123 then 6
  else 7.

Definition head_tag (s : string) : nat :=
  match s with
  | EmptyString => 7
  | String c _ => tag_of_char c
  end.

Fixpoint all_number_chars (s : string) : bool :=
  match s with
  | EmptyString => true
  | String c rest => is_number_char c && all_number_chars rest
  end.

(** The text of a member of an object. *)
Definition member_text (kv : string * json) : string :=
  quote (fst kv) +:+ ":" +:+ JSON_stringify (snd kv).

(** An item printed by [f] can be read off the front of a text. *)
Definition item_inj {A : Type} (f : A -> string) (a : A) : Prop :=
  forall a' X X',
    delimited X -> delimited X' ->
    f a +:+ X = f a' +:+ X' -> a = a' /\ X = X'.

(** The items after the first, each behind its comma. *)
Definition more (parts : list string) : string :=
  fold_right (fun q acc => "," +:+ q +:+ acc) "" parts.

(** ** Anatomy of a deployment

    The course of [deployStack] call by call, with the values that pass
    from one call to the next. *)

Definition error_of {A} (r : Outcome A) : option JsError :=
  match r with
  | Ok _ => None
  | Throw e => Some e
  end.

Definition is_session_event (e : Event) : bool :=
  match e with EvCloudFormation _ _ _ _ => true | _ => false end.

Definition is_skip_read (e : Event) : bool :=
  match e with
  | EvDescribeStacks _ _ | EvGetTemplate _ _ => true
  | _ => false
  end.

Definition is_change_set_call (e : Event) : bool :=
  match e with
  | EvCreateChangeSet _ _ | EvDeleteChangeSet _ _ _
  | EvExecuteChangeSet _ _ _ | EvWaitForChangeSet _ _ _ => true
  | _ => false
  end.

Definition is_monitor_event (e : Event) : bool :=
  is_monitor_start e || is_monitor_stop e.

Definition is_proceed_event (e : Event) : bool :=
  is_staging_event e || is_recovery_event e || is_request_event e ||
  is_conclusion_event e.

Definition proceed_only (h : list Event) : Prop :=
  List.Forall (fun e => is_proceed_event e = true) h.

(** The caller's parameters that reach the changeset: those with a
    non-empty value, in the order of [Object.entries]. *)
Definition accepted_parameters (entries : list (string * option string))
  : list StackParameter :=
  flat_map
    (fun entry =>
       match snd entry with
       | Some value =>
           if String.eqb value "" then []
           else [{| ParameterKey := fst entry; ParameterValue := value |}]
       | None => []
       end)
    entries.

(** The answer of the asset preparer at history [h], and its event. *)
Definition assets_answer (o : DeployStackOptions) (w : World)
    (h : list Event) : Outcome (list StackParameter) :=
  assets_prepareAssets w h (dso_stack o) (dso_toolkitInfo o)
    (dso_reuseAssets o).

Definition assets_event (o : DeployStackOptions)
    (pa : Outcome (list StackParameter)) : Event :=
  EvPrepareAssets (dso_stack o) (dso_toolkitInfo o) (dso_reuseAssets o) pa.

(** What follows the request for changeset [cs], by its outcome. *)
Inductive after_request (o : DeployStackOptions) (w : World) (n cs : string)
  : Outcome CreateChangeSetOutput -> Outcome DeployStackResult ->
    list Event -> Prop :=
| request_throws e :
    after_request o w n cs (Throw e) (Throw e) []
| stabilize_throws c e :
    after_request o w n cs (Ok c) (Throw e)
      [EvWaitForChangeSet n cs (Throw e)]
| request_concluded c desc r s4 :
    conclusion o w n cs c desc r s4 ->
    after_request o w n cs (Ok c) r
      (EvWaitForChangeSet n cs (Ok desc) :: s4).

(** The runs of [deployStack_proceed] from history [h]. *)
Inductive proceeding (o : DeployStackOptions) (w : World) (n : string)
    (h : list Event) : Outcome DeployStackResult -> list Event -> Prop :=
| proceeding_assets_throw e :
    assets_answer o w h = Throw e ->
    proceeding o w n h (Throw e) (h ++ [assets_event o (Throw e)])%list
| proceeding_body_throws assets e hb :
    assets_answer o w h = Ok assets ->
    makeBodyParameter (dso_stack o) (dso_toolkitInfo o) w
      (h ++ [assets_event o (Ok assets)])%list = (Throw e, hb) ->
    proceeding o w n h (Throw e) hb
| proceeding_recovery_throws assets body hb e s2 :
    assets_answer o w h = Ok assets ->
    makeBodyParameter (dso_stack o) (dso_toolkitInfo o) w
      (h ++ [assets_event o (Ok assets)])%list = (Ok body, hb) ->
    recovery n (Throw e) s2 ->
    proceeding o w n h (Throw e) (hb ++ s2)%list
| proceeding_exists_throws assets body hb s2 e :
    assets_answer o w h = Ok assets ->
    makeBodyParameter (dso_stack o) (dso_toolkitInfo o) w
      (h ++ [assets_event o (Ok assets)])%list = (Ok body, hb) ->
    recovery n (Ok tt) s2 ->
    proceeding o w n h (Throw e)
      (hb ++ s2 ++ [EvStackExists n (Throw e)])%list
| proceeding_requested assets body hb s2 update out r post :
    assets_answer o w h = Ok assets ->
    makeBodyParameter (dso_stack o) (dso_toolkitInfo o) w
      (h ++ [assets_event o (Ok assets)])%list = (Ok body, hb) ->
    recovery n (Ok tt) s2 ->
    let executionId := uuid_v4 w (h ++ [assets_event o (Ok assets)])%list in
    let input :=
      change_set_input o n executionId update body
        (push_parameters assets (dso_parameters o)) in
    after_request o w n (ccs_ChangeSetName input) out r post ->
    proceeding o w n h r
      (hb ++ s2 ++ EvStackExists n (Ok update) ::
             EvCreateChangeSet input out :: post)%list.

(** The result of the skip: the no-op result built from the answer of the
    describe that reads the outputs. *)
Definition skipped (o : DeployStackOptions) (d : DeployedTemplate)
    (dr : Outcome (option Stack)) : Outcome DeployStackResult :=
  match dr with
  | Ok x => Ok (deploy_result o true (outputs_of x) (Some (deployed_stackId d)))
  | Throw e => Throw e
  end.

(** The runs of [deployStack]. *)
Inductive deploying (o : DeployStackOptions) (w : World)
  : Outcome DeployStackResult -> list Event -> Prop :=
| deploying_no_environment :
    art_environment (dso_stack o) = None ->
    deploying o w
      (Throw (Error (no_environment_message (art_displayName (dso_stack o)))))
      []
| deploying_session_throws env e :
    art_environment (dso_stack o) = Some env ->
    sdk_cloudFormation w [] (env_account env) (env_region env) ForWriting =
    Throw e ->
    deploying o w (Throw e)
      [EvCloudFormation (env_account env) (env_region env) ForWriting (Throw e)]
| deploying_forced env r tr :
    art_environment (dso_stack o) = Some env ->
    session_granted w env ->
    truthy_flag (dso_force o) = true ->
    proceeding o w (deploy_name o) [session_event env] r tr ->
    deploying o w r tr
| deploying_lookup_throws env e h2 :
    art_environment (dso_stack o) = Some env ->
    session_granted w env ->
    truthy_flag (dso_force o) = false ->
    getDeployedTemplate (deploy_name o) w [session_event env] = (Throw e, h2) ->
    deploying o w (Throw e) h2
| deploying_absent env h2 r tr :
    art_environment (dso_stack o) = Some env ->
    session_granted w env ->
    truthy_flag (dso_force o) = false ->
    getDeployedTemplate (deploy_name o) w [session_event env] = (Ok None, h2) ->
    proceeding o w (deploy_name o) h2 r tr ->
    deploying o w r tr
| deploying_changed env d h2 r tr :
    art_environment (dso_stack o) = Some env ->
    session_granted w env ->
    truthy_flag (dso_force o) = false ->
    getDeployedTemplate (deploy_name o) w [session_event env] =
    (Ok (Some d), h2) ->
    art_template (dso_stack o) <> deployed_template d ->
    proceeding o w (deploy_name o) h2 r tr ->
    deploying o w r tr
| deploying_skipped env d h2 :
    art_environment (dso_stack o) = Some env ->
    session_granted w env ->
    truthy_flag (dso_force o) = false ->
    getDeployedTemplate (deploy_name o) w [session_event env] =
    (Ok (Some d), h2) ->
    art_template (dso_stack o) = deployed_template d ->
    let dr := util_describeStack w h2 (deploy_name o) in
    deploying o w (skipped o d dr)
      (h2 ++ [EvDescribeStack (deploy_name o) dr])%list.

Definition skip_reads_only (h : list Event) : Prop :=
  List.Forall (fun e => is_skip_read e = true) h.

(** The stack an operation works on, whether it was asked to be quiet, and
    the error it ends with, if any. *)
Definition operation_stack (op : Operation) : CloudFormationStackArtifact :=
  match op with
  | Deploy o => dso_stack o
  | Destroy o => dst_stack o
  end.

Definition operation_quiet (op : Operation) : bool :=
  match op with
  | Deploy o => truthy_flag (dso_quiet o)
  | Destroy o => truthy_flag (dst_quiet o)
  end.

Definition operation_error (op : Operation) (w : World) : option JsError :=
  match op with
  | Deploy o => error_of (fst (run (deployStack o) w))
  | Destroy o => error_of (fst (run (destroyStack o) w))
  end.

(** A stack that was synthesized without an environment. *)
Definition homeless_stack : CloudFormationStackArtifact :=
  {| art_id := "Orders"; art_stackName := "Orders";
     art_displayName := "Orders"; art_template := orders_template;
     art_environment := None |}.

Definition homeless_options : DeployStackOptions :=
  {| dso_stack := homeless_stack; dso_toolkitInfo := None;
     dso_roleArn := None; dso_notificationArns := None;
     dso_deployName := None; dso_quiet := None; dso_reuseAssets := None;
     dso_tags := None; dso_execute := None; dso_parameters := None;
     dso_force := None |}.

(** A toolkit bucket, and a deployment with parameters of which one is
    undefined and one empty. *)
Definition orders_toolkit : ToolkitInfo :=
  {| bucketUrl := "https://s3.eu-west-1.amazonaws.com/cdk-toolkit" |}.

Definition parameterized_options : DeployStackOptions :=
  {| dso_stack := orders_stack; dso_toolkitInfo := Some orders_toolkit;
     dso_roleArn := Some "arn:aws:iam::123456789012:role/deployer";
     dso_notificationArns := None;
     dso_deployName := None; dso_quiet := None; dso_reuseAssets := None;
     dso_tags := None; dso_execute := None;
     dso_parameters :=
       Some [("Retention", Some "14"); ("Alias", None); ("Suffix", Some "");
             ("Tier", Some "standard")];
     dso_force := None |}.

Definition is_upload (e : Event) : bool :=
  match e with EvUploadIfChanged _ _ _ _ => true | _ => false end.

(** The request of a first deployment of [Orders] without a toolkit bucket,
    and the answer of the scenarios to any request. *)
Definition scenario_execution_id : string :=
  "110ec58a-a0f2-4ac4-8393-c866d813b8d1".

Definition first_request : CreateChangeSetInput :=
  change_set_input (deploy_options None None None None) "Orders"
    scenario_execution_id false
    {| TemplateBody := Some orders_yaml; TemplateURL := None |} [].

Definition changeset_answer : Outcome CreateChangeSetOutput :=
  Ok {| ccs_Id := Some "changeset-1"; ccs_StackId := Some orders_arn |}.

Definition parameterized_request : CreateChangeSetInput :=
  change_set_input parameterized_options "Orders" scenario_execution_id false
    {| TemplateBody := None;
       TemplateURL :=
         Some (bucketUrl orders_toolkit +:+ "/" +:+ "cdk/Orders/0a1b.yml") |}
    [{| ParameterKey := "Retention"; ParameterValue := "14" |};
     {| ParameterKey := "Tier"; ParameterValue := "standard" |}].

(** What is done with a stabilized changeset: it is executed or deleted. *)
Definition verdict (execute : bool) (n cs : string) (x : Outcome unit) : Event :=
  if execute then EvExecuteChangeSet n cs x else EvDeleteChangeSet n cs x.

Definition is_verdict (e : Event) : bool :=
  match e with
  | EvExecuteChangeSet _ _ _ | EvDeleteChangeSet _ _ _ => true
  | _ => false
  end.

(** ** Anatomy of a destruction *)

Definition destroy_name (o : DestroyStackOptions) : string :=
  or_string (dst_deployName o) (art_stackName (dst_stack o)).

Definition destroy_monitor_started (o : DestroyStackOptions) : list Event :=
  if truthy_flag (dst_quiet o) then []
  else [EvMonitorStart (destroy_name o) None].

Definition destroy_monitor_stopped (o : DestroyStackOptions) : list Event :=
  if truthy_flag (dst_quiet o) then []
  else [EvMonitorStop (destroy_name o) (Ok tt)].

(** The outcome of [destroyStack] once the wait for the deletion returned. *)
Definition destroyed (o : DestroyStackOptions) (w : World)
    (st : option Stack) : Outcome unit :=
  match st with
  | Some d =>
      if String.eqb (StackStatus d) "DELETE_COMPLETE" then Ok tt
      else Throw (Error (failed_destroy_message (destroy_name o)
                           (StackStatus_toString w d)))
  | None => Ok tt
  end.

(** The runs of [destroyStack]. *)
Inductive destroying (o : DestroyStackOptions) (w : World)
  : Outcome unit -> list Event -> Prop :=
| destroying_no_environment :
    art_environment (dst_stack o) = None ->
    destroying o w
      (Throw (Error (no_environment_message (art_displayName (dst_stack o)))))
      []
| destroying_session_throws env e :
    art_environment (dst_stack o) = Some env ->
    destroying o w (Throw e)
      [EvCloudFormation (env_account env) (env_region env) ForWriting (Throw e)]
| destroying_exists_throws env e :
    art_environment (dst_stack o) = Some env ->
    destroying o w (Throw e)
      [session_event env; EvStackExists (destroy_name o) (Throw e)]
| destroying_absent env :
    art_environment (dst_stack o) = Some env ->
    destroying o w (Ok tt)
      [session_event env; EvStackExists (destroy_name o) (Ok false)]
| destroying_delete_throws env e :
    art_environment (dst_stack o) = Some env ->
    destroying o w (Throw e)
      (session_event env :: EvStackExists (destroy_name o) (Ok true) ::
       destroy_monitor_started o ++
       [EvDeleteStack (destroy_name o) (dst_roleArn o) (Throw e)])%list
| destroying_wait_throws env e :
    art_environment (dst_stack o) = Some env ->
    destroying o w (Throw e)
      (session_event env :: EvStackExists (destroy_name o) (Ok true) ::
       destroy_monitor_started o ++
       [EvDeleteStack (destroy_name o) (dst_roleArn o) (Ok tt);
        EvWaitForStack (destroy_name o) false (Throw e)])%list
| destroying_stop_throws env st e :
    art_environment (dst_stack o) = Some env ->
    truthy_flag (dst_quiet o) = false ->
    destroying o w (Throw e)
      [session_event env; EvStackExists (destroy_name o) (Ok true);
       EvMonitorStart (destroy_name o) None;
       EvDeleteStack (destroy_name o) (dst_roleArn o) (Ok tt);
       EvWaitForStack (destroy_name o) false (Ok st);
       EvMonitorStop (destroy_name o) (Throw e)]
| destroying_waited env st :
    art_environment (dst_stack o) = Some env ->
    destroying o w (destroyed o w st)
      (session_event env :: EvStackExists (destroy_name o) (Ok true) ::
       destroy_monitor_started o ++
       EvDeleteStack (destroy_name o) (dst_roleArn o) (Ok tt) ::
       EvWaitForStack (destroy_name o) false (Ok st) ::
       destroy_monitor_stopped o)%list.

(** ** Errors of the calls

    The error with which a call was answered, and whether the catch around
    the call absorbs it: [getStackId] absorbs what mentions [does not
    exist], [readCurrentTemplate] the validation error with the message for
    the stack it asked for. *)
Definition thrown (e : Event) : option JsError :=
  match e with
  | EvCloudFormation _ _ _ r => error_of r
  | EvDescribeStacks _ r => error_of r
  | EvGetTemplate _ r => error_of r
  | EvDeleteStack _ _ r => error_of r
  | EvCreateChangeSet _ r => error_of r
  | EvDeleteChangeSet _ _ r => error_of r
  | EvExecuteChangeSet _ _ r => error_of r
  | EvDescribeStack _ r => error_of r
  | EvStackExists _ r => error_of r
  | EvStackFailedCreating _ r => error_of r
  | EvWaitForStack _ _ r => error_of r
  | EvWaitForChangeSet _ _ r => error_of r
  | EvPrepareAssets _ _ _ r => error_of r
  | EvUploadIfChanged _ _ _ r => error_of r
  | EvMonitorStart _ _ => None
  | EvMonitorStop _ r => error_of r
  end.

Definition absorbed (e : Event) : bool :=
  match e with
  | EvDescribeStacks _ (Throw err) =>
      includes "does not exist" (err_message err)
  | EvGetTemplate n (Throw err) =>
      code_is err "ValidationError" &&
      String.eqb (err_message err) (not_exist_message n)
  | _ => false
  end.

Definition harmless (e : Event) : bool :=
  match thrown e with
  | Some _ => absorbed e
  | None => true
  end.

(** A trace in which the first call that failed for good is the last call,
    and its error is [err]. *)
Fixpoint fails_fast (err : option JsError) (s : list Event) : Prop :=
  match s with
  | [] => True
  | e :: rest =>
      if harmless e then fails_fast err rest
      else rest = [] /\ err = thrown e
  end.


(** * Properties *)

Ltac unfold_ops :=
  unfold cloudFormation, describeStacks, getTemplate, deleteStack,
    createChangeSet, deleteChangeSet, executeChangeSet, describeStack,
    stackExists, stackFailedCreating, waitForStack, waitForChangeSet,
    prepareAssets, uploadIfChanged, monitorStart, monitorStop in *.

Ltac unfold_monad :=
  unfold run, bind, try_catch, perform, emit, asks, lift, ret, throw in *.

(** One step of symbolic execution: case on the innermost scrutinee at the
    head of the run equation [H]. *)
Ltac head_scrutinee t :=
  match t with
  | match ?x with _ => _ end => head_scrutinee x
  | match ?x with _ => _ end => constr:(x)
  | ?f _ => head_scrutinee f
  end.

Ltac head_step H :=
  lazymatch type of H with
  | ?lhs = _ =>
      let x := head_scrutinee lhs in
      destruct x eqn:?; cbn beta iota in H
  end.

Ltac unit_tt := repeat match goal with u : unit |- _ => destruct u end.

Ltac tidy_trace := rewrite <- ?app_assoc in *; cbn [app] in *.

Ltac finish_in H :=
  cbn in H; repeat (destruct H as [H | H]); simplify_eq; try contradiction.

(** ** [JSON.stringify] determines the document *)

Lemma append_cons (c : ascii) (s b : string) :
  String c s +:+ b = String c (s +:+ b).
Proof. reflexivity. Qed.

Lemma append_nil_l (s : string) : "" +:+ s = s.
Proof. reflexivity. Qed.

Lemma append_assoc (a b c : string) : (a +:+ b) +:+ c = a +:+ b +:+ c.
Proof.
  induction a as [| x a IH]; [reflexivity |].
  now rewrite !append_cons, IH.
Qed.

Lemma unescape_escape_char (c : ascii) (rest : string) :
  unescape_head (escape_char c +:+ rest) = Some (c, rest).
Proof.
  destruct c as [[] [] [] [] [] [] [] []]; reflexivity.
Qed.

Lemma escape_inj (s s' t t' : string) :
  escape s +:+ String dquote t = escape s' +:+ String dquote t' ->
  s = s' /\ t = t'.
Proof.
  revert s'. induction s as [| c s IH]; intros [| c' s'] H.
  - cbn in H. rewrite !append_nil_l in H. now inversion H.
  - cbn [escape] in H. rewrite append_nil_l, append_assoc in H.
    apply (f_equal unescape_head) in H. rewrite unescape_escape_char in H.
    discriminate H.
  - cbn [escape] in H. rewrite append_nil_l, append_assoc in H.
    apply (f_equal unescape_head) in H. rewrite unescape_escape_char in H.
    discriminate H.
  - cbn [escape] in H. rewrite !append_assoc in H.
    pose proof (f_equal unescape_head H) as Hh.
    rewrite !unescape_escape_char in Hh. inversion Hh as [[Hc Hrest]].
    apply IH in Hrest as [-> ->]. auto.
Qed.

Lemma quote_inj (s s' t t' : string) :
  quote s +:+ t = quote s' +:+ t' -> s = s' /\ t = t'.
Proof.
  unfold quote. rewrite !append_cons, !append_assoc, !append_cons, !append_nil_l.
  intros H. inversion H as [H']. now apply escape_inj in H'.
Qed.

Lemma uint_number_chars (d : Decimal.uint) :
  all_number_chars (NilEmpty.string_of_uint d) = true.
Proof. induction d; cbn; auto. Qed.

Lemma number_to_string_chars (n : Z) :
  all_number_chars (number_to_string n) = true.
Proof.
  unfold number_to_string, NilZero.string_of_int, NilZero.string_of_uint.
  destruct (Z.to_int n) as [d | d]; destruct d; cbn;
    try reflexivity; apply uint_number_chars.
Qed.

Lemma number_to_string_inj (n m : Z) :
  number_to_string n = number_to_string m -> n = m.
Proof.
  unfold number_to_string. intros H.
  apply (f_equal NilZero.int_of_string) in H.
  assert (Hnn : forall z, Z.to_int z <> Decimal.Pos Decimal.Nil /\
                          Z.to_int z <> Decimal.Neg Decimal.Nil).
  { intros z. destruct z as [| p | p]; cbn; split; try discriminate;
      intros Hp; inversion Hp as [Hq];
      now apply (DecimalPos.Unsigned.to_uint_nonnil p). }
  rewrite !NilZero.isi in H by apply Hnn.
  inversion H as [Hz]. apply (f_equal Z.of_int) in Hz.
  now rewrite !DecimalZ.of_to in Hz.
Qed.

Lemma number_split (d d' r r' : string) :
  all_number_chars d = true -> all_number_chars d' = true ->
  delimited r -> delimited r' ->
  d +:+ r = d' +:+ r' -> d = d' /\ r = r'.
Proof.
  revert d'. induction d as [| c d IH]; intros [| c' d'] Hd Hd' Hr Hr' H.
  - auto.
  - rewrite append_nil_l, append_cons in H. subst r. cbn in Hr, Hd'.
    apply andb_true_iff in Hd' as [Hc _]. congruence.
  - rewrite append_nil_l, append_cons in H. subst r'. cbn in Hr', Hd.
    apply andb_true_iff in Hd as [Hc _]. congruence.
  - rewrite !append_cons in H. inversion H as [[Hc Hrest]].
    cbn in Hd, Hd'. apply andb_true_iff in Hd as [_ Hd].
    apply andb_true_iff in Hd' as [_ Hd'].
    destruct (IH d' Hd Hd' Hr Hr' Hrest) as [-> ->]. auto.
Qed.

Lemma number_nonempty (n : Z) :
  exists c rest, number_to_string n = String c rest /\ is_number_char c = true.
Proof.
  pose proof (number_to_string_chars n) as Hall.
  destruct (number_to_string n) as [| c rest] eqn:E.
  - exfalso. unfold number_to_string in E.
    destruct (Z.to_int n) as [u | u]; destruct u; discriminate E.
  - cbn in Hall. apply andb_true_iff in Hall as [Hc _]. eauto.
Qed.

Lemma append_nil_r (s : string) : s +:+ "" = s.
Proof. induction s as [| c s IH]; [reflexivity |]. now rewrite append_cons, IH. Qed.

Lemma append_inv_head (a r r' : string) : a +:+ r = a +:+ r' -> r = r'.
Proof.
  induction a as [| c a IH]; [auto |].
  rewrite !append_cons. intros H. inversion H. auto.
Qed.

Lemma number_char_tag (c : ascii) :
  is_number_char c = true -> tag_of_char c = 3%nat.
Proof. destruct c as [[] [] [] [] [] [] [] []]; vm_compute; congruence. Qed.

Lemma tag_bound (v : json) : tag v <> 7%nat.
Proof. destruct v as [| [] | | | |]; discriminate. Qed.

Lemma stringify_head (v : json) (r : string) :
  head_tag (JSON_stringify v +:+ r) = tag v.
Proof.
  destruct v as [| [] | n | s | l | ms]; try reflexivity.
  cbn [JSON_stringify tag].
  destruct (number_nonempty n) as (c & rest & -> & Hc).
  rewrite append_cons. cbn [head_tag]. now apply number_char_tag.
Qed.

Section Joined.

Context {A : Type} (f : A -> string) (close : ascii).
Hypothesis close_tag : tag_of_char close = 7%nat.
Hypothesis close_delimits : is_number_char close = false.
Hypothesis close_not_comma : close <> ","%char.
Hypothesis f_head : forall a X, head_tag (f a +:+ X) <> 7%nat.

Lemma more_delimited (l : list A) (r : string) :
  delimited (more (List.map f l) +:+ String close r).
Proof. destruct l; [exact close_delimits | reflexivity]. Qed.

Lemma more_inj (l : list A) :
  List.Forall (item_inj f) l ->
  forall l' r r',
    more (List.map f l) +:+ String close r =
    more (List.map f l') +:+ String close r' ->
    l = l' /\ r = r'.
Proof.
  induction 1 as [| x xs Hx _ IH]; intros [| y ys] r r' H.
  - cbn in H. rewrite !append_nil_l in H. now inversion H.
  - cbn in H. rewrite append_nil_l, append_assoc, append_cons in H.
    inversion H. contradiction.
  - cbn in H. rewrite append_nil_l, append_assoc, append_cons in H.
    inversion H. exfalso. auto.
  - cbn [List.map more fold_right] in H.
    rewrite !append_assoc, !append_cons, !append_nil_l, ?append_assoc in H.
    inversion H as [H'].
    apply Hx in H' as [-> H']; try apply more_delimited.
    apply IH in H' as [-> ->]. auto.
Qed.

Lemma join_comma_inj (l : list A) :
  List.Forall (item_inj f) l ->
  forall l' r r',
    join_comma (List.map f l) +:+ String close r =
    join_comma (List.map f l') +:+ String close r' ->
    l = l' /\ r = r'.
Proof.
  intros Hl l' r r' H.
  destruct Hl as [| x xs Hx Hxs]; destruct l' as [| y ys].
  - cbn in H. rewrite !append_nil_l in H. now inversion H.
  - exfalso. cbn [List.map join_comma] in H.
    rewrite append_nil_l, append_assoc in H.
    apply (f_equal head_tag) in H. cbn [head_tag] in H.
    rewrite close_tag in H. symmetry in H. now apply f_head in H.
  - exfalso. cbn [List.map join_comma] in H.
    rewrite append_nil_l, append_assoc in H.
    apply (f_equal head_tag) in H. cbn [head_tag] in H.
    rewrite close_tag in H. now apply f_head in H.
  - cbn [List.map join_comma] in H. rewrite !append_assoc in H.
    apply Hx in H as [-> H]; try apply more_delimited.
    apply (more_inj xs Hxs) in H as [-> ->]. auto.
Qed.

End Joined.

Lemma json_ind_nested (P : json -> Prop) :
  P JNull ->
  (forall b, P (JBool b)) ->
  (forall n, P (JNum n)) ->
  (forall s, P (JStr s)) ->
  (forall l, List.Forall P l -> P (JArr l)) ->
  (forall ms, List.Forall (fun kv => P (snd kv)) ms -> P (JObj ms)) ->
  forall v, P v.
Proof.
  intros Hnull Hbool Hnum Hstr Harr Hobj.
  fix IH 1. intros [| b | n | s | l | ms].
  - exact Hnull.
  - apply Hbool.
  - apply Hnum.
  - apply Hstr.
  - apply Harr.
    exact ((fix go (l : list json) : List.Forall P l :=
              match l with
              | [] => @List.Forall_nil _ P
              | x :: xs => @List.Forall_cons _ P x xs (IH x) (go xs)
              end) l).
  - apply Hobj.
    exact ((fix go (ms : list (string * json))
              : List.Forall (fun kv => P (snd kv)) ms :=
              match ms with
              | [] => @List.Forall_nil _ _
              | kv :: rest =>
                  @List.Forall_cons _ (fun kv => P (snd kv)) kv rest
                    (IH (snd kv)) (go rest)
              end) ms).
Qed.

(** A document can be read off the front of a text that continues with a
    delimiter. *)
Lemma JSON_stringify_prefix (v : json) :
  item_inj JSON_stringify v.
Proof.
  induction v as [| b | n | s | l IH | ms IH] using json_ind_nested;
    intros v' X X' HX HX' H;
    pose proof (f_equal head_tag H) as Htag;
    rewrite !stringify_head in Htag.
  - destruct v' as [| [] | | | |]; try discriminate Htag.
    apply append_inv_head in H. auto.
  - destruct b, v' as [| [] | | | |]; try discriminate Htag;
      apply append_inv_head in H; auto.
  - destruct v' as [| [] | m | | |]; try discriminate Htag.
    cbn [JSON_stringify] in H.
    apply number_split in H as [Hn ->];
      auto using number_to_string_chars.
    apply number_to_string_inj in Hn. now subst.
  - destruct v' as [| [] | | s' | |]; try discriminate Htag.
    cbn [JSON_stringify] in H. apply quote_inj in H as [-> ->]. auto.
  - destruct v' as [| [] | | | l' |]; try discriminate Htag.
    cbn [JSON_stringify] in H.
    rewrite !append_cons, !append_nil_l, !append_assoc, !append_cons,
      !append_nil_l in H.
    inversion H as [H'].
    apply (join_comma_inj JSON_stringify "]") in H' as [-> ->];
      auto; try discriminate.
    intros a Y Hy. rewrite stringify_head in Hy. now apply tag_bound in Hy.
  - destruct v' as [| [] | | | | ms']; try discriminate Htag.
    cbn [JSON_stringify] in H.
    change (fun kv : string * json =>
              quote (fst kv) +:+ ":" +:+ JSON_stringify (snd kv))
      with member_text in H.
    rewrite !append_cons, !append_nil_l, !append_assoc, !append_cons,
      !append_nil_l in H.
    inversion H as [H'].
    apply (join_comma_inj member_text "}") in H' as [-> ->];
      auto; try discriminate.
    eapply List.Forall_impl; [| exact IH].
    intros [k x] Hx [k' x'] Y Y' HY HY' HM. unfold member_text in HM.
    cbn [fst snd] in *. rewrite !append_assoc in HM.
    apply quote_inj in HM as [-> HM].
    rewrite !append_cons, !append_nil_l in HM. inversion HM as [HM'].
    apply Hx in HM' as [-> ->]; auto.
Qed.

(** [JSON.stringify] tells any two documents apart. *)
Lemma JSON_stringify_inj (a b : json) :
  JSON_stringify a = JSON_stringify b -> a = b.
Proof.
  intros H.
  destruct (JSON_stringify_prefix a b "" "") as [Hab _]; auto; try exact I.
  now rewrite !append_nil_r.
Qed.

(** ** Bookkeeping on traces *)

Lemma count_app (p : Event -> bool) (h l : list Event) :
  count p (h ++ l)%list = (count p h + count p l)%nat.
Proof. unfold count. now rewrite List.filter_app, length_app. Qed.

Lemma Forall_count (q p : Event -> bool) (h : list Event) :
  List.Forall (fun e => q e = true) h ->
  (forall e, q e = true -> p e = false) ->
  count p h = 0%nat.
Proof.
  intros Hq Hp. unfold count.
  induction Hq as [| e h He _ IH]; cbn; [reflexivity |].
  now rewrite (Hp e He).
Qed.

Lemma Forall_In_kind (q : Event -> bool) (h : list Event) (e : Event) :
  List.Forall (fun e => q e = true) h -> In e h -> q e = true.
Proof. rewrite List.Forall_forall. auto. Qed.

(** ** The outputs of a description *)

Lemma set_property_fold (outs : list Output) :
  forall (m : gmap string string) (k v : string),
    k <> "__proto__" ->
    fold_left
      (fun result o => set_property result (OutputKey o) (OutputValue o))
      outs m !! k = Some v <->
    (exists pre o post,
       outs = (pre ++ o :: post)%list /\
       OutputKey o = k /\ OutputValue o = v /\
       forall o', In o' post -> OutputKey o' <> k) \/
    ((forall o, In o outs -> OutputKey o <> k) /\ m !! k = Some v).
Proof.
  induction outs as [| o outs IH]; intros m k v Hk; cbn [fold_left].
  - split.
    + intros Hm. right. split; [intros o [] | exact Hm].
    + intros [(pre & o & post & Hnil & _) | [_ Hm]]; [| exact Hm].
      now destruct pre.
  - rewrite (IH _ k v Hk). unfold set_property. split.
    + intros [(pre & o' & post & -> & Hkey & Hval & Hpost) | [Hnone Hm]].
      * left. exists (o :: pre), o', post. auto.
      * destruct (String.eqb_spec (OutputKey o) "__proto__") as [Hp | Hp].
        { right. split; [| exact Hm].
          intros o' [<- | Ho']; [congruence | now apply Hnone]. }
        destruct (decide (OutputKey o = k)) as [Heq | Hne].
        { subst k. rewrite lookup_insert_eq in Hm. inversion Hm.
          left. exists [], o, outs. auto. }
        rewrite lookup_insert_ne in Hm by exact Hne.
        right. split; [| exact Hm].
        intros o' [<- | Ho']; [exact Hne | now apply Hnone].
    + intros [(pre & o' & post & Heq & Hkey & Hval & Hpost) | [Hnone Hm]].
      * destruct pre as [| p pre]; cbn in Heq; inversion Heq; subst.
        { right. split; [exact Hpost |].
          apply String.eqb_neq in Hk. rewrite Hk.
          apply lookup_insert_eq. }
        left. exists pre, o', post. auto.
      * right. split; [intros o' Ho'; apply Hnone; now right |].
        assert (Hne : OutputKey o <> k) by (apply Hnone; now left).
        destruct (OutputKey o =? "__proto__"); [exact Hm |].
        now rewrite lookup_insert_ne.
Qed.

Lemma set_property_fold_proto (outs : list Output) (m : gmap string string) :
  fold_left
    (fun result o => set_property result (OutputKey o) (OutputValue o))
    outs m !! "__proto__" = m !! "__proto__".
Proof.
  revert m. induction outs as [| o outs IH]; intros m; cbn [fold_left];
    [reflexivity |].
  rewrite IH. unfold set_property.
  destruct (String.eqb_spec (OutputKey o) "__proto__") as [Hp | Hp];
    [reflexivity |].
  now apply lookup_insert_ne.
Qed.

(** What [outputs_of] holds under a key: the value that the description
    lists last under it, and nothing under [__proto__]. *)
Lemma outputs_of_lookup (description : option Stack) (k v : string) :
  outputs_of description !! k = Some v <->
  k <> "__proto__" /\ current_output description k v.
Proof.
  unfold outputs_of, current_output.
  destruct description as [d |];
    [destruct (Outputs d) as [outs |] eqn:Houts |].
  - destruct (String.eqb_spec k "__proto__") as [-> | Hk].
    + rewrite set_property_fold_proto, lookup_empty.
      split; [discriminate | intros [Hp _]; congruence].
    + rewrite (set_property_fold outs ∅ k v Hk). split.
      * intros [(pre & o & post & -> & Hkey & Hval & Hpost) | [_ Hm]].
        -- split; [exact Hk |]. exists d, pre, o, post. auto.
        -- now rewrite lookup_empty in Hm.
      * intros [_ (d' & pre & o & post & Hd & Ho & Hkey & Hval & Hpost)].
        inversion Hd; subst d'. rewrite Houts in Ho. inversion Ho; subst outs.
        left. exists pre, o, post. auto.
  - rewrite lookup_empty. split; [discriminate |].
    intros [_ (d' & pre & o & post & Hd & Ho & _)].
    inversion Hd; subst d'. congruence.
  - rewrite lookup_empty. split; [discriminate |].
    intros [_ (d' & pre & o & post & Hd & _)]. discriminate Hd.
Qed.

(** ** The phases of [deployStack] *)

Lemma recoverFailedCreation_shape (n : string) (w : World) (h tr : list Event)
    (r : Outcome unit) :
  recoverFailedCreation n w h = (r, tr) ->
  exists s, tr = (h ++ s)%list /\ recovery n r s.
Proof.
  unfold recoverFailedCreation. unfold_ops. unfold_monad. cbn.
  intros Hrun. repeat head_step Hrun; simplify_eq; unit_tt; tidy_trace.
  all: eexists; split; [reflexivity |].
  all: try (constructor; fail).
  - apply recovery_stuck. apply negb_true_iff, String.eqb_neq in Heqb0. exact Heqb0.
  - apply recovery_deleted. apply negb_false_iff, String.eqb_eq in Heqb0. exact Heqb0.
Qed.

Ltac conclude_with lem :=
  let H := fresh in
  pose proof lem as H;
  unfold monitor_started, monitor_stopped, described in H;
  repeat match goal with
         | E : truthy_flag _ = _ |- _ => rewrite E in H
         end;
  cbn in H; apply H; assumption.

Lemma concludeChangeSet_shape (o : DeployStackOptions) (n cs : string)
    (c : CreateChangeSetOutput) (desc : DescribeChangeSetOutput)
    (w : World) (h tr : list Event) (r : Outcome DeployStackResult) :
  concludeChangeSet o n cs c desc w h = (r, tr) ->
  exists s, tr = (h ++ s)%list /\ conclusion o w n cs c desc r s.
Proof.
  unfold concludeChangeSet, getStackOutputs. unfold_ops. unfold_monad. cbn.
  intros Hrun. repeat head_step Hrun; simplify_eq; unit_tt; tidy_trace.
  all: eexists; split; [reflexivity |].
  all: match goal with
       | |- conclusion ?o ?w ?n ?cs ?c ?desc _ ?l =>
           lazymatch l with
           | [EvDeleteChangeSet _ _ (Throw _)] =>
               now apply conclusion_discard_throws
           | [EvDeleteChangeSet _ _ (Ok _); EvDescribeStack _ ?dr] =>
               now apply (conclusion_discarded o w n cs c desc dr)
           | [EvDescribeStack _ ?dr] =>
               now apply (conclusion_review o w n cs c desc dr)
           | [EvExecuteChangeSet _ _ (Throw _)] =>
               now apply conclusion_execute_throws
           | context [EvMonitorStop _ (Throw ?e)] =>
               now apply conclusion_stop_throws
           | context [EvWaitForStack _ true (Throw ?e)] =>
               conclude_with (conclusion_wait_throws o w n cs c desc e)
           | context [EvWaitForStack _ true (Ok ?st)] =>
               lazymatch l with
               | context [EvDescribeStack _ ?dr] =>
                   conclude_with (conclusion_executed o w n cs c desc st dr)
               end
           end
       end.
Qed.

Lemma makeBodyParameter_staging (stack : CloudFormationStackArtifact)
    (tk : option ToolkitInfo) (w : World) (h tr : list Event)
    (r : Outcome TemplateBodyParameter) :
  makeBodyParameter stack tk w h = (r, tr) ->
  exists s, tr = (h ++ s)%list /\ staging_only s.
Proof.
  unfold makeBodyParameter. unfold_ops. unfold_monad. cbn.
  intros Hrun. repeat head_step Hrun; simplify_eq.
  all: try (exists []; rewrite app_nil_r; split; [reflexivity | constructor]).
  all: eexists; split; [reflexivity |]; repeat constructor.
Qed.

(** Bind, read backwards. *)
Lemma bind_inv {A B} (m : M A) (k : A -> M B) (w : World) (h tr : list Event)
    (r : Outcome B) :
  bind m k w h = (r, tr) ->
  (exists a h', m w h = (Ok a, h') /\ k a w h' = (r, tr)) \/
  (exists e, m w h = (Throw e, tr) /\ r = Throw e).
Proof.
  unfold bind. destruct (m w h) as [[a | e] h'] eqn:E; intros H.
  - left. eauto.
  - right. inversion H; subst. eauto.
Qed.

Lemma perform_inv {A} (ask : World -> list Event -> Outcome A)
    (log : Outcome A -> Event) (w : World) (h tr : list Event) (r : Outcome A) :
  perform ask log w h = (r, tr) ->
  r = ask w h /\ tr = (h ++ [log r])%list.
Proof. unfold perform. intros H. inversion H; subst. auto. Qed.

Lemma deployStack_proceed_shape (o : DeployStackOptions) (n : string)
    (w : World) (h tr : list Event) (r : Outcome DeployStackResult) :
  deployStack_proceed o n w h = (r, tr) ->
  exists s1 s2 s3 s4,
    tr = (h ++ s1 ++ s2 ++ s3 ++ s4)%list /\
    staging_only s1 /\
    ((exists e, r = Throw e /\ s2 = [] /\ s3 = [] /\ s4 = []) \/
     flow o w n r s2 s3 s4).
Proof.
  unfold deployStack_proceed. intros Hrun.
  apply bind_inv in Hrun as [(params & h1 & Hassets & Hrun) | (e & Hassets & ->)];
    apply perform_inv in Hassets as [Ha ->].
  2: { exists [EvPrepareAssets (dso_stack o) (dso_toolkitInfo o)
                 (dso_reuseAssets o) (Throw e)], [], [], [].
       rewrite !app_nil_r. split; [reflexivity |]. split; [repeat constructor |].
       left. eauto. }
  set (ev1 := EvPrepareAssets _ _ _ _) in *.
  apply bind_inv in Hrun as [(xid & h1 & Hid & Hrun) | (e & Hid & _)];
    [| discriminate Hid].
  unfold asks in Hid. inversion Hid; subst h1; clear Hid.
  apply bind_inv in Hrun as [(body & h2 & Hbody & Hrun) | (e & Hbody & ->)];
    apply makeBodyParameter_staging in Hbody as (sb & -> & Hsb).
  2: { exists (ev1 :: sb), [], [], []. rewrite !app_nil_r, <- app_assoc.
       split; [reflexivity |]. split; [constructor; [reflexivity | exact Hsb] |].
       left. eauto. }
  assert (Hs1 : staging_only (ev1 :: sb)) by (constructor; [reflexivity | exact Hsb]).
  assert (Hpre : ((h ++ [ev1]) ++ sb = h ++ ev1 :: sb)%list)
    by now rewrite <- app_assoc.
  rewrite Hpre in Hrun. clear Hpre.
  generalize dependent (ev1 :: sb). intros s1 Hrun Hs1.
  exists s1.
  apply bind_inv in Hrun as [([] & h3 & Hrec & Hrun) | (e & Hrec & ->)];
    apply recoverFailedCreation_shape in Hrec as (s2 & -> & Hs2).
  2: { exists s2, [], []. rewrite !app_nil_r, <- app_assoc.
       split; [reflexivity |]. split; [exact Hs1 |]. right. now constructor. }
  exists s2.
  apply bind_inv in Hrun as [(update & h4 & Hex & Hrun) | (e & Hex & ->)];
    apply perform_inv in Hex as [Hu ->].
  2: { exists [EvStackExists n (Throw e)], []. rewrite !app_nil_r, <- !app_assoc.
       split; [reflexivity |]. split; [exact Hs1 |]. right. now constructor. }
  apply bind_inv in Hrun as [(c & h5 & Hcr & Hrun) | (e & Hcr & ->)];
    apply perform_inv in Hcr as [Hc ->].
  2: { eexists [EvStackExists n (Ok update); EvCreateChangeSet _ (Throw e)], [].
       rewrite !app_nil_r, <- !app_assoc.
       split; [reflexivity |]. split; [exact Hs1 |]. right. now constructor. }
  set (input := change_set_input _ _ _ _ _ _) in *.
  change ("CDK-" +:+ uuid_v4 w (h ++ [ev1])%list)
    with (ccs_ChangeSetName input) in Hrun.
  apply bind_inv in Hrun as [(desc & h6 & Hw & Hrun) | (e & Hw & ->)];
    apply perform_inv in Hw as [Hd ->].
  2: { exists [EvStackExists n (Ok update); EvCreateChangeSet input (Ok c);
               EvWaitForChangeSet n (ccs_ChangeSetName input) (Throw e)], [].
       rewrite !app_nil_r, <- !app_assoc.
       split; [reflexivity |]. split; [exact Hs1 |]. right. now constructor. }
  apply concludeChangeSet_shape in Hrun as (s4 & -> & Hs4).
  exists [EvStackExists n (Ok update); EvCreateChangeSet input (Ok c);
          EvWaitForChangeSet n (ccs_ChangeSetName input) (Ok desc)], s4.
  rewrite <- !app_assoc.
  split; [reflexivity |]. split; [exact Hs1 |]. right.
  now apply flow_concluded.
Qed.

Lemma recovery_kind (n : string) (r : Outcome unit) (s : list Event) :
  recovery n r s -> recovery_only s.
Proof. intros H; inversion H; subst; repeat constructor. Qed.

Lemma conclusion_kind o w n cs c desc r s :
  conclusion o w n cs c desc r s -> conclusion_only s.
Proof.
  intros H; inversion H; subst; unfold monitor_started, monitor_stopped;
    destruct (truthy_flag (dso_quiet o)); repeat constructor.
Qed.

Lemma flow_request_kind o w n r s2 s3 s4 :
  flow o w n r s2 s3 s4 -> request_only s3.
Proof. intros H; inversion H; subst; repeat constructor. Qed.

Lemma getDeployedTemplate_guard (n : string) (w : World) (h tr : list Event)
    (r : Outcome (option DeployedTemplate)) :
  getDeployedTemplate n w h = (r, tr) ->
  exists s, tr = (h ++ s)%list /\ guard_only s.
Proof.
  unfold getDeployedTemplate, getStackId, readCurrentTemplate.
  unfold_ops. unfold_monad. cbn.
  intros Hrun. repeat head_step Hrun; simplify_eq; tidy_trace.
  all: eexists; split; [reflexivity |]; repeat constructor.
Qed.

(** [deployStack] either ends within the skip check, having made only
    session, describe and template reads, or runs [deployStack_proceed] after
    such reads. *)
Lemma deployStack_cases (o : DeployStackOptions) (w : World)
    (r : Outcome DeployStackResult) (tr : list Event) :
  run (deployStack o) w = (r, tr) ->
  guard_only tr \/
  exists h, guard_only h /\ deployStack_proceed o (deploy_name o) w h = (r, tr).
Proof.
  unfold run, deployStack. intros Hrun.
  destruct (art_environment (dso_stack o)) as [env |].
  2: { left. inversion Hrun. constructor. }
  apply bind_inv in Hrun as [([] & h1 & Hcf & Hrun) | (e & Hcf & ->)];
    apply perform_inv in Hcf as [Hc ->]; cbn [app] in *.
  2: { left. repeat constructor. }
  set (ev0 := EvCloudFormation _ _ _ _) in *.
  assert (Hg0 : guard_only [ev0]) by (repeat constructor).
  destruct (negb (truthy_flag (dso_force o))).
  2: { right. eauto. }
  apply bind_inv in Hrun as [(d & h2 & Hdep & Hrun) | (e & Hdep & ->)];
    apply getDeployedTemplate_guard in Hdep as (s & -> & Hs).
  2: { left. apply List.Forall_app. auto. }
  assert (Hg : guard_only ([ev0] ++ s)) by (apply List.Forall_app; auto).
  destruct d as [d |]; [| right; eauto].
  destruct (String.eqb _ _); [| right; eauto].
  left. unfold getStackOutputs in Hrun. revert Hrun. unfold_ops. unfold_monad.
  intros Hrun. repeat head_step Hrun; simplify_eq.
  all: apply List.Forall_app; split; [exact Hg | repeat constructor].
Qed.

Lemma deployStack_trace (o : DeployStackOptions) (w : World)
    (r : Outcome DeployStackResult) (tr : list Event) :
  run (deployStack o) w = (r, tr) ->
  exists h s1,
    guard_only h /\ staging_only s1 /\
    (tr = (h ++ s1)%list \/
     exists s2 s3 s4,
       tr = (h ++ s1 ++ s2 ++ s3 ++ s4)%list /\
       flow o w (deploy_name o) r s2 s3 s4).
Proof.
  intros Hrun. apply deployStack_cases in Hrun as [Hg | (h & Hg & Hrun)].
  - exists tr, []. rewrite app_nil_r. repeat split; auto. constructor.
  - apply deployStack_proceed_shape in Hrun
      as (s1 & s2 & s3 & s4 & -> & Hs1 & [(e & -> & -> & -> & ->) | Hflow]).
    + exists h, s1. rewrite !app_nil_r. auto.
    + exists h, s1. repeat split; auto. right. eauto.
Qed.

(** An event that belongs to neither the skip check nor the staging is not
    in a trace made of those. *)
Lemma not_in_prefix (e : Event) (h s1 : list Event) :
  guard_only h -> staging_only s1 ->
  is_guard_event e = false -> is_staging_event e = false ->
  ~ In e (h ++ s1)%list.
Proof.
  intros Hh Hs Hg Hst Hin. apply in_app_or in Hin as [Hin | Hin].
  - apply (Forall_In_kind _ _ _ Hh) in Hin. congruence.
  - apply (Forall_In_kind _ _ _ Hs) in Hin. congruence.
Qed.

Ltac kind_contradiction :=
  match goal with
  | Hk : List.Forall (fun e => ?q e = true) ?l, Hin : In ?e ?l |- _ =>
      apply (Forall_In_kind _ _ _ Hk) in Hin; cbn in Hin; discriminate Hin
  | Hk : guard_only ?l, Hin : In ?e ?l |- _ =>
      apply (Forall_In_kind _ _ _ Hk) in Hin; cbn in Hin; discriminate Hin
  | Hk : staging_only ?l, Hin : In ?e ?l |- _ =>
      apply (Forall_In_kind _ _ _ Hk) in Hin; cbn in Hin; discriminate Hin
  | Hk : recovery_only ?l, Hin : In ?e ?l |- _ =>
      apply (Forall_In_kind _ _ _ Hk) in Hin; cbn in Hin; discriminate Hin
  | Hk : request_only ?l, Hin : In ?e ?l |- _ =>
      apply (Forall_In_kind _ _ _ Hk) in Hin; cbn in Hin; discriminate Hin
  | Hk : conclusion_only ?l, Hin : In ?e ?l |- _ =>
      apply (Forall_In_kind _ _ _ Hk) in Hin; cbn in Hin; discriminate Hin
  | Hk : preparatory_only ?l, Hin : In ?e ?l |- _ =>
      apply (Forall_In_kind _ _ _ Hk) in Hin; cbn in Hin; discriminate Hin
  end.

Ltac kind_cases :=
  let e := fresh "e" in
  let He := fresh "He" in
  intros e He; destruct e; cbn in *; congruence.

Lemma kind_weaken (q q' : Event -> bool) (l : list Event) :
  (forall e, q e = true -> q' e = true) ->
  List.Forall (fun e => q e = true) l ->
  List.Forall (fun e => q' e = true) l.
Proof. intros Hq. apply List.Forall_impl. exact Hq. Qed.

Lemma preparatory_app (a b : list Event) :
  preparatory_only a -> preparatory_only b -> preparatory_only (a ++ b)%list.
Proof. intros Ha Hb. apply List.Forall_app. auto. Qed.

Ltac preparatory :=
  lazymatch goal with
  | H : guard_only ?l |- preparatory_only ?l =>
      apply (kind_weaken is_guard_event); [kind_cases | exact H]
  | H : staging_only ?l |- preparatory_only ?l =>
      apply (kind_weaken is_staging_event); [kind_cases | exact H]
  | H : recovery_only ?l |- preparatory_only ?l =>
      apply (kind_weaken is_recovery_event); [kind_cases | exact H]
  | |- preparatory_only (_ ++ _) => apply preparatory_app; preparatory
  | |- preparatory_only _ => repeat constructor
  end.

(** A run of [deployStack] either never sees a stabilized changeset, or
    ends with the conclusion of the one it stabilized. *)
Lemma deployStack_flow_cases (o : DeployStackOptions) (w : World)
    (r : Outcome DeployStackResult) (tr : list Event) :
  run (deployStack o) w = (r, tr) ->
  preparatory_only tr \/
  exists pre cs c desc s4,
    tr = (pre ++ EvWaitForChangeSet (deploy_name o) cs (Ok desc) :: s4)%list /\
    preparatory_only pre /\
    conclusion o w (deploy_name o) cs c desc r s4.
Proof.
  intros Hrun.
  apply deployStack_trace in Hrun
    as (h & s1 & Hh & Hs1 & [-> | (s2 & s3 & s4 & -> & Hflow)]).
  { left. preparatory. }
  inversion Hflow as [ | | | | ? ? update input c desc ? Hrec Hname Htype Hcon];
    subst;
    match goal with
    | Hr : recovery _ _ _ |- _ => pose proof (recovery_kind _ _ _ Hr) as Hs2
    end.
  1-4: left; rewrite ?app_nil_r; preparatory.
  right.
  exists (h ++ s1 ++ s2 ++
          [EvStackExists (deploy_name o) (Ok update);
           EvCreateChangeSet input (Ok c)])%list.
  exists (ccs_ChangeSetName input), c, desc, s4.
  split; [now rewrite <- !app_assoc |]. split; [preparatory | exact Hcon].
Qed.

Lemma preparatory_count (p : Event -> bool) (l : list Event) :
  preparatory_only l ->
  (forall e, is_preparatory_event e = true -> p e = false) ->
  count p l = 0%nat.
Proof. apply Forall_count. Qed.

(** The stabilized changeset of a run is the one whose conclusion ends it. *)
Lemma deployStack_stabilized (o : DeployStackOptions) (w : World)
    (r : Outcome DeployStackResult) (tr : list Event) (n cs : string)
    (desc : DescribeChangeSetOutput) :
  run (deployStack o) w = (r, tr) ->
  In (EvWaitForChangeSet n cs (Ok desc)) tr ->
  exists pre c s4,
    tr = (pre ++ EvWaitForChangeSet n cs (Ok desc) :: s4)%list /\
    n = deploy_name o /\
    preparatory_only pre /\
    conclusion o w n cs c desc r s4.
Proof.
  intros Hrun Hin.
  apply deployStack_flow_cases in Hrun
    as [Hp | (pre & cs' & c & desc' & s4 & -> & Hpre & Hcon)].
  { kind_contradiction. }
  pose proof (conclusion_kind _ _ _ _ _ _ _ _ Hcon) as Hs4.
  apply in_app_or in Hin as [Hin | [Hin | Hin]]; try kind_contradiction.
  simplify_eq. eauto 10.
Qed.

(** C6.  When the stabilized changeset has no changes, [deployStack] deletes
    that changeset right away and never executes it; the delete and the
    describe that reads the outputs are the only calls that follow, an error
    of either is rethrown, and otherwise the result has [noOp = true] and the
    outputs of the stack as just described: under every key the value that
    the description lists last under it, and nothing else (a key
    [__proto__] apart, which a plain object does not store). *)
Theorem deployStack_empty_changeset (w : World) (o : DeployStackOptions)
    (r : Outcome DeployStackResult) (tr : list Event) (n cs : string)
    (desc : DescribeChangeSetOutput) :
  run (deployStack o) w = (r, tr) ->
  In (EvWaitForChangeSet n cs (Ok desc)) tr ->
  changeSetHasNoChanges w desc = true ->
  count is_execute_change_set tr = 0%nat /\
  exists pre del post,
    tr = (pre ++ EvWaitForChangeSet n cs (Ok desc) ::
                 EvDeleteChangeSet n cs del :: post)%list /\
    ((exists e, del = Throw e /\ post = [] /\ r = Throw e) \/
     (exists e, del = Ok tt /\ post = [EvDescribeStack n (Throw e)] /\
                r = Throw e) \/
     (exists d res, del = Ok tt /\ post = [EvDescribeStack n (Ok d)] /\
                    r = Ok res /\ noOp res = true /\
                    outputs res = outputs_of d /\
                    forall k v,
                      outputs res !! k = Some v <->
                      k <> "__proto__" /\ current_output d k v)).
Proof.
  intros Hrun Hin Hno.
  destruct (deployStack_stabilized _ _ _ _ _ _ _ Hrun Hin)
    as (pre & c & s4 & -> & -> & Hpre & Hcon).
  rewrite count_app, (preparatory_count _ pre Hpre) by kind_cases.
  inversion Hcon as [e | dr | | | | |]; subst; try congruence.
  - split; [reflexivity |]. exists pre, (Throw e), []. split; [reflexivity |].
    left. eauto.
  - split; [reflexivity |].
    exists pre, (Ok tt), [EvDescribeStack (deploy_name o) dr].
    split; [reflexivity |]. right.
    destruct dr as [d | e]; cbn; [right | left; eauto 10].
    exists d, (deploy_result o true (outputs_of d) (ccs_StackId c)).
    do 5 (split; [reflexivity |]).
    intros k v. apply outputs_of_lookup.
Qed.

(** C9.  With [execute = false] and a stabilized changeset that has changes,
    [deployStack] makes one more call, the describe that reads the outputs:
    the changeset is neither executed nor deleted and no monitor is started.
    An error of the describe is rethrown; otherwise the result has
    [noOp = false] and the outputs of the stack as just described, which no
    execution has changed: under every key the value that the description
    lists last under it, and nothing else (a key [__proto__] apart, which a
    plain object does not store). *)
Theorem deployStack_review_only (w : World) (o : DeployStackOptions)
    (r : Outcome DeployStackResult) (tr : list Event) (n cs : string)
    (desc : DescribeChangeSetOutput) :
  run (deployStack o) w = (r, tr) ->
  dso_execute o = Some false ->
  In (EvWaitForChangeSet n cs (Ok desc)) tr ->
  changeSetHasNoChanges w desc = false ->
  count is_execute_change_set tr = 0%nat /\
  count is_monitor_start tr = 0%nat /\
  exists pre dr,
    tr = (pre ++ [EvWaitForChangeSet n cs (Ok desc); EvDescribeStack n dr])%list /\
    ((exists e, dr = Throw e /\ r = Throw e) \/
     (exists d res, dr = Ok d /\ r = Ok res /\ noOp res = false /\
                    outputs res = outputs_of d /\
                    forall k v,
                      outputs res !! k = Some v <->
                      k <> "__proto__" /\ current_output d k v)).
Proof.
  intros Hrun Hex Hin Hno.
  destruct (deployStack_stabilized _ _ _ _ _ _ _ Hrun Hin)
    as (pre & c & s4 & -> & -> & Hpre & Hcon).
  assert (Hreq : execute_requested o = false)
    by (unfold execute_requested; now rewrite Hex).
  rewrite !count_app, !(preparatory_count _ pre Hpre) by kind_cases.
  inversion Hcon as [| | dr | | | |]; subst; try congruence.
  do 2 (split; [reflexivity |]).
  exists pre, dr. split; [reflexivity |].
  destruct dr as [d | e]; cbn; [right | left; eauto 10].
  exists d, (deploy_result o false (outputs_of d) (ccs_StackId c)).
  do 4 (split; [reflexivity |]).
  intros k v. apply outputs_of_lookup.
Qed.

Lemma prefix_app (s b : string) : String.prefix s (s +:+ b) = true.
Proof.
  induction s as [| c s IH]; [now destruct b |].
  rewrite append_cons. cbn [String.prefix].
  now destruct (Ascii.ascii_dec c c).
Qed.

Lemma includes_prefix (s t : string) :
  String.prefix s t = true -> includes s t = true.
Proof. intros H. destruct t; cbn [includes]; now rewrite H. Qed.

Lemma includes_app (s a b : string) : includes s (a +:+ s +:+ b) = true.
Proof.
  induction a as [| c a IH].
  { change ("" +:+ s +:+ b) with (s +:+ b). apply includes_prefix, prefix_app. }
  rewrite append_cons. cbn [includes]. rewrite IH. apply orb_true_r.
Qed.

(** The error raised for a stack that could not be deleted quotes the
    observed status. *)
Lemma failed_deleting_message_quotes (n status : string) :
  includes status (failed_deleting_message n status) = true.
Proof.
  unfold failed_deleting_message. do 2 rewrite <- append_assoc.
  apply includes_app.
Qed.

Lemma flow_recovery o w n r s2 s3 s4 :
  flow o w n r s2 s3 s4 ->
  (exists e, recovery n (Throw e) s2 /\ r = Throw e /\ s3 = [] /\ s4 = []) \/
  (recovery n (Ok tt) s2 /\ request_only s3 /\ conclusion_only s4).
Proof.
  intros Hflow.
  pose proof (flow_request_kind _ _ _ _ _ _ _ Hflow) as Hs3.
  inversion Hflow; subst; [left; eauto | right ..];
    repeat split; try assumption; try constructor.
  eapply conclusion_kind; eassumption.
Qed.

(** C3.  When the stack is observed to have failed creation, the very next
    call of [deployStack] deletes it, no changeset having been created
    before; an error of the delete or of the wait that follows is rethrown;
    a wait that ends on a stack whose status is not [DELETE_COMPLETE] makes
    [deployStack] throw an error whose message quotes that status, without
    any changeset creation in the whole run; only a wait that ends on absence
    or on [DELETE_COMPLETE] lets the run go on. *)
Theorem deployStack_failed_creation_recovery (w : World)
    (o : DeployStackOptions) (r : Outcome DeployStackResult)
    (tr : list Event) (n : string) :
  run (deployStack o) w = (r, tr) ->
  In (EvStackFailedCreating n (Ok true)) tr ->
  (exists pre del post,
     tr = (pre ++ EvStackFailedCreating n (Ok true) ::
                  EvDeleteStack n None del :: post)%list /\
     count is_create_change_set pre = 0%nat /\
     ((exists e, del = Throw e /\ post = [] /\ r = Throw e) \/
      (exists e, del = Ok tt /\ post = [EvWaitForStack n false (Throw e)] /\
                 r = Throw e) \/
      (exists d, del = Ok tt /\ post = [EvWaitForStack n false (Ok (Some d))] /\
                 StackStatus d <> "DELETE_COMPLETE" /\
                 r = Throw (Error (failed_deleting_message n (StackStatus d)))) \/
      (exists x post', del = Ok tt /\
                       post = EvWaitForStack n false (Ok x) :: post' /\
                       (x = None \/
                        exists d, x = Some d /\
                                  StackStatus d = "DELETE_COMPLETE")))) /\
  (forall d,
     In (EvWaitForStack n false (Ok (Some d))) tr ->
     StackStatus d <> "DELETE_COMPLETE" ->
     r = Throw (Error (failed_deleting_message n (StackStatus d))) /\
     includes (StackStatus d) (failed_deleting_message n (StackStatus d)) = true /\
     count is_create_change_set tr = 0%nat).
Proof.
  intros Hrun Hin.
  apply deployStack_trace in Hrun
    as (h & s1 & Hh & Hs1 & [-> | (s2 & s3 & s4 & -> & Hflow)]).
  { now apply not_in_prefix in Hin. }
  assert (Hpre : count is_create_change_set (h ++ s1) = 0%nat).
  { rewrite count_app.
    now rewrite (Forall_count _ _ h Hh), (Forall_count _ _ s1 Hs1) by kind_cases. }
  assert (Hloc : forall ev,
             is_recovery_event ev = true ->
             In ev (h ++ s1 ++ s2 ++ s3 ++ s4)%list -> In ev s2).
  { intros ev Hk Hev.
    apply flow_recovery in Hflow
      as [(e & _ & _ & -> & ->) | (_ & Hs3 & Hs4)];
      rewrite !in_app_iff in Hev;
      destruct Hev as [Hev | [Hev | [Hev | [Hev | Hev]]]];
      try assumption; try contradiction;
      match goal with
      | Hq : _ ?l, Hi : In ev ?l |- _ =>
          apply (Forall_In_kind _ _ _ Hq) in Hi; destruct ev; cbn in *;
          try congruence;
          repeat match goal with b : bool |- _ => destruct b end; congruence
      end. }
  apply Hloc in Hin; [| reflexivity].
  apply flow_recovery in Hflow
    as [(e & Hrec & -> & -> & ->) | (Hrec & Hs3 & Hs4)];
    inversion Hrec; subst; finish_in Hin.
  all: split;
    [ exists (h ++ s1)%list; do 2 eexists;
      split; [rewrite <- ?app_assoc; cbn [app]; reflexivity |];
      split; [exact Hpre |]
    | intros d0 Hd0 Hbad; apply Hloc in Hd0; [| reflexivity];
      finish_in Hd0 ].
  - left. eauto.
  - right; left. eauto.
  - right; right; left. eauto 10.
  - repeat split.
    + apply failed_deleting_message_quotes.
    + rewrite count_app in Hpre. rewrite !count_app. cbn. lia.
  - right; right; right. eauto 10.
  - right; right; right. eauto 10.
Qed.

Lemma deployStack_monitor (w : World) (o : DeployStackOptions)
    (r : Outcome DeployStackResult) (tr : list Event) (n : string)
    (k : option nat) :
  run (deployStack o) w = (r, tr) ->
  In (EvMonitorStart n k) tr ->
  count is_monitor_start tr = 1%nat /\
  (count is_monitor_stop tr <= 1)%nat /\
  (count is_monitor_stop tr = 1%nat <->
   exists st, In (EvWaitForStack n true (Ok st)) tr) /\
  (forall n' sr,
     In (EvMonitorStop n' sr) tr ->
     exists pre mid post,
       tr = (pre ++ EvMonitorStart n k :: mid ++
                    EvMonitorStop n' sr :: post)%list).
Proof.
  intros Hrun Hin.
  apply deployStack_flow_cases in Hrun
    as [Hp | (pre & cs & c & desc & s4 & -> & Hpre & Hcon)].
  { kind_contradiction. }
  assert (Hloc : forall ev,
             is_preparatory_event ev = false ->
             is_conclusion_event ev = true ->
             In ev (pre ++ EvWaitForChangeSet (deploy_name o) cs (Ok desc) :: s4)%list ->
             In ev s4).
  { intros ev Hk Hc Hev. apply in_app_or in Hev as [Hev | [Hev | Hev]].
    - apply (Forall_In_kind _ _ _ Hpre) in Hev. congruence.
    - subst ev. discriminate Hc.
    - exact Hev. }
  apply Hloc in Hin; [| reflexivity ..].
  rewrite !count_app, !(preparatory_count _ pre Hpre) by kind_cases.
  inversion Hcon; subst; unfold monitor_started, monitor_stopped in *;
    destruct (truthy_flag (dso_quiet o)) eqn:Hq; try discriminate;
    finish_in Hin; cbn.
  all: split; [reflexivity |]; split; [lia |]; split.
  all: try (split; [try discriminate; intros _; eexists; apply in_or_app; right;
                    cbn; eauto 10
                   | intros [? Hst]; apply Hloc in Hst; [| reflexivity ..];
                     finish_in Hst; reflexivity ]).
  all: intros n' sr Hsr; apply Hloc in Hsr; [| reflexivity ..]; finish_in Hsr.
  all: eexists (pre ++ [_; _])%list, [_], _; rewrite <- app_assoc; reflexivity.
Qed.

Lemma destroyStack_monitor (w : World) (o : DestroyStackOptions)
    (r : Outcome unit) (tr : list Event) (n : string) (k : option nat) :
  run (destroyStack o) w = (r, tr) ->
  In (EvMonitorStart n k) tr ->
  count is_monitor_start tr = 1%nat /\
  (count is_monitor_stop tr <= 1)%nat /\
  (count is_monitor_stop tr = 1%nat <->
   exists st, In (EvWaitForStack n false (Ok st)) tr) /\
  (forall n' sr,
     In (EvMonitorStop n' sr) tr ->
     exists pre mid post,
       tr = (pre ++ EvMonitorStart n k :: mid ++
                    EvMonitorStop n' sr :: post)%list).
Proof.
  unfold destroyStack, getStackOutputs. unfold_ops. unfold_monad. cbn.
  intros Hrun Hin.
  repeat head_step Hrun; simplify_eq; finish_in Hin; cbn.
  all: split; [reflexivity |]; split; [lia |]; split.
  all: try (split; [try discriminate; intros _; eexists; cbn; eauto 10
                   | intros [? Hst]; finish_in Hst; reflexivity ]).
  all: intros n' sr Hsr; finish_in Hsr.
  all: eexists [_; _], [_; _], _; reflexivity.
Qed.

(** The life cycle of the activity monitor as the code has it.  Once it
    has been started, by [deployStack] or by [destroyStack], it is started
    only that once and stopped at most once, after the start; the stop is
    reached exactly when the wait for the stack that follows the start
    returns; on the paths on which that wait is not reached or throws, no
    stop is made. *)
Theorem monitor_stopped_once (w : World) (op : Operation) (n : string)
    (k : option nat) :
  In (EvMonitorStart n k) (trace_of op w) ->
  count is_monitor_start (trace_of op w) = 1%nat /\
  (count is_monitor_stop (trace_of op w) <= 1)%nat /\
  (count is_monitor_stop (trace_of op w) = 1%nat <->
   exists st,
     In (EvWaitForStack n (monitored_wait_flag op) (Ok st)) (trace_of op w)) /\
  (forall n' sr,
     In (EvMonitorStop n' sr) (trace_of op w) ->
     exists pre mid post,
       trace_of op w = (pre ++ EvMonitorStart n k :: mid ++
                               EvMonitorStop n' sr :: post)%list).
Proof.
  destruct op as [o | o]; cbn [trace_of monitored_wait_flag]; intros Hin.
  - destruct (run (deployStack o) w) as [r tr] eqn:Hrun.
    exact (deployStack_monitor w o r tr n k Hrun Hin).
  - destruct (run (destroyStack o) w) as [r tr] eqn:Hrun.
    exact (destroyStack_monitor w o r tr n k Hrun Hin).
Qed.

(** C8.  Destroying a stack that does not exist: when [stackExists] answers
    false for the stack name, [destroyStack] returns normally, having made
    only the two calls that establish the absence; no delete request is
    issued and no monitor is started. *)
Theorem destroyStack_absent_noop (w : World) (o : DestroyStackOptions)
    (r : Outcome unit) (tr : list Event) (n : string) :
  run (destroyStack o) w = (r, tr) ->
  In (EvStackExists n (Ok false)) tr ->
  r = Ok tt /\
  n = or_string (dst_deployName o) (art_stackName (dst_stack o)) /\
  count is_delete_stack tr = 0%nat /\
  count is_monitor_start tr = 0%nat /\
  count mutating tr = 0%nat /\
  exists account region,
    tr = [EvCloudFormation account region ForWriting (Ok tt);
          EvStackExists n (Ok false)].
Proof.
  unfold destroyStack. unfold_ops. unfold_monad. cbn.
  intros Hrun Hin.
  repeat head_step Hrun; simplify_eq; finish_in Hin.
  unit_tt. repeat split; eauto.
Qed.

(** ** The skip check *)

(** The run of [deployStack] in terms of what [getDeployedTemplate] found,
    when the stack has an environment, the session is granted and no forced
    deployment is requested. *)
Lemma deployStack_unfold (o : DeployStackOptions) (w : World)
    (env : Environment) :
  art_environment (dso_stack o) = Some env ->
  truthy_flag (dso_force o) = false ->
  session_granted w env ->
  run (deployStack o) w =
  match getDeployedTemplate (deploy_name o) w
          [session_event env] with
  | (Ok (Some d), h2) =>
      if String.eqb (JSON_stringify (art_template (dso_stack o)))
                    (JSON_stringify (deployed_template d))
      then
        (match util_describeStack w h2 (deploy_name o) with
         | Ok x => Ok (deploy_result o true (outputs_of x)
                         (Some (deployed_stackId d)))
         | Throw e => Throw e
         end,
         (h2 ++ [EvDescribeStack (deploy_name o)
                   (util_describeStack w h2 (deploy_name o))])%list)
      else deployStack_proceed o (deploy_name o) w h2
  | (Ok None, h2) => deployStack_proceed o (deploy_name o) w h2
  | (Throw e, h2) => (Throw e, h2)
  end.
Proof.
  intros Henv Hforce Hcf. unfold session_granted in Hcf. unfold session_event.
  unfold run, deployStack. rewrite Henv, Hforce. cbn [negb].
  unfold bind at 1. unfold cloudFormation, perform at 1. rewrite Hcf. cbn [app].
  unfold bind at 1.
  destruct (getDeployedTemplate _ _ _) as [[[d |] | e] h2]; try reflexivity.
  destruct (String.eqb _ _); [| reflexivity].
  unfold getStackOutputs, describeStack. unfold_monad.
  destruct (util_describeStack w h2 (deploy_name o)); reflexivity.
Qed.

(** The size test as the code has it, on the [length] of the serialized
    template.  Without a toolkit bucket [makeBodyParameter] makes no call at
    all; it throws exactly when the serialized template is longer than
    50 * 1024, the error being the one that asks for [cdk bootstrap]
    (the stack having an environment, as [deployStack] has checked), and
    otherwise returns the serialized template inline.  With a toolkit bucket
    it uploads whatever the size and returns the URL of the uploaded
    object, or rethrows the error of the upload. *)
Theorem makeBodyParameter_size_limit (w : World)
    (stack : CloudFormationStackArtifact) (h : list Event) :
  let templateJson := toYAML w (art_template stack) in
  let size := Z.of_nat (String.length templateJson) in
  snd (makeBodyParameter stack None w h) = h /\
  (is_ok (fst (makeBodyParameter stack None w h)) = false <->
   (50 * 1024 < size)%Z) /\
  ((50 * 1024 < size)%Z ->
   art_environment stack <> None ->
   fst (makeBodyParameter stack None w h) = Throw (Error too_large_message)) /\
  ((size <= 50 * 1024)%Z ->
   fst (makeBodyParameter stack None w h) =
   Ok {| TemplateBody := Some templateJson; TemplateURL := None |}) /\
  (forall tk,
     let props := {| s3KeyPrefix := "cdk/" +:+ art_id stack +:+ "/";
                     s3KeySuffix := ".yml";
                     contentType := "application/x-yaml" |} in
     let uploaded := toolkit_uploadIfChanged w h tk templateJson props in
     makeBodyParameter stack (Some tk) w h =
     (match uploaded with
      | Ok key =>
          Ok {| TemplateBody := None;
                TemplateURL := Some (bucketUrl tk +:+ "/" +:+ key) |}
      | Throw e => Throw e
      end,
      (h ++ [EvUploadIfChanged tk templateJson props uploaded])%list)).
Proof.
  intros templateJson size.
  unfold makeBodyParameter, uploadIfChanged. unfold_monad.
  fold templateJson. change (LARGE_TEMPLATE_SIZE_KB * 1024)%Z with (50 * 1024)%Z.
  fold size.
  destruct (Z.ltb_spec (50 * 1024) size) as [Hbig | Hsmall].
  - repeat split.
    + now destruct (art_environment stack).
    + intros _. exact Hbig.
    + now destruct (art_environment stack).
    + intros _ Henv. destruct (art_environment stack); [reflexivity | contradiction].
    + intros Hle. lia.
    + intros tk. cbn. now destruct (toolkit_uploadIfChanged _ _ _ _ _).
  - repeat split.
    + cbn. discriminate.
    + intros Hlt. lia.
    + intros Hlt. lia.
    + intros tk. cbn. now destruct (toolkit_uploadIfChanged _ _ _ _ _).
Qed.

(** C5.  A value returned by [makeBodyParameter] has exactly one of
    [TemplateBody] and [TemplateURL] set. *)
Theorem makeBodyParameter_exclusive (w : World)
    (stack : CloudFormationStackArtifact) (tk : option ToolkitInfo)
    (h h' : list Event) (p : TemplateBodyParameter) :
  makeBodyParameter stack tk w h = (Ok p, h') ->
  (is_Some (TemplateBody p) /\ TemplateURL p = None) \/
  (TemplateBody p = None /\ is_Some (TemplateURL p)).
Proof.
  unfold makeBodyParameter. unfold_ops. unfold_monad. cbn.
  intros Hrun. repeat head_step Hrun; simplify_eq; cbn; eauto.
Qed.

Lemma getStackId_ok (w : World) (h : list Event) (n : string)
    (out : DescribeStacksOutput) :
  cfn_describeStacks w h n = Ok out ->
  getStackId n w h =
  (Ok (match Stacks out with
       | Some [s] => StackId s
       | _ => None
       end),
   (h ++ [EvDescribeStacks n (Ok out)])%list).
Proof.
  intros Hd. unfold getStackId, describeStacks. unfold_monad. rewrite Hd.
  destruct (Stacks out) as [[| s [| s' l]] |]; reflexivity.
Qed.

Lemma getDeployedTemplate_absent (w : World) (h h' : list Event) (n : string) :
  getStackId n w h = (Ok None, h') ->
  getDeployedTemplate n w h = (Ok None, h').
Proof. intros Hid. unfold getDeployedTemplate, bind. now rewrite Hid. Qed.

(** C10.  On a describe-stacks answer without a stack list, with an empty
    list or with more than one stack, [getStackId] returns [undefined]:
    [getDeployedTemplate] then returns [undefined] without reading any
    template, and [deployStack] goes on as it does when nothing is deployed.
    A stack id is returned only for an answer with exactly one stack, and it
    is the id of that stack. *)
Theorem getStackId_singleton_only (w : World) (h : list Event) (n : string)
    (out : DescribeStacksOutput) :
  cfn_describeStacks w h n = Ok out ->
  let h' := (h ++ [EvDescribeStacks n (Ok out)])%list in
  ((Stacks out = None \/ Stacks out = Some [] \/
    (exists l, Stacks out = Some l /\ (1 < length l)%nat)) ->
   getStackId n w h = (Ok None, h') /\
   getDeployedTemplate n w h = (Ok None, h') /\
   (forall o env,
      art_environment (dso_stack o) = Some env ->
      truthy_flag (dso_force o) = false ->
      session_granted w env ->
      h = [session_event env] ->
      n = deploy_name o ->
      run (deployStack o) w = deployStack_proceed o n w h')) /\
  (forall s, Stacks out = Some [s] -> getStackId n w h = (Ok (StackId s), h')) /\
  (forall id h2,
     getStackId n w h = (Ok (Some id), h2) ->
     exists s, Stacks out = Some [s] /\ StackId s = Some id).
Proof.
  intros Hd h'. pose proof (getStackId_ok w h n out Hd) as Hid. fold h' in Hid.
  split; [| split].
  - intros Hshape.
    assert (Hnone : getStackId n w h = (Ok None, h')).
    { rewrite Hid.
      destruct Hshape as [-> | [-> | (l & -> & Hl)]]; try reflexivity.
      destruct l as [| s [| s' l]]; cbn in Hl; try lia; reflexivity. }
    split; [exact Hnone |].
    split; [now apply getDeployedTemplate_absent |].
    intros o env Henv Hforce Hcf -> ->.
    rewrite (deployStack_unfold o w env Henv Hforce Hcf).
    now rewrite (getDeployedTemplate_absent _ _ _ _ Hnone).
  - intros s Hs. rewrite Hid, Hs. reflexivity.
  - intros id h2 Hsome. rewrite Hid in Hsome.
    destruct (Stacks out) as [[| s [| s' l]] |]; simplify_eq. eauto.
Qed.

(** C7.  What the two boundaries do with an error of the remote call.
    [getStackId] turns every describe-stacks error whose message contains
    [does not exist] into [undefined]; the stack then counts as not deployed
    and [deployStack] goes on.  [readCurrentTemplate] turns a get-template
    error into the empty document only when its code is [ValidationError]
    and its message is exactly [Stack with id <name> does not exist]; every
    other get-template error is rethrown. *)
Theorem not_found_normalized (w : World) (h : list Event) (n : string)
    (e : JsError) :
  (cfn_describeStacks w h n = Throw e ->
   includes "does not exist" (err_message e) = true ->
   let h' := (h ++ [EvDescribeStacks n (Throw e)])%list in
   getStackId n w h = (Ok None, h') /\
   getDeployedTemplate n w h = (Ok None, h') /\
   (forall o env,
      art_environment (dso_stack o) = Some env ->
      truthy_flag (dso_force o) = false ->
      session_granted w env ->
      h = [session_event env] ->
      n = deploy_name o ->
      run (deployStack o) w = deployStack_proceed o n w h')) /\
  (cfn_getTemplate w h n = Throw e ->
   let h' := (h ++ [EvGetTemplate n (Throw e)])%list in
   (err_code e = Some "ValidationError" ->
    err_message e = not_exist_message n ->
    readCurrentTemplate n w h = (Ok (JObj []), h')) /\
   (err_code e <> Some "ValidationError" \/
    err_message e <> not_exist_message n ->
    readCurrentTemplate n w h = (Throw e, h'))).
Proof.
  split.
  - intros Hd Hmsg h'.
    assert (Hnone : getStackId n w h = (Ok None, h')).
    { unfold getStackId, describeStacks. unfold_monad. now rewrite Hd, Hmsg. }
    split; [exact Hnone |].
    split; [now apply getDeployedTemplate_absent |].
    intros o env Henv Hforce Hcf -> ->.
    rewrite (deployStack_unfold o w env Henv Hforce Hcf).
    now rewrite (getDeployedTemplate_absent _ _ _ _ Hnone).
  - intros Hg h'. unfold readCurrentTemplate, getTemplate. unfold_monad.
    rewrite Hg. unfold code_is. split.
    + intros -> ->. now rewrite !String.eqb_refl.
    + intros [Hcode | Hmsg].
      * destruct (err_code e) as [c |]; [| reflexivity].
        destruct (String.eqb_spec c "ValidationError"); [congruence | reflexivity].
      * apply String.eqb_neq in Hmsg. rewrite Hmsg, andb_false_r. reflexivity.
Qed.

Lemma getDeployedTemplate_reads_only (n : string) (w : World)
    (h tr : list Event) (r : Outcome (option DeployedTemplate)) :
  getDeployedTemplate n w h = (r, tr) ->
  count mutating tr = count mutating h.
Proof.
  intros Hrun. apply getDeployedTemplate_guard in Hrun as (s & -> & Hs).
  rewrite count_app, (Forall_count _ _ s Hs) by kind_cases. lia.
Qed.

(** C1.  With no forced deployment and a stack deployed under the deploy
    name, [deployStack] compares the [JSON.stringify] texts of the desired
    document and of the deserialized deployed one; the texts are equal
    exactly when the two documents are identical, the order of the members
    of every object included.  When they are, the only further call is the
    describe that reads the outputs: the result is the no-op result with
    those outputs and the id of the deployed stack (or the error of that
    describe), and no mutating call is made.  When they are not, the
    deployment proceeds. *)
Theorem deployStack_skips_unchanged (w : World) (o : DeployStackOptions)
    (env : Environment) (d : DeployedTemplate) (h2 : list Event) :
  art_environment (dso_stack o) = Some env ->
  truthy_flag (dso_force o) = false ->
  session_granted w env ->
  getDeployedTemplate (deploy_name o) w
    [session_event env] =
  (Ok (Some d), h2) ->
  let desired := art_template (dso_stack o) in
  let dr := util_describeStack w h2 (deploy_name o) in
  let tr := (h2 ++ [EvDescribeStack (deploy_name o) dr])%list in
  (JSON_stringify desired = JSON_stringify (deployed_template d) <->
   desired = deployed_template d) /\
  (desired = deployed_template d ->
   run (deployStack o) w =
   (match dr with
    | Ok x => Ok (deploy_result o true (outputs_of x) (Some (deployed_stackId d)))
    | Throw e => Throw e
    end, tr) /\
   count mutating tr = 0%nat) /\
  (desired <> deployed_template d ->
   run (deployStack o) w = deployStack_proceed o (deploy_name o) w h2).
Proof.
  intros Henv Hforce Hcf Hdep desired dr tr.
  pose proof (deployStack_unfold o w env Henv Hforce Hcf) as Hrun.
  rewrite Hdep in Hrun. fold desired in Hrun.
  split; [split; [apply JSON_stringify_inj | now intros ->] |]. split.
  - intros Heq. rewrite <- Heq, String.eqb_refl in Hrun.
    split; [exact Hrun |].
    unfold tr. rewrite count_app.
    now rewrite (getDeployedTemplate_reads_only _ _ _ _ _ Hdep).
  - intros Hne.
    destruct (String.eqb_spec (JSON_stringify desired)
                (JSON_stringify (deployed_template d))) as [Heq | _];
      [| exact Hrun].
    now apply JSON_stringify_inj in Heq.
Qed.

(** ** The properties at work on the [Orders] stack *)

Lemma deployStack_skips_unchanged_witness :
  fst (run (deployStack (deploy_options None None None None))
           (world_of unchanged)) =
  Ok (deploy_result (deploy_options None None None None) true
        {["QueueName" := "orders-queue"]} (Some orders_arn)) /\
  count mutating
    (snd (run (deployStack (deploy_options None None None None))
              (world_of unchanged))) = 0%nat.
Proof.
  pose proof (deployStack_skips_unchanged (world_of unchanged)
                (deploy_options None None None None) orders_environment
                {| deployed_template := orders_template;
                   deployed_stackId := orders_arn |}
                [EvCloudFormation "123456789012" "eu-west-1" ForWriting (Ok tt);
                 EvDescribeStacks "Orders" orders_deployed;
                 EvGetTemplate "Orders" orders_body]
                eq_refl eq_refl eq_refl eq_refl) as H.
  cbv zeta in H. destruct H as (_ & Hskip & _).
  destruct (Hskip eq_refl) as [Hrun Hcount].
  rewrite Hrun. split; [reflexivity | exact Hcount].
Defined.

(** Against C1 as the specification words it: the deployed document has the
    members of the desired one in another order, no forced deployment is
    requested, and yet the deployment is carried out. *)
Lemma deployStack_key_order_counterexample :
  json_deep_equal orders_template orders_template_reordered = true /\
  truthy_flag (dso_force (deploy_options None None None None)) = false /\
  getDeployedTemplate "Orders" (world_of reordered)
    [EvCloudFormation "123456789012" "eu-west-1" ForWriting (Ok tt)] =
  (Ok (Some {| deployed_template := orders_template_reordered;
               deployed_stackId := orders_arn |}),
   [EvCloudFormation "123456789012" "eu-west-1" ForWriting (Ok tt);
    EvDescribeStacks "Orders" orders_deployed;
    EvGetTemplate "Orders" orders_body]) /\
  fst (run (deployStack (deploy_options None None None None))
           (world_of reordered)) =
  Ok (deploy_result (deploy_options None None None None) false
        {["QueueName" := "orders-queue"]} (Some orders_arn)) /\
  count mutating
    (snd (run (deployStack (deploy_options None None None None))
              (world_of reordered))) = 3%nat /\
  count is_execute_change_set
    (snd (run (deployStack (deploy_options None None None None))
              (world_of reordered))) = 1%nat.
Proof. vm_compute. repeat split; reflexivity. Qed.

Lemma monitor_stopped_once_witness :
  count is_monitor_stop
    (trace_of (Deploy (deploy_options None None None None))
              (world_of first_deployment)) = 1%nat.
Proof.
  apply (monitor_stopped_once (world_of first_deployment)
           (Deploy (deploy_options None None None None)) "Orders" (Some 1%nat)).
  - vm_compute. tauto.
  - exists (Some (orders_description "UPDATE_COMPLETE")). vm_compute. tauto.
Defined.

(** C2.  The monitor outlives a failed operation.  [deployStack] on
    [Orders], not quiet, with a changeset of one change that it executes
    and a wait for the stack that throws: the monitor is started once, the
    wait throws, and [deployStack] unwinds with that error without a single
    call of [monitor.stop].  [destroyStack] does the same when the wait for
    the deletion throws.  The stop that both functions make after a wait
    that returns is missing on the path on which the wait throws. *)
Theorem monitor_left_running :
  In (EvMonitorStart "Orders" (Some 1%nat))
     (trace_of (Deploy (deploy_options None None None None))
               (world_of wait_fails)) /\
  count is_monitor_start
    (trace_of (Deploy (deploy_options None None None None))
              (world_of wait_fails)) = 1%nat /\
  last (trace_of (Deploy (deploy_options None None None None))
                 (world_of wait_fails)) =
  Some (EvWaitForStack "Orders" true (Throw timeout_error)) /\
  fst (run (deployStack (deploy_options None None None None))
           (world_of wait_fails)) = Throw timeout_error /\
  count is_monitor_stop
    (trace_of (Deploy (deploy_options None None None None))
              (world_of wait_fails)) = 0%nat /\
  In (EvMonitorStart "Orders" None)
     (trace_of (Destroy destroy_options) (world_of wait_fails)) /\
  last (trace_of (Destroy destroy_options) (world_of wait_fails)) =
  Some (EvWaitForStack "Orders" false (Throw timeout_error)) /\
  fst (run (destroyStack destroy_options) (world_of wait_fails)) =
  Throw timeout_error /\
  count is_monitor_stop
    (trace_of (Destroy destroy_options) (world_of wait_fails)) = 0%nat.
Proof. vm_compute. tauto. Qed.

Lemma deployStack_failed_creation_recovery_witness :
  fst (run (deployStack (deploy_options None None None None))
           (world_of stuck_deletion)) =
  Throw (Error (failed_deleting_message "Orders" "DELETE_FAILED")) /\
  count is_create_change_set
    (snd (run (deployStack (deploy_options None None None None))
              (world_of stuck_deletion))) = 0%nat.
Proof.
  destruct (run (deployStack (deploy_options None None None None))
                (world_of stuck_deletion)) as [r tr] eqn:Hrun.
  assert (Hin : In (EvStackFailedCreating "Orders" (Ok true)) tr).
  { vm_compute in Hrun. inversion Hrun. cbn. tauto. }
  destruct (deployStack_failed_creation_recovery _ _ _ _ _ Hrun Hin)
    as [_ Hstuck].
  destruct (Hstuck (orders_description "DELETE_FAILED")) as (Hr & _ & Hc).
  - vm_compute in Hrun. inversion Hrun. cbn. tauto.
  - discriminate.
  - split; [exact Hr | exact Hc].
Defined.

Lemma makeBodyParameter_size_limit_witness :
  fst (makeBodyParameter orders_stack None (world_of oversized) []) =
  Throw (Error too_large_message) /\
  fst (makeBodyParameter orders_stack None (world_of unchanged) []) =
  Ok {| TemplateBody := Some orders_yaml; TemplateURL := None |}.
Proof.
  split.
  - apply (makeBodyParameter_size_limit (world_of oversized) orders_stack []).
    + vm_compute. reflexivity.
    + discriminate.
  - apply (makeBodyParameter_size_limit (world_of unchanged) orders_stack []).
    vm_compute. discriminate.
Defined.

(** C4.  The size test misses templates that are too large in bytes.
    Without a toolkit bucket, a serialized template of 30007 characters
    [e-acute] has a [length] within 50 * 1024 and 60014 bytes, which is
    beyond 50 KiB: [makeBodyParameter] does not throw and returns it as an
    inline body. *)
Theorem makeBodyParameter_bytes_unchecked :
  toYAML (world_of accented) (art_template orders_stack) = accented_yaml /\
  Z.of_nat (String.length accented_yaml) = 30007%Z /\
  utf8_size accented_yaml = 60014%Z /\
  (50 * 1024 < utf8_size accented_yaml)%Z /\
  makeBodyParameter orders_stack None (world_of accented) [] =
  (Ok {| TemplateBody := Some accented_yaml; TemplateURL := None |}, []).
Proof.
  assert (Hlen : Z.of_nat (String.length accented_yaml) = 30007%Z)
    by (vm_compute; reflexivity).
  assert (Hsize : utf8_size accented_yaml = 60014%Z)
    by (vm_compute; reflexivity).
  split; [reflexivity |]. split; [exact Hlen |]. split; [exact Hsize |].
  split; [rewrite Hsize; reflexivity |].
  unfold makeBodyParameter. unfold_monad.
  change (toYAML (world_of accented) (art_template orders_stack))
    with accented_yaml.
  cbv beta iota. rewrite Hlen. reflexivity.
Qed.

Lemma makeBodyParameter_exclusive_witness :
  (is_Some (TemplateBody {| TemplateBody := Some orders_yaml;
                            TemplateURL := None |}) /\
   TemplateURL {| TemplateBody := Some orders_yaml;
                  TemplateURL := None |} = None) \/
  (TemplateBody {| TemplateBody := Some orders_yaml;
                   TemplateURL := None |} = None /\
   is_Some (TemplateURL {| TemplateBody := Some orders_yaml;
                           TemplateURL := None |})).
Proof.
  exact (makeBodyParameter_exclusive (world_of unchanged) orders_stack None
           [] [] {| TemplateBody := Some orders_yaml; TemplateURL := None |}
           eq_refl).
Defined.

Lemma deployStack_empty_changeset_witness :
  count is_execute_change_set
    (snd (run (deployStack (deploy_options None None None None))
              (world_of nothing_to_change))) = 0%nat /\
  exists res,
    fst (run (deployStack (deploy_options None None None None))
             (world_of nothing_to_change)) = Ok res /\
    noOp res = true /\
    outputs res !! "QueueName" = Some "orders-queue" /\
    outputs res !! "TopicArn" = None.
Proof.
  destruct (run (deployStack (deploy_options None None None None))
                (world_of nothing_to_change)) as [r tr] eqn:Hrun.
  pose proof Hrun as Hconcrete. vm_compute in Hconcrete.
  destruct (deployStack_empty_changeset _ _ _ _ "Orders"
              "CDK-110ec58a-a0f2-4ac4-8393-c866d813b8d1"
              empty_changeset Hrun)
    as (Hcount & pre & del & post & Htr & Hcases).
  - inversion Hconcrete. cbn. tauto.
  - reflexivity.
  - split; [exact Hcount |].
    destruct Hcases
      as [(e & _ & _ & Hr) | [(e & _ & _ & Hr)
                             | (d & res & _ & Hpost & Hr & Hnoop & _ & Houts)]];
      [rewrite Hr in Hconcrete; discriminate Hconcrete ..|].
    assert (Hin : In (EvDescribeStack "Orders" (Ok d)) tr).
    { rewrite Htr, Hpost. apply in_or_app. right. right. right. now left. }
    pose proof (f_equal snd Hconcrete) as Htc. cbn [snd] in Htc.
    rewrite <- Htc in Hin.
    cbn in Hin.
    repeat (destruct Hin as [Hin | Hin]; try discriminate Hin);
      [| contradiction].
    inversion Hin; subst d.
    exists res. split; [exact Hr |]. split; [exact Hnoop |]. split.
    + apply Houts. split; [discriminate |].
      exists (orders_description "UPDATE_COMPLETE"), [],
        {| OutputKey := "QueueName"; OutputValue := "orders-queue" |}, [].
      repeat split; try reflexivity. intros o' [].
    + destruct (outputs res !! "TopicArn") as [v |] eqn:Hv; [| reflexivity].
      apply Houts in Hv as [_ (d' & p & o & q & Hd & Ho & Hkey & _)].
      inversion Hd; subst d'. cbn in Ho.
      destruct p as [| ? [| ? ?]]; inversion Ho; subst. discriminate Hkey.
Defined.

Lemma not_found_normalized_witness :
  getStackId "Orders" (world_of never_deployed) [] =
  (Ok None, [EvDescribeStacks "Orders" (Throw not_found_error)]) /\
  readCurrentTemplate "Orders" (world_of never_deployed) [] =
  (Ok (JObj []), [EvGetTemplate "Orders" (Throw not_found_error)]) /\
  readCurrentTemplate "Orders" (world_of template_vanished) [] =
  (Throw vanished_error, [EvGetTemplate "Orders" (Throw vanished_error)]).
Proof.
  split; [| split].
  - apply (not_found_normalized (world_of never_deployed) [] "Orders"
             not_found_error); reflexivity.
  - apply (not_found_normalized (world_of never_deployed) [] "Orders"
             not_found_error); reflexivity.
  - apply (not_found_normalized (world_of template_vanished) [] "Orders"
             vanished_error); [reflexivity |].
    right. discriminate.
Defined.

(** Against C7 as the specification words it: the stack is deployed, the
    error of [getTemplate] says that it does not exist, and [deployStack]
    rethrows it. *)
Lemma not_found_propagated_counterexample :
  includes "does not exist" (err_message vanished_error) = true /\
  run (deployStack (deploy_options None None None None))
      (world_of template_vanished) =
  (Throw vanished_error,
   [EvCloudFormation "123456789012" "eu-west-1" ForWriting (Ok tt);
    EvDescribeStacks "Orders" orders_deployed;
    EvGetTemplate "Orders" (Throw vanished_error)]).
Proof. vm_compute. split; reflexivity. Qed.

Lemma destroyStack_absent_noop_witness :
  fst (run (destroyStack destroy_options) (world_of first_deployment)) = Ok tt.
Proof.
  destruct (run (destroyStack destroy_options) (world_of first_deployment))
    as [r tr] eqn:Hrun.
  refine (proj1 (destroyStack_absent_noop _ _ _ _ "Orders" Hrun _)).
  vm_compute in Hrun. inversion Hrun. cbn. tauto.
Defined.

Lemma deployStack_review_only_witness :
  count is_execute_change_set
    (snd (run (deployStack (deploy_options None (Some false) None None))
              (world_of first_deployment))) = 0%nat /\
  exists res,
    fst (run (deployStack (deploy_options None (Some false) None None))
             (world_of first_deployment)) = Ok res /\
    noOp res = false /\
    outputs res !! "QueueName" = Some "orders-queue" /\
    outputs res !! "TopicArn" = None.
Proof.
  destruct (run (deployStack (deploy_options None (Some false) None None))
                (world_of first_deployment)) as [r tr] eqn:Hrun.
  pose proof Hrun as Hconcrete. vm_compute in Hconcrete.
  destruct (deployStack_review_only _ _ _ _ "Orders"
              "CDK-110ec58a-a0f2-4ac4-8393-c866d813b8d1"
              one_change Hrun eq_refl)
    as (Hcount & _ & pre & dr & Htr & Hcases).
  - inversion Hconcrete. cbn. tauto.
  - reflexivity.
  - split; [exact Hcount |].
    destruct Hcases
      as [(e & _ & Hr) | (d & res & Hdr & Hr & Hnoop & _ & Houts)];
      [rewrite Hr in Hconcrete; discriminate Hconcrete |].
    assert (Hin : In (EvDescribeStack "Orders" (Ok d)) tr).
    { rewrite Htr, Hdr. apply in_or_app. right. right. now left. }
    pose proof (f_equal snd Hconcrete) as Htc. cbn [snd] in Htc.
    rewrite <- Htc in Hin.
    cbn in Hin.
    repeat (destruct Hin as [Hin | Hin]; try discriminate Hin);
      [| contradiction].
    inversion Hin; subst d.
    exists res. split; [exact Hr |]. split; [exact Hnoop |]. split.
    + apply Houts. split; [discriminate |].
      exists (orders_description "UPDATE_COMPLETE"), [],
        {| OutputKey := "QueueName"; OutputValue := "orders-queue" |}, [].
      repeat split; try reflexivity. intros o' [].
    + destruct (outputs res !! "TopicArn") as [v |] eqn:Hv; [| reflexivity].
      apply Houts in Hv as [_ (d' & p & o & q & Hd & Ho & Hkey & _)].
      inversion Hd; subst d'. cbn in Ho.
      destruct p as [| ? [| ? ?]]; inversion Ho; subst. discriminate Hkey.
Defined.

Lemma getStackId_singleton_only_witness :
  getStackId "Orders" (world_of first_deployment) [] =
  (Ok None, [EvDescribeStacks "Orders" (Ok {| Stacks := Some [] |})]).
Proof.
  apply (getStackId_singleton_only (world_of first_deployment) [] "Orders"
           {| Stacks := Some [] |} eq_refl).
  right; left. reflexivity.
Defined.

(** * Further properties *)

(** ** Anatomy lemmas *)

Lemma deployStack_proceed_anatomy (o : DeployStackOptions) (n : string)
    (w : World) (h tr : list Event) (r : Outcome DeployStackResult) :
  deployStack_proceed o n w h = (r, tr) -> proceeding o w n h r tr.
Proof.
  unfold deployStack_proceed. intros Hrun.
  apply bind_inv in Hrun as [(assets & h1 & Hassets & Hrun) | (e & Hassets & ->)];
    apply perform_inv in Hassets as [Ha ->]; symmetry in Ha.
  2: { now apply proceeding_assets_throw. }
  fold (assets_event o (Ok assets)) in Hrun.
  apply bind_inv in Hrun as [(xid & h1 & Hid & Hrun) | (e & Hid & _)];
    [| discriminate Hid].
  unfold asks in Hid. inversion Hid; subst h1 xid; clear Hid.
  apply bind_inv in Hrun as [(body & hb & Hbody & Hrun) | (e & Hbody & ->)].
  2: { eapply proceeding_body_throws; eassumption. }
  apply bind_inv in Hrun as [([] & h3 & Hrec & Hrun) | (e & Hrec & ->)];
    apply recoverFailedCreation_shape in Hrec as (s2 & -> & Hs2).
  2: { eapply proceeding_recovery_throws; eassumption. }
  apply bind_inv in Hrun as [(update & h4 & Hex & Hrun) | (e & Hex & ->)];
    apply perform_inv in Hex as [Hu ->].
  2: { rewrite <- app_assoc. eapply proceeding_exists_throws; eassumption. }
  apply bind_inv in Hrun as [(c & h5 & Hcr & Hrun) | (e & Hcr & ->)];
    apply perform_inv in Hcr as [Hc ->].
  2: { rewrite <- !app_assoc. cbn [app].
       eapply (proceeding_requested o w n h assets body hb s2 update (Throw e));
         try eassumption. constructor. }
  set (input := change_set_input _ _ _ _ _ _) in *.
  change ("CDK-" +:+ uuid_v4 w (h ++ [assets_event o (Ok assets)])%list)
    with (ccs_ChangeSetName input) in Hrun.
  apply bind_inv in Hrun as [(desc & h6 & Hw & Hrun) | (e & Hw & ->)];
    apply perform_inv in Hw as [Hd ->].
  2: { rewrite <- !app_assoc. cbn [app].
       eapply (proceeding_requested o w n h assets body hb s2 update (Ok c));
         try eassumption. constructor. }
  apply concludeChangeSet_shape in Hrun as (s4 & -> & Hs4).
  rewrite <- !app_assoc. cbn [app].
  eapply (proceeding_requested o w n h assets body hb s2 update (Ok c));
    try eassumption.
  now constructor.
Qed.

Lemma deployStack_anatomy (o : DeployStackOptions) (w : World)
    (r : Outcome DeployStackResult) (tr : list Event) :
  run (deployStack o) w = (r, tr) -> deploying o w r tr.
Proof.
  unfold run, deployStack. intros Hrun.
  destruct (art_environment (dso_stack o)) as [env |] eqn:Henv.
  2: { inversion Hrun. now constructor. }
  apply bind_inv in Hrun as [([] & h1 & Hcf & Hrun) | (e & Hcf & ->)];
    apply perform_inv in Hcf as [Hc ->]; cbn [app] in *; symmetry in Hc.
  2: { eapply deploying_session_throws; eassumption. }
  fold (session_event env) in Hrun.
  destruct (truthy_flag (dso_force o)) eqn:Hforce; cbn [negb] in Hrun.
  { apply deployStack_proceed_anatomy in Hrun.
    eapply deploying_forced; eassumption. }
  apply bind_inv in Hrun as [(d & h2 & Hdep & Hrun) | (e & Hdep & ->)].
  2: { eapply deploying_lookup_throws; eassumption. }
  destruct d as [d |].
  2: { apply deployStack_proceed_anatomy in Hrun.
       eapply deploying_absent; eassumption. }
  destruct (String.eqb_spec (JSON_stringify (art_template (dso_stack o)))
              (JSON_stringify (deployed_template d))) as [Heq | Hne].
  - apply JSON_stringify_inj in Heq.
    unfold getStackOutputs, describeStack in Hrun. revert Hrun. unfold_monad.
    intros Hrun.
    pose proof (deploying_skipped o w env d h2 Henv Hc Hforce Hdep Heq) as Hs.
    cbv zeta in Hs. unfold skipped in Hs.
    destruct (util_describeStack w h2 (deploy_name o)); inversion Hrun; subst;
      exact Hs.
  - apply deployStack_proceed_anatomy in Hrun.
    eapply deploying_changed; try eassumption.
    intros Heq. apply Hne. now rewrite Heq.
Qed.

Lemma after_request_kind o w n cs out r post :
  after_request o w n cs out r post -> proceed_only post.
Proof.
  intros H; inversion H as [| | c desc r' s4 Hcon]; subst; repeat constructor.
  apply conclusion_kind in Hcon.
  eapply List.Forall_impl; [| exact Hcon].
  intros e He. unfold is_proceed_event. rewrite He. apply orb_true_r.
Qed.

Lemma recovery_proceed_kind (n : string) (st : Outcome unit) (s : list Event) :
  recovery n st s -> proceed_only s.
Proof. intros H; inversion H; subst; repeat constructor. Qed.

Lemma staging_proceed_kind (s : list Event) :
  staging_only s -> proceed_only s.
Proof.
  apply List.Forall_impl. intros e He. unfold is_proceed_event. now rewrite He.
Qed.

Lemma proceed_only_app (a b : list Event) :
  proceed_only a -> proceed_only b -> proceed_only (a ++ b)%list.
Proof. intros Ha Hb. apply List.Forall_app. auto. Qed.

Lemma proceed_only_cons (e : Event) (l : list Event) :
  is_proceed_event e = true -> proceed_only l -> proceed_only (e :: l).
Proof. intros He Hl. now constructor. Qed.

Ltac proceed_kinds :=
  lazymatch goal with
  | H : proceed_only ?l |- proceed_only ?l => exact H
  | |- proceed_only (_ ++ _) => apply proceed_only_app; proceed_kinds
  | |- proceed_only (_ :: _) =>
      apply proceed_only_cons; [reflexivity | proceed_kinds]
  | |- proceed_only [] => apply List.Forall_nil
  end.

(** [deployStack_proceed] only appends, and only calls of its own phases. *)
Lemma proceeding_appends o w n h r tr :
  proceeding o w n h r tr ->
  exists s, tr = (h ++ s)%list /\ proceed_only s.
Proof.
  intros H.
  inversion H as [e Ha | assets e hb Ha Hb | assets body hb e s2 Ha Hb Hr
                 | assets body hb s2 e Ha Hb Hr
                 | assets body hb s2 update out r' post Ha Hb Hr xid input Hp];
    subst;
    try (apply makeBodyParameter_staging in Hb as (sb & -> & Hsb);
         apply staging_proceed_kind in Hsb);
    try (apply recovery_proceed_kind in Hr);
    try (apply after_request_kind in Hp);
    eexists; rewrite <- ?app_assoc; (split; [reflexivity |]);
    unfold assets_event; proceed_kinds.
Qed.

Lemma getDeployedTemplate_skip_reads (n : string) (w : World)
    (h tr : list Event) (r : Outcome (option DeployedTemplate)) :
  getDeployedTemplate n w h = (r, tr) ->
  exists s, tr = (h ++ s)%list /\ skip_reads_only s.
Proof.
  unfold getDeployedTemplate, getStackId, readCurrentTemplate.
  unfold_ops. unfold_monad. cbn.
  intros Hrun. repeat head_step Hrun; simplify_eq; tidy_trace.
  all: eexists; split; [reflexivity |]; repeat constructor.
Qed.

Lemma skip_reads_guard (s : list Event) : skip_reads_only s -> guard_only s.
Proof. apply List.Forall_impl. now intros []. Qed.

(** The layout of every run of [deployStack]: the session, then the reads
    of the skip check, then calls of the later phases. *)
Lemma deploying_layout o w r tr :
  deploying o w r tr ->
  (art_environment (dso_stack o) = None /\ tr = []) \/
  exists env reads rest,
    art_environment (dso_stack o) = Some env /\
    tr = (EvCloudFormation (env_account env) (env_region env) ForWriting
            (sdk_cloudFormation w [] (env_account env) (env_region env)
               ForWriting) :: reads ++ rest)%list /\
    skip_reads_only reads /\ proceed_only rest /\
    (truthy_flag (dso_force o) = true -> reads = []) /\
    (is_ok (sdk_cloudFormation w [] (env_account env) (env_region env)
              ForWriting) = false -> reads = [] /\ rest = []).
Proof.
  intros H.
  inversion H as [Henv | env e Henv Hcf | env r' tr' Henv Hcf Hforce Hp
                 | env e h2 Henv Hcf Hforce Hd
                 | env h2 r' tr' Henv Hcf Hforce Hd Hp
                 | env d h2 r' tr' Henv Hcf Hforce Hd Hne Hp
                 | env d h2 Henv Hcf Hforce Hd Heq dr];
    subst; [left; auto | right; exists env ..];
    try (apply getDeployedTemplate_skip_reads in Hd as (reads & -> & Hreads));
    try (apply proceeding_appends in Hp as (rest & -> & Hrest));
    unfold session_granted in *; unfold session_event in *;
    try rewrite Hcf.
  - exists [], []. repeat split; auto; constructor.
  - exists [], rest. repeat split; auto; try constructor; discriminate.
  - exists reads, []. rewrite app_nil_r.
    repeat split; auto; try constructor; try congruence; discriminate.
  - exists reads, rest. rewrite <- app_assoc.
    repeat split; auto; try congruence; discriminate.
  - exists reads, rest. rewrite <- app_assoc.
    repeat split; auto; try congruence; discriminate.
  - exists reads, [EvDescribeStack (deploy_name o) dr]. rewrite <- app_assoc.
    repeat split; auto; try congruence; try discriminate. repeat constructor.
Qed.

Lemma deploying_cases o w r tr :
  deploying o w r tr ->
  guard_only tr \/
  exists env h,
    art_environment (dso_stack o) = Some env /\
    guard_only h /\ proceeding o w (deploy_name o) h r tr.
Proof.
  intros H.
  assert (Hs : forall env, guard_only [session_event env])
    by (intros env; repeat constructor).
  inversion H as [Henv | env e Henv Hcf | env r' tr' Henv Hcf Hforce Hp
                 | env e h2 Henv Hcf Hforce Hd
                 | env h2 r' tr' Henv Hcf Hforce Hd Hp
                 | env d h2 r' tr' Henv Hcf Hforce Hd Hne Hp
                 | env d h2 Henv Hcf Hforce Hd Heq dr];
    subst;
    try (apply getDeployedTemplate_skip_reads in Hd as (reads & -> & Hreads);
         apply skip_reads_guard in Hreads).
  - left. constructor.
  - left. repeat constructor.
  - right. eauto.
  - left. apply List.Forall_app. auto.
  - right. exists env, ([session_event env] ++ reads)%list.
    split; [exact Henv |]. split; [apply List.Forall_app; auto | exact Hp].
  - right. exists env, ([session_event env] ++ reads)%list.
    split; [exact Henv |]. split; [apply List.Forall_app; auto | exact Hp].
  - left. repeat (apply List.Forall_app; split); auto; repeat constructor.
Qed.

(** Every request for a changeset, with where its content comes from. *)
Lemma deployStack_request (o : DeployStackOptions) (w : World)
    (r : Outcome DeployStackResult) (tr : list Event)
    (input : CreateChangeSetInput) (out : Outcome CreateChangeSetOutput) :
  run (deployStack o) w = (r, tr) ->
  In (EvCreateChangeSet input out) tr ->
  exists env h assets body sb s2 update post,
    art_environment (dso_stack o) = Some env /\
    guard_only h /\
    assets_answer o w h = Ok assets /\
    makeBodyParameter (dso_stack o) (dso_toolkitInfo o) w
      (h ++ [assets_event o (Ok assets)])%list =
    (Ok body, (h ++ [assets_event o (Ok assets)] ++ sb)%list) /\
    staging_only sb /\
    recovery (deploy_name o) (Ok tt) s2 /\
    input = change_set_input o (deploy_name o)
              (uuid_v4 w (h ++ [assets_event o (Ok assets)])%list) update body
              (push_parameters assets (dso_parameters o)) /\
    tr = (h ++ assets_event o (Ok assets) :: sb ++ s2 ++
            EvStackExists (deploy_name o) (Ok update) ::
            EvCreateChangeSet input out :: post)%list /\
    after_request o w (deploy_name o) (ccs_ChangeSetName input) out r post.
Proof.
  intros Hrun Hin. apply deployStack_anatomy, deploying_cases in Hrun.
  destruct Hrun as [Hg | (env & h & Henv & Hg & Hp)]; [kind_contradiction |].
  exists env, h.
  inversion Hp as [e Ha | assets e hb Ha Hb | assets body hb e s2 Ha Hb Hr
                  | assets body hb s2 e Ha Hb Hr
                  | assets body hb s2 update out' r' post Ha Hb Hr xid inp Hpost];
    subst;
    try (pose proof Hb as Hb';
         apply makeBodyParameter_staging in Hb' as (sb & -> & Hsb));
    try (pose proof (recovery_kind _ _ _ Hr) as Hs2).
  - apply in_app_or in Hin as [Hin | Hin]; [kind_contradiction | finish_in Hin].
  - repeat (apply in_app_or in Hin as [Hin | Hin]); try kind_contradiction.
    finish_in Hin.
  - repeat (apply in_app_or in Hin as [Hin | Hin]); try kind_contradiction.
    finish_in Hin.
  - repeat (apply in_app_or in Hin as [Hin | Hin]); try kind_contradiction;
      finish_in Hin.
  - assert (Hpk : conclusion_only post \/
                  exists x, post = [EvWaitForChangeSet (deploy_name o)
                                      (ccs_ChangeSetName inp) x] \/
                    exists s4, post = EvWaitForChangeSet (deploy_name o)
                                        (ccs_ChangeSetName inp) x :: s4 /\
                               conclusion_only s4).
    { inversion Hpost as [| | c desc r'' s4 Hcon]; subst.
      - left. constructor.
      - right. eauto.
      - right. eexists. right. eexists. split; [reflexivity |].
        eapply conclusion_kind; eassumption. }
    repeat (apply in_app_or in Hin as [Hin | Hin]); try kind_contradiction.
    { finish_in Hin. }
    destruct Hin as [Hin | [Hin | Hin]]; [discriminate Hin | |].
    + inversion Hin; subst input out'. 
      exists assets, body, sb, s2, update, post.
      rewrite <- !app_assoc in *. cbn [app] in *. repeat split; auto.
    + exfalso. destruct Hpk as [Hk | (x & [-> | (s4 & -> & Hk)])].
      * kind_contradiction.
      * finish_in Hin.
      * destruct Hin as [Hin | Hin]; [discriminate Hin | kind_contradiction].
Qed.

Lemma deployStack_session (w : World) (o : DeployStackOptions) :
  (art_environment (dso_stack o) = None ->
   run (deployStack o) w =
   (Throw (Error (no_environment_message (art_displayName (dso_stack o)))),
    [])) /\
  (forall env,
     art_environment (dso_stack o) = Some env ->
     let r0 := sdk_cloudFormation w [] (env_account env) (env_region env)
                 ForWriting in
     exists rest,
       snd (run (deployStack o) w) =
       EvCloudFormation (env_account env) (env_region env) ForWriting r0 ::
       rest /\
       count is_session_event rest = 0%nat /\
       (forall e, r0 = Throw e ->
                  rest = [] /\ fst (run (deployStack o) w) = Throw e)).
Proof.
  split.
  - intros Henv. unfold run, deployStack. now rewrite Henv.
  - intros env Henv r0.
    destruct (run (deployStack o) w) as [r tr] eqn:Hrun.
    apply deployStack_anatomy in Hrun.
    pose proof (deploying_layout _ _ _ _ Hrun) as
      [[Hnone _] | (env' & reads & rest & Henv' & -> & Hreads & Hrest & _ & Hfail)];
      [congruence |].
    assert (env' = env) by congruence. subst env'. fold r0 in Hfail |- *.
    exists (reads ++ rest)%list. split; [reflexivity |]. split.
    + rewrite count_app, (Forall_count _ _ reads Hreads),
        (Forall_count _ _ rest Hrest) by kind_cases. reflexivity.
    + intros e He. rewrite He in Hfail.
      destruct (Hfail eq_refl) as [-> ->]. split; [reflexivity |].
      cbn [fst]. subst r0.
      inversion Hrun; subst; unfold session_granted in *; congruence.
Qed.

Lemma destroyStack_session (w : World) (o : DestroyStackOptions) :
  (art_environment (dst_stack o) = None ->
   run (destroyStack o) w =
   (Throw (Error (no_environment_message (art_displayName (dst_stack o)))),
    [])) /\
  (forall env,
     art_environment (dst_stack o) = Some env ->
     let r0 := sdk_cloudFormation w [] (env_account env) (env_region env)
                 ForWriting in
     exists rest,
       snd (run (destroyStack o) w) =
       EvCloudFormation (env_account env) (env_region env) ForWriting r0 ::
       rest /\
       count is_session_event rest = 0%nat /\
       (forall e, r0 = Throw e ->
                  rest = [] /\ fst (run (destroyStack o) w) = Throw e)).
Proof.
  split.
  - intros Henv. unfold run, destroyStack. now rewrite Henv.
  - intros env Henv r0.
    destruct (run (destroyStack o) w) as [r tr] eqn:Hrun.
    revert Hrun. unfold destroyStack. rewrite Henv. unfold_ops. unfold_monad.
    cbn. fold r0. intros Hrun.
    repeat head_step Hrun; simplify_eq; cbn [snd fst];
      eexists; (split; [reflexivity |]); (split; [reflexivity |]);
      intros e' He'; try discriminate He'; inversion He'; auto.
Qed.

(** X1.  An operation on a stack without an environment throws the
    configuration error before any call; on a stack with one, the first
    call asks for a session for writing in the account and region of that
    environment, it is the only such call, and when it throws nothing else
    is called and its error is the error of the operation. *)
Theorem operation_session (w : World) (op : Operation) :
  (art_environment (operation_stack op) = None ->
   trace_of op w = [] /\
   operation_error op w =
   Some (Error (no_environment_message
                  (art_displayName (operation_stack op))))) /\
  (forall env,
     art_environment (operation_stack op) = Some env ->
     let r0 := sdk_cloudFormation w [] (env_account env) (env_region env)
                 ForWriting in
     exists rest,
       trace_of op w =
       EvCloudFormation (env_account env) (env_region env) ForWriting r0 ::
       rest /\
       count is_session_event rest = 0%nat /\
       (forall e, r0 = Throw e ->
                  rest = [] /\ operation_error op w = Some e)).
Proof.
  destruct op as [o | o]; cbn [operation_stack trace_of operation_error].
  - destruct (deployStack_session w o) as [Hnone Hsome]. split.
    + intros Henv. now rewrite (Hnone Henv).
    + intros env Henv. pose proof (Hsome env Henv) as Hs. cbv zeta in Hs.
      destruct Hs as (rest & Htr & Hc & Hfail).
      exists rest. split; [exact Htr |]. split; [exact Hc |].
      intros e He. destruct (Hfail e He) as [-> Hr].
      split; [reflexivity |]. now rewrite Hr.
  - destruct (destroyStack_session w o) as [Hnone Hsome]. split.
    + intros Henv. now rewrite (Hnone Henv).
    + intros env Henv. pose proof (Hsome env Henv) as Hs. cbv zeta in Hs.
      destruct Hs as (rest & Htr & Hc & Hfail).
      exists rest. split; [exact Htr |]. split; [exact Hc |].
      intros e He. destruct (Hfail e He) as [-> Hr].
      split; [reflexivity |]. now rewrite Hr.
Qed.

Lemma operation_session_witness :
  trace_of (Deploy homeless_options) (world_of unchanged) = [] /\
  operation_error (Deploy homeless_options) (world_of unchanged) =
  Some (Error (no_environment_message "Orders")).
Proof.
  apply (operation_session (world_of unchanged) (Deploy homeless_options)).
  reflexivity.
Defined.

(** X2.  A forced deployment skips the check altogether: no stack is
    described and no template is read, whatever is deployed, and once the
    session is granted the run is that of the deployment proper. *)
Theorem deployStack_force_bypasses (w : World) (o : DeployStackOptions)
    (r : Outcome DeployStackResult) (tr : list Event) :
  dso_force o = Some true ->
  run (deployStack o) w = (r, tr) ->
  count is_skip_read tr = 0%nat /\
  (forall env,
     art_environment (dso_stack o) = Some env ->
     session_granted w env ->
     deployStack_proceed o (deploy_name o) w [session_event env] = (r, tr)).
Proof.
  intros Hforce Hrun. split.
  - apply deployStack_anatomy, deploying_layout in Hrun.
    destruct Hrun as [[_ ->] | (env & reads & rest & _ & -> & _ & Hrest & Hf & _)];
      [reflexivity |].
    rewrite Hf by now rewrite Hforce.
    cbn [app]. change (?x :: rest) with ([x] ++ rest)%list.
    rewrite count_app, (Forall_count _ _ rest Hrest) by kind_cases.
    reflexivity.
  - intros env Henv Hcf. unfold session_granted in Hcf.
    revert Hrun. unfold run, deployStack. rewrite Henv, Hforce. cbn [truthy_flag negb].
    unfold bind at 1. unfold cloudFormation, perform at 1. rewrite Hcf.
    cbn [app]. auto.
Qed.

Lemma deployStack_force_bypasses_witness :
  count is_skip_read
    (snd (run (deployStack (deploy_options None None None (Some true)))
              (world_of unchanged))) = 0%nat.
Proof.
  destruct (run (deployStack (deploy_options None None None (Some true)))
                (world_of unchanged)) as [r tr] eqn:Hrun.
  exact (proj1 (deployStack_force_bypasses (world_of unchanged)
                  (deploy_options None None None (Some true)) r tr
                  eq_refl Hrun)).
Defined.

Lemma makeBodyParameter_inline (w : World)
    (stack : CloudFormationStackArtifact) (h : list Event) :
  makeBodyParameter stack None w h =
  (if (50 * 1024 <? Z.of_nat (String.length (toYAML w (art_template stack))))%Z
   then match art_environment stack with
        | Some _ => Throw (Error too_large_message)
        | None => Throw (TypeError_undefined "name")
        end
   else Ok {| TemplateBody := Some (toYAML w (art_template stack));
              TemplateURL := None |},
   h).
Proof.
  unfold makeBodyParameter. unfold_monad.
  change (LARGE_TEMPLATE_SIZE_KB * 1024)%Z with (50 * 1024)%Z.
  destruct (50 * 1024 <? _)%Z; [| reflexivity].
  now destruct (art_environment stack).
Qed.

Lemma makeBodyParameter_uploaded (w : World)
    (stack : CloudFormationStackArtifact) (tk : ToolkitInfo) (h : list Event) :
  let props := {| s3KeyPrefix := "cdk/" +:+ art_id stack +:+ "/";
                  s3KeySuffix := ".yml";
                  contentType := "application/x-yaml" |} in
  let data := toYAML w (art_template stack) in
  let up := toolkit_uploadIfChanged w h tk data props in
  makeBodyParameter stack (Some tk) w h =
  (match up with
   | Ok key => Ok {| TemplateBody := None;
                     TemplateURL := Some (bucketUrl tk +:+ "/" +:+ key) |}
   | Throw e => Throw e
   end, (h ++ [EvUploadIfChanged tk data props up])%list).
Proof.
  cbv zeta. unfold makeBodyParameter, uploadIfChanged. unfold_monad.
  now destruct (toolkit_uploadIfChanged _ _ _ _ _).
Qed.



Lemma push_parameters_app (params : list StackParameter)
    (entries : list (string * option string)) :
  push_parameters params (Some entries) =
  (params ++ accepted_parameters entries)%list.
Proof.
  unfold push_parameters. cbn [default]. revert params.
  induction entries as [| [k v] entries IH]; intros params; cbn.
  - now rewrite app_nil_r.
  - rewrite IH. destruct v as [v |]; [| reflexivity].
    destruct (String.eqb v ""); [reflexivity |].
    now rewrite <- app_assoc.
Qed.

Lemma push_parameters_spec (params : list StackParameter)
    (entries : option (list (string * option string))) :
  push_parameters params entries =
  (params ++ accepted_parameters (default [] entries))%list.
Proof.
  destruct entries as [entries |]; [apply push_parameters_app |].
  cbn. now rewrite app_nil_r.
Qed.

Lemma guard_staging_recovery_no_create (h sb s2 : list Event)
    (e : Event) (n : string) (st : Outcome unit) :
  guard_only h -> staging_only sb -> recovery n st s2 ->
  is_staging_event e = true ->
  count is_create_change_set (h ++ e :: sb ++ s2)%list = 0%nat.
Proof.
  intros Hh Hsb Hr He. apply recovery_kind in Hr.
  change (e :: sb ++ s2)%list with ([e] ++ sb ++ s2)%list.
  rewrite !count_app, (Forall_count _ _ h Hh), (Forall_count _ _ sb Hsb),
    (Forall_count _ _ s2 Hr) by kind_cases.
  destruct e; try discriminate He; reflexivity.
Qed.

Lemma after_request_count (p : Event -> bool) o w n cs out r post :
  after_request o w n cs out r post ->
  (forall e, is_conclusion_event e = true -> p e = false) ->
  (forall x, p (EvWaitForChangeSet n cs x) = false) ->
  count p post = 0%nat.
Proof.
  intros H Hc Hw; inversion H as [| | c desc r' s4 Hcon]; subst.
  - reflexivity.
  - unfold count. cbn. now rewrite Hw.
  - apply conclusion_kind in Hcon.
    change (?x :: s4) with ([x] ++ s4)%list.
    rewrite count_app, (Forall_count _ _ s4 Hcon) by exact Hc.
    unfold count. cbn. now rewrite Hw.
Qed.

Lemma after_request_no_create o w n cs out r post :
  after_request o w n cs out r post ->
  count is_create_change_set post = 0%nat.
Proof.
  intros H. eapply after_request_count; [exact H | kind_cases | reflexivity].
Qed.

(** X4.  Every changeset that [deployStack] requests is for the deploy
    name, is called [CDK-] followed by the execution id that its
    description quotes, asks for the three IAM and auto-expand
    capabilities, and passes on the caller's role, notification targets and
    tags.  It is requested right after the existence check, as an update
    when the stack exists and as a creation otherwise, and it is the only
    request of the run. *)
Theorem deployStack_request_intent (w : World) (o : DeployStackOptions)
    (r : Outcome DeployStackResult) (tr : list Event)
    (input : CreateChangeSetInput) (out : Outcome CreateChangeSetOutput) :
  run (deployStack o) w = (r, tr) ->
  In (EvCreateChangeSet input out) tr ->
  ccs_StackName input = deploy_name o /\
  (exists id,
     ccs_ChangeSetName input = "CDK-" +:+ id /\
     ccs_Description input = "CDK Changeset for execution " +:+ id) /\
  ccs_Capabilities input =
  ["CAPABILITY_IAM"; "CAPABILITY_NAMED_IAM"; "CAPABILITY_AUTO_EXPAND"] /\
  ccs_RoleARN input = dso_roleArn o /\
  ccs_NotificationARNs input = dso_notificationArns o /\
  ccs_Tags input = dso_tags o /\
  exists pre update post,
    tr = (pre ++ EvStackExists (deploy_name o) (Ok update) ::
                 EvCreateChangeSet input out :: post)%list /\
    ccs_ChangeSetType input = (if update then UPDATE else CREATE) /\
    count is_create_change_set pre = 0%nat /\
    count is_create_change_set post = 0%nat.
Proof.
  intros Hrun Hin.
  destruct (deployStack_request _ _ _ _ _ _ Hrun Hin)
    as (env & h & assets & body & sb & s2 & update & post & Henv & Hg & Ha &
        Hb & Hsb & Hr & -> & -> & Hpost).
  cbn [change_set_input ccs_StackName ccs_ChangeSetName ccs_Description
       ccs_Capabilities ccs_RoleARN ccs_NotificationARNs ccs_Tags
       ccs_ChangeSetType].
  split; [reflexivity |]. split; [eauto |].
  do 4 (split; [reflexivity |]).
  exists (h ++ assets_event o (Ok assets) :: sb ++ s2)%list, update, post.
  split; [now rewrite <- !app_assoc, <- app_comm_cons, <- app_assoc |].
  split; [reflexivity |]. split.
  - eapply guard_staging_recovery_no_create; eauto.
  - eapply after_request_no_create; eassumption.
Qed.

Lemma deployStack_request_intent_witness :
  ccs_StackName first_request =
  deploy_name (deploy_options None None None None).
Proof.
  destruct (run (deployStack (deploy_options None None None None))
                (world_of first_deployment)) as [r tr] eqn:Hrun.
  refine (proj1 (deployStack_request_intent (world_of first_deployment)
                   (deploy_options None None None None) r tr first_request
                   changeset_answer Hrun _)).
  vm_compute in Hrun. inversion Hrun. vm_compute. tauto.
Defined.

Lemma accepted_parameters_In (entries : list (string * option string))
    (k v : string) :
  In {| ParameterKey := k; ParameterValue := v |} (accepted_parameters entries)
  <-> In (k, Some v) entries /\ v <> "".
Proof.
  unfold accepted_parameters. rewrite in_flat_map. split.
  - intros ([k' [v' |]] & Hin & Hp); cbn in Hp; [| contradiction].
    destruct (String.eqb_spec v' ""); [contradiction |].
    destruct Hp as [Hp | []]. inversion Hp; subst. auto.
  - intros [Hin Hv]. exists (k, Some v). split; [exact Hin |]. cbn.
    apply String.eqb_neq in Hv. rewrite Hv. now left.
Qed.

(** X5.  The parameters of the requested changeset are those the asset
    preparer returned, in its order, followed by the caller's parameters in
    the order given; of the latter exactly those with a defined, non-empty
    value are passed. *)
Theorem deployStack_request_parameters (w : World) (o : DeployStackOptions)
    (r : Outcome DeployStackResult) (tr : list Event)
    (input : CreateChangeSetInput) (out : Outcome CreateChangeSetOutput) :
  run (deployStack o) w = (r, tr) ->
  In (EvCreateChangeSet input out) tr ->
  let entries := default [] (dso_parameters o) in
  exists assets,
    In (assets_event o (Ok assets)) tr /\
    ccs_Parameters input = (assets ++ accepted_parameters entries)%list /\
    (forall k v,
       In {| ParameterKey := k; ParameterValue := v |}
          (accepted_parameters entries) <->
       In (k, Some v) entries /\ v <> "").
Proof.
  intros Hrun Hin entries.
  destruct (deployStack_request _ _ _ _ _ _ Hrun Hin)
    as (env & h & assets & body & sb & s2 & update & post & Henv & Hg & Ha &
        Hb & Hsb & Hr & -> & -> & Hpost).
  exists assets. split; [| split].
  - apply in_or_app. right. now left.
  - cbn [change_set_input ccs_Parameters]. apply push_parameters_spec.
  - intros k v. apply accepted_parameters_In.
Qed.

Lemma deployStack_request_parameters_witness :
  exists assets,
    ccs_Parameters parameterized_request =
    (assets ++
     [{| ParameterKey := "Retention"; ParameterValue := "14" |};
      {| ParameterKey := "Tier"; ParameterValue := "standard" |}])%list.
Proof.
  destruct (run (deployStack parameterized_options)
                (world_of first_deployment)) as [r tr] eqn:Hrun.
  pose proof (deployStack_request_parameters (world_of first_deployment)
                parameterized_options r tr parameterized_request
                changeset_answer Hrun) as H.
  cbv zeta in H. destruct H as (assets & _ & Hparams & _).
  - vm_compute in Hrun. inversion Hrun. vm_compute. tauto.
  - exists assets. exact Hparams.
Defined.

(** X6.  The template of the requested changeset is given in exactly one
    way.  Without a toolkit bucket it is the serialized template inline,
    which is then no longer than 50 * 1024, and nothing is uploaded.  With
    one it is the URL of the bucket followed by the key under which the one
    upload of the run, of the serialized template as YAML under
    [cdk/<stack id>/], was stored. *)
Theorem deployStack_request_template (w : World) (o : DeployStackOptions)
    (r : Outcome DeployStackResult) (tr : list Event)
    (input : CreateChangeSetInput) (out : Outcome CreateChangeSetOutput) :
  run (deployStack o) w = (r, tr) ->
  In (EvCreateChangeSet input out) tr ->
  let data := toYAML w (art_template (dso_stack o)) in
  match dso_toolkitInfo o with
  | None =>
      ccs_TemplateBody input = Some data /\
      ccs_TemplateURL input = None /\
      (Z.of_nat (String.length data) <= 50 * 1024)%Z /\
      count is_upload tr = 0%nat
  | Some tk =>
      ccs_TemplateBody input = None /\
      count is_upload tr = 1%nat /\
      exists key,
        ccs_TemplateURL input = Some (bucketUrl tk +:+ "/" +:+ key) /\
        In (EvUploadIfChanged tk data
              {| s3KeyPrefix := "cdk/" +:+ art_id (dso_stack o) +:+ "/";
                 s3KeySuffix := ".yml";
                 contentType := "application/x-yaml" |} (Ok key)) tr
  end.
Proof.
  intros Hrun Hin data.
  destruct (deployStack_request _ _ _ _ _ _ Hrun Hin)
    as (env & h & assets & body & sb & s2 & update & post & Henv & Hg & Ha &
        Hb & Hsb & Hr & -> & -> & Hpost).
  cbn [change_set_input ccs_TemplateBody ccs_TemplateURL].
  assert (Hpostc : count is_upload post = 0%nat)
    by (eapply after_request_count; [exact Hpost | kind_cases | reflexivity]).
  pose proof (recovery_kind _ _ _ Hr) as Hs2.
  assert (Hcount : count is_upload
                     (h ++ assets_event o (Ok assets) :: sb ++ s2 ++
                        EvStackExists (deploy_name o) (Ok update) ::
                        EvCreateChangeSet
                          (change_set_input o (deploy_name o)
                             (uuid_v4 w (h ++ [assets_event o (Ok assets)]))
                             update body
                             (push_parameters assets (dso_parameters o)))
                          out :: post)%list = count is_upload sb).
  { change (assets_event o (Ok assets) :: sb ++ s2 ++ ?a :: ?b :: post)%list
      with ([assets_event o (Ok assets)] ++ sb ++ s2 ++ [a; b] ++ post)%list.
    rewrite !count_app, (Forall_count _ _ h Hg), (Forall_count _ _ s2 Hs2),
      Hpostc by kind_cases.
    unfold count at 1 3. cbn. lia. }
  rewrite Hcount. clear Hcount.
  rewrite app_assoc in Hb.
  destruct (dso_toolkitInfo o) as [tk |] eqn:Htk.
  - pose proof (makeBodyParameter_uploaded w (dso_stack o) tk
                  (h ++ [assets_event o (Ok assets)])%list) as Hup.
    cbv zeta in Hup. fold data in Hup. rewrite Hup in Hb.
    destruct (toolkit_uploadIfChanged _ _ _ _ _) as [key | e] eqn:Hkey;
      inversion Hb as [[Hbody Hsuffix]].
    apply app_inv_head in Hsuffix. subst sb.
    split; [reflexivity |]. split; [reflexivity |].
    exists key. split; [reflexivity |].
    apply in_or_app. right. right. left. reflexivity.
  - rewrite makeBodyParameter_inline in Hb. fold data in Hb.
    destruct (Z.ltb_spec (50 * 1024) (Z.of_nat (String.length data)))
      as [Hbig | Hsmall].
    { destruct (art_environment (dso_stack o)); discriminate Hb. }
    inversion Hb as [[Hbody Hsuffix]].
    rewrite <- (app_nil_r (h ++ [assets_event o (Ok assets)])) in Hsuffix at 1.
    apply app_inv_head in Hsuffix. subst sb.
    repeat split; auto.
Qed.

Lemma deployStack_request_template_witness :
  ccs_TemplateBody first_request = Some orders_yaml /\
  ccs_TemplateURL first_request = None.
Proof.
  destruct (run (deployStack (deploy_options None None None None))
                (world_of first_deployment)) as [r tr] eqn:Hrun.
  pose proof (deployStack_request_template (world_of first_deployment)
                (deploy_options None None None None) r tr first_request
                changeset_answer Hrun) as H.
  cbv zeta in H. cbn [dso_toolkitInfo deploy_options] in H.
  destruct H as (Hbody & Hurl & _).
  - vm_compute in Hrun. inversion Hrun. vm_compute. tauto.
  - split; [exact Hbody | exact Hurl].
Defined.

(** A run of [deployStack] either never sees a stabilized changeset, or
    ends with the conclusion of the changeset it requested. *)
Lemma deployStack_concluded (o : DeployStackOptions) (w : World)
    (r : Outcome DeployStackResult) (tr : list Event) :
  run (deployStack o) w = (r, tr) ->
  preparatory_only tr \/
  exists pre input c desc s4,
    tr = (pre ++ EvCreateChangeSet input (Ok c) ::
                 EvWaitForChangeSet (deploy_name o) (ccs_ChangeSetName input)
                   (Ok desc) :: s4)%list /\
    preparatory_only pre /\
    count is_create_change_set pre = 0%nat /\
    ccs_StackName input = deploy_name o /\
    conclusion o w (deploy_name o) (ccs_ChangeSetName input) c desc r s4.
Proof.
  intros Hrun.
  apply deployStack_trace in Hrun
    as (h & s1 & Hh & Hs1 & [-> | (s2 & s3 & s4 & -> & Hflow)]).
  { left. preparatory. }
  inversion Hflow as [ | | | | ? ? update input c desc ? Hrec Hname Htype Hcon];
    subst;
    match goal with
    | Hr : recovery _ _ _ |- _ => pose proof (recovery_kind _ _ _ Hr) as Hs2
    end.
  1-4: left; rewrite ?app_nil_r; preparatory.
  right.
  exists (h ++ s1 ++ s2 ++ [EvStackExists (deploy_name o) (Ok update)])%list.
  exists input, c, desc, s4.
  split; [now rewrite <- !app_assoc |]. split; [preparatory |].
  split; [| split; [exact Hname | exact Hcon]].
  rewrite !count_app, (Forall_count _ _ h Hh), (Forall_count _ _ s1 Hs1),
    (Forall_count _ _ s2 Hs2) by kind_cases.
  reflexivity.
Qed.

Lemma conclusion_verdict o w n cs c desc r s4 :
  conclusion o w n cs c desc r s4 ->
  (count is_verdict s4 <= 1)%nat /\
  forall execute n' cs' x,
    In (verdict execute n' cs' x) s4 ->
    n' = n /\ cs' = cs /\
    changeSetHasNoChanges w desc = negb execute /\
    (execute = true -> execute_requested o = true) /\
    exists rest, s4 = verdict execute n cs x :: rest.
Proof.
  intros Hcon.
  inversion Hcon; subst; unfold monitor_started, monitor_stopped;
    destruct (truthy_flag (dso_quiet o)); cbn [app];
    (split; [unfold count; cbn; lia |]);
    intros [] n' cs' x Hin; unfold verdict in *.
  all: cbn [In] in Hin.
  all: repeat (destruct Hin as [Hin | Hin]); try discriminate Hin;
    try contradiction.
  all: inversion Hin; subst; cbn [negb].
  all: repeat split; try assumption; try reflexivity; try congruence;
    eexists; reflexivity.
Qed.

(** X7.  The only changeset that [deployStack] ever executes or deletes is
    the one it requested in the same run, for the deploy name and under the
    name of the request, and it does so once, as the first call after that
    changeset has stabilized: it deletes it only when it has no changes, and
    executes it only when it has changes and execution was not declined. *)
Theorem deployStack_changeset_verdict (w : World) (o : DeployStackOptions)
    (r : Outcome DeployStackResult) (tr : list Event)
    (execute : bool) (n cs : string) (x : Outcome unit) :
  run (deployStack o) w = (r, tr) ->
  In (verdict execute n cs x) tr ->
  count is_verdict tr = 1%nat /\
  (execute = true -> execute_requested o = true) /\
  exists pre input c desc rest,
    tr = (pre ++ EvCreateChangeSet input (Ok c) ::
                 EvWaitForChangeSet n cs (Ok desc) ::
                 verdict execute n cs x :: rest)%list /\
    n = deploy_name o /\
    ccs_StackName input = n /\
    ccs_ChangeSetName input = cs /\
    count is_create_change_set pre = 0%nat /\
    changeSetHasNoChanges w desc = negb execute.
Proof.
  intros Hrun Hin.
  apply deployStack_concluded in Hrun
    as [Hp | (pre & input & c & desc & s4 & -> & Hpre & Hcount & Hname & Hcon)].
  { destruct execute; kind_contradiction. }
  destruct (conclusion_verdict _ _ _ _ _ _ _ _ Hcon) as [Hone Hloc].
  assert (Hin4 : In (verdict execute n cs x) s4).
  { apply in_app_or in Hin as [Hin | [Hin | [Hin | Hin]]];
      [destruct execute; kind_contradiction
      | destruct execute; discriminate Hin ..
      | exact Hin]. }
  destruct (Hloc _ _ _ _ Hin4) as (-> & -> & Hno & Hex & rest & ->).
  split; [| split; [exact Hex |]].
  - change (?a :: ?b :: ?l)%list with ([a; b] ++ l)%list.
    rewrite !count_app, (preparatory_count _ pre Hpre) by kind_cases.
    change (?a :: ?l)%list with ([a] ++ l)%list in Hone.
    rewrite count_app in Hone.
    change (?a :: ?l)%list with ([a] ++ l)%list. rewrite count_app.
    destruct execute; unfold count in *; cbn in *; lia.
  - exists pre, input, c, desc, rest. repeat split; auto.
Qed.

Lemma deployStack_changeset_verdict_witness :
  execute_requested (deploy_options None None None None) = true.
Proof.
  destruct (run (deployStack (deploy_options None None None None))
                (world_of first_deployment)) as [r tr] eqn:Hrun.
  refine (proj1 (proj2 (deployStack_changeset_verdict
                          (world_of first_deployment)
                          (deploy_options None None None None) r tr true
                          "Orders" ("CDK-" +:+ scenario_execution_id) (Ok tt)
                          Hrun _)) eq_refl).
  vm_compute in Hrun. inversion Hrun. vm_compute. tauto.
Defined.

Lemma recovery_delete (n : string) (st : Outcome unit) (s2 : list Event) :
  recovery n st s2 ->
  (count is_delete_stack s2 <= 1)%nat /\
  forall n' role x,
    In (EvDeleteStack n' role x) s2 ->
    n' = n /\ role = None /\
    exists rest,
      s2 = EvStackFailedCreating n (Ok true) :: EvDeleteStack n None x :: rest /\
      match x with
      | Ok _ => exists y, rest = [EvWaitForStack n false y]
      | Throw e => rest = [] /\ st = Throw e
      end.
Proof.
  intros Hrec.
  inversion Hrec; subst; (split; [unfold count; cbn; lia |]);
    intros n' role x Hin; finish_in Hin; eauto 10.
Qed.

(** X8.  [deployStack] deletes a stack only when it has just been told that
    the stack had failed creation: the delete is for the deploy name, without
    a role, at most one is issued, and none after a changeset was requested.
    A delete that succeeds is followed at once by the wait for the stack to
    be gone; one that fails ends the deployment with its error. *)
Theorem deployStack_deletes_only_failed (w : World) (o : DeployStackOptions)
    (r : Outcome DeployStackResult) (tr : list Event)
    (n : string) (role : option string) (x : Outcome unit) :
  run (deployStack o) w = (r, tr) ->
  In (EvDeleteStack n role x) tr ->
  n = deploy_name o /\ role = None /\
  count is_delete_stack tr = 1%nat /\
  exists pre post,
    tr = (pre ++ EvStackFailedCreating n (Ok true) ::
                 EvDeleteStack n None x :: post)%list /\
    count is_create_change_set pre = 0%nat /\
    match x with
    | Ok _ => exists y rest, post = EvWaitForStack n false y :: rest
    | Throw e => post = [] /\ r = Throw e
    end.
Proof.
  intros Hrun Hin.
  apply deployStack_trace in Hrun
    as (h & s1 & Hh & Hs1 & [-> | (s2 & s3 & s4 & -> & Hflow)]).
  { now apply not_in_prefix in Hin. }
  assert (Hrec : exists st, recovery (deploy_name o) st s2 /\
                            request_only s3 /\ conclusion_only s4 /\
                            (forall e, st = Throw e ->
                                       r = Throw e /\ s3 = [] /\ s4 = [])).
  { apply flow_recovery in Hflow
      as [(e & Hrec & -> & -> & ->) | (Hrec & Hs3 & Hs4)].
    - exists (Throw e). repeat split; auto; try constructor; congruence.
    - exists (Ok tt). repeat split; auto; discriminate. }
  destruct Hrec as (st & Hrec & Hs3 & Hs4 & Hst).
  destruct (recovery_delete _ _ _ Hrec) as [Hone Hloc].
  assert (Hin2 : In (EvDeleteStack n role x) s2).
  { rewrite !in_app_iff in Hin.
    destruct Hin as [Hin | [Hin | [Hin | [Hin | Hin]]]];
      try assumption; kind_contradiction. }
  destruct (Hloc _ _ _ Hin2) as (-> & -> & rest & -> & Hrest).
  do 2 (split; [reflexivity |]). split.
  - rewrite !count_app, (Forall_count _ _ h Hh), (Forall_count _ _ s1 Hs1),
      (Forall_count _ _ s3 Hs3), (Forall_count _ _ s4 Hs4) by kind_cases.
    change (?a :: ?b :: ?l)%list with ([a; b] ++ l)%list in Hone |- *.
    rewrite count_app in Hone |- *. unfold count in *; cbn in *. lia.
  - exists (h ++ s1)%list, (rest ++ s3 ++ s4)%list.
    split; [now rewrite <- !app_assoc |]. split.
    + rewrite count_app.
      now rewrite (Forall_count _ _ h Hh), (Forall_count _ _ s1 Hs1)
        by kind_cases.
    + destruct x as [u | e].
      * destruct Hrest as (y & ->). cbn. eauto.
      * destruct Hrest as (-> & Hthrow).
        destruct (Hst e Hthrow) as (-> & -> & ->). auto.
Qed.

Lemma deployStack_deletes_only_failed_witness :
  count is_delete_stack
    (snd (run (deployStack (deploy_options None None None None))
              (world_of stuck_deletion))) = 1%nat.
Proof.
  destruct (run (deployStack (deploy_options None None None None))
                (world_of stuck_deletion)) as [r tr] eqn:Hrun.
  refine (proj1 (proj2 (proj2 (deployStack_deletes_only_failed
                                 (world_of stuck_deletion)
                                 (deploy_options None None None None) r tr
                                 "Orders" None (Ok tt) Hrun _)))).
  vm_compute in Hrun. inversion Hrun. vm_compute. tauto.
Defined.

(** What [getDeployedTemplate] has read when it returns. *)
Lemma getDeployedTemplate_reads (w : World) (h h2 : list Event) (n : string)
    (found : option DeployedTemplate) :
  getDeployedTemplate n w h = (Ok found, h2) ->
  match found with
  | Some d =>
      exists out s,
        cfn_describeStacks w h n = Ok out /\
        Stacks out = Some [s] /\
        StackId s = Some (deployed_stackId d) /\
        deployed_stackId d <> "" /\
        truthy_json (deployed_template d) = true /\
        h2 = (h ++ [EvDescribeStacks n (Ok out);
                    EvGetTemplate n
                      (cfn_getTemplate w
                         (h ++ [EvDescribeStacks n (Ok out)]) n)])%list
  | None =>
      h2 = (h ++ [EvDescribeStacks n (cfn_describeStacks w h n)])%list
  end.
Proof.
  unfold getDeployedTemplate, getStackId, readCurrentTemplate.
  unfold_ops. unfold_monad. cbn.
  intros Hrun. repeat head_step Hrun; simplify_eq; tidy_trace.
  all: try reflexivity.
  all: match goal with
       | Hl : negb (length ?l =? 1)%nat = false, H0 : ?l !! 0%nat = Some ?s,
         Hout : cfn_describeStacks _ _ _ = Ok ?a |- _ =>
           exists a, s; destruct l as [| s' [| s'' l']]; try discriminate Hl;
           cbn in H0; simplify_eq
       end.
  all: repeat match goal with
       | Hid : (_ =? "") = false |- _ => apply String.eqb_neq in Hid
       end.
  all: cbn [deployed_stackId deployed_template].
  all: repeat split; try assumption; try reflexivity; try congruence.
  destruct (truthy_json a1) eqn:Ht; [exact Ht | reflexivity].
Qed.

(** X9.  [getDeployedTemplate] reports a deployed template only for a
    describe-stacks answer that lists exactly one stack, with an id that is
    not empty: it reports that id, and a template that was read by the one
    call that follows the describe and is never a falsy document.  When it
    reports none, the describe was its only call: no template was read. *)
Theorem getDeployedTemplate_found (w : World) (h h2 : list Event) (n : string)
    (found : option DeployedTemplate) :
  getDeployedTemplate n w h = (Ok found, h2) ->
  match found with
  | Some d =>
      exists out s,
        cfn_describeStacks w h n = Ok out /\
        Stacks out = Some [s] /\
        StackId s = Some (deployed_stackId d) /\
        deployed_stackId d <> "" /\
        truthy_json (deployed_template d) = true /\
        h2 = (h ++ [EvDescribeStacks n (Ok out);
                    EvGetTemplate n
                      (cfn_getTemplate w
                         (h ++ [EvDescribeStacks n (Ok out)]) n)])%list
  | None =>
      h2 = (h ++ [EvDescribeStacks n (cfn_describeStacks w h n)])%list
  end.
Proof. exact (getDeployedTemplate_reads w h h2 n found). Qed.

Lemma getDeployedTemplate_found_witness :
  exists s, Stacks {| Stacks := Some [orders_description "CREATE_COMPLETE"] |}
            = Some [s] /\ StackId s = Some orders_arn.
Proof.
  destruct (getDeployedTemplate "Orders" (world_of unchanged) [])
    as [r h2] eqn:Hrun.
  pose proof (getDeployedTemplate_found (world_of unchanged) [] h2 "Orders"
                (Some {| deployed_template := orders_template;
                         deployed_stackId := orders_arn |})) as H.
  cbv beta iota in H.
  destruct H as (out & s & Hout & Hs & Hid & _).
  - vm_compute in Hrun. inversion Hrun. reflexivity.
  - vm_compute in Hout. inversion Hout; subst out. exists s. auto.
Defined.

Lemma proceeding_result o w n h res tr :
  proceeding o w n h (Ok res) tr ->
  exists pre input c desc s4,
    tr = (pre ++ EvCreateChangeSet input (Ok c) ::
                 EvWaitForChangeSet n (ccs_ChangeSetName input) (Ok desc) ::
                 s4)%list /\
    conclusion o w n (ccs_ChangeSetName input) c desc (Ok res) s4.
Proof.
  intros H.
  inversion H as [| | |
                  | assets body hb s2 update out r' post Ha Hb Hr xid input Hp];
    subst.
  inversion Hp as [| | c desc r' s4 Hcon]; subst.
  exists (hb ++ s2 ++ [EvStackExists n (Ok update)])%list, input, c, desc, s4.
  split; [now rewrite <- !app_assoc | exact Hcon].
Qed.

Lemma conclusion_result o w n cs c desc res s4 :
  conclusion o w n cs c desc (Ok res) s4 ->
  stackArtifact res = dso_stack o /\
  stackArn res = ccs_StackId c /\
  noOp res = changeSetHasNoChanges w desc /\
  (exists pre d,
     s4 = (pre ++ [EvDescribeStack n (Ok d)])%list /\
     outputs res = outputs_of d) /\
  if noOp res then In (EvDeleteChangeSet n cs (Ok tt)) s4
  else execute_requested o = true ->
       In (EvExecuteChangeSet n cs (Ok tt)) s4 /\
       exists st, In (EvWaitForStack n true (Ok st)) s4.
Proof.
  intros Hcon.
  inversion Hcon as [| dr Hno Hres | dr Hno Hex Hres | | |
                     | st dr Hno Hex Hres]; subst;
    destruct dr as [d | e]; try discriminate Hres;
    cbn in Hres; inversion Hres; subst res; cbn [deploy_result stackArtifact
      stackArn noOp outputs]; (split; [reflexivity |]);
    (split; [reflexivity |]); (split; [congruence |]).
  - split; [exists [EvDeleteChangeSet n cs (Ok tt)], d; auto |]. now left.
  - split; [exists [], d; auto |]. congruence.
  - split.
    + exists (EvExecuteChangeSet n cs (Ok tt) :: monitor_started o n desc ++
              EvWaitForStack n true (Ok st) :: monitor_stopped o n)%list, d.
      split; [| reflexivity]. cbn [app]. f_equal.
      rewrite <- app_assoc. reflexivity.
    + intros _. split; [now left |]. exists st. right.
      apply in_or_app. right. now left.
Qed.

(** X10.  What a result of [deployStack] tells its caller.  It carries the
    stack that was passed in, and the outputs read by the describe that is
    the last call of the run: under every key the value that the
    description lists last under it, and nothing else (a key [__proto__]
    apart, which a plain object does not store).  Either no changeset was requested: then the
    deployment was not forced, the result is a no-op whose [stackArn] is the
    id of the one stack describe-stacks listed, and no mutating call was
    made.  Or a changeset was created and stabilized: then [stackArn] is the
    stack id of the answer to the request, [noOp] tells whether the changeset
    had no changes, a changeset without changes was deleted, and one with
    changes was, unless execution was declined, executed and the stack waited
    for. *)
Theorem deployStack_result (w : World) (o : DeployStackOptions)
    (res : DeployStackResult) (tr : list Event) :
  run (deployStack o) w = (Ok res, tr) ->
  let n := deploy_name o in
  stackArtifact res = dso_stack o /\
  (exists pre d,
     tr = (pre ++ [EvDescribeStack n (Ok d)])%list /\
     outputs res = outputs_of d /\
     forall k v,
       outputs res !! k = Some v <->
       k <> "__proto__" /\ current_output d k v) /\
  ((count is_create_change_set tr = 0%nat /\
    truthy_flag (dso_force o) = false /\
    noOp res = true /\
    count mutating tr = 0%nat /\
    exists out s,
      In (EvDescribeStacks n (Ok out)) tr /\
      Stacks out = Some [s] /\ stackArn res = StackId s) \/
   (exists input c desc,
      In (EvCreateChangeSet input (Ok c)) tr /\
      In (EvWaitForChangeSet n (ccs_ChangeSetName input) (Ok desc)) tr /\
      stackArn res = ccs_StackId c /\
      noOp res = changeSetHasNoChanges w desc /\
      if noOp res
      then In (EvDeleteChangeSet n (ccs_ChangeSetName input) (Ok tt)) tr
      else execute_requested o = true ->
           In (EvExecuteChangeSet n (ccs_ChangeSetName input) (Ok tt)) tr /\
           exists st, In (EvWaitForStack n true (Ok st)) tr)).
Proof.
  intros Hrun n. apply deployStack_anatomy in Hrun.
  assert (Hproceed : forall h,
             proceeding o w n h (Ok res) tr ->
             stackArtifact res = dso_stack o /\
             (exists pre d,
                tr = (pre ++ [EvDescribeStack n (Ok d)])%list /\
                outputs res = outputs_of d /\
                forall k v,
                  outputs res !! k = Some v <->
                  k <> "__proto__" /\ current_output d k v) /\
             exists input c desc,
               In (EvCreateChangeSet input (Ok c)) tr /\
               In (EvWaitForChangeSet n (ccs_ChangeSetName input) (Ok desc)) tr /\
               stackArn res = ccs_StackId c /\
               noOp res = changeSetHasNoChanges w desc /\
               if noOp res
               then In (EvDeleteChangeSet n (ccs_ChangeSetName input) (Ok tt)) tr
               else execute_requested o = true ->
                    In (EvExecuteChangeSet n (ccs_ChangeSetName input) (Ok tt)) tr /\
                    exists st, In (EvWaitForStack n true (Ok st)) tr).
  { intros h Hp.
    apply proceeding_result in Hp as (pre & input & c & desc & s4 & -> & Hcon).
    apply conclusion_result in Hcon
      as (Hart & Harn & Hnoop & (pre' & d & -> & Houts) & Hdone).
    split; [exact Hart |]. split.
    - exists (pre ++ EvCreateChangeSet input (Ok c) ::
                EvWaitForChangeSet n (ccs_ChangeSetName input) (Ok desc) ::
                pre')%list, d.
      split; [rewrite <- !app_assoc; reflexivity |].
      split; [exact Houts |].
      intros k v. rewrite Houts. apply outputs_of_lookup.
    - exists input, c, desc.
      split; [apply in_or_app; right; now left |].
      split; [apply in_or_app; right; right; now left |].
      split; [exact Harn |]. split; [exact Hnoop |].
      destruct (noOp res).
      + apply in_or_app. right. right. right. exact Hdone.
      + intros Hex. destruct (Hdone Hex) as (Hin & st & Hst).
        split; [apply in_or_app; right; right; right; exact Hin |].
        exists st. apply in_or_app. right. right. right. exact Hst. }
  inversion Hrun as [Henv | env e Henv Hcf | env r' tr' Henv Hcf Hforce Hp
                    | env e h2 Henv Hcf Hforce Hd
                    | env h2 r' tr' Henv Hcf Hforce Hd Hp
                    | env d h2 r' tr' Henv Hcf Hforce Hd Hne Hp
                    | env d h2 Henv Hcf Hforce Hd Heq dr Hres Htr];
    subst;
    try (destruct (Hproceed _ Hp) as (Hart & Hlast & Hreq);
         split; [exact Hart |]; split; [exact Hlast |]; right; exact Hreq).
  apply getDeployedTemplate_reads in Hd
    as (out & s & Hout & Hs & Hid & Hne & Htruthy & ->).
  fold n in dr, Hres |- *.
  destruct dr as [x | e] eqn:Hdr; cbn in Hres; [| discriminate Hres].
  inversion Hres; subst res.
  cbn [deploy_result stackArtifact stackArn noOp outputs].
  split; [reflexivity |]. split.
  { eexists _, x. split; [reflexivity |]. split; [reflexivity |].
    intros k v. apply outputs_of_lookup. }
  left.
  split; [reflexivity |]. split; [exact Hforce |]. split; [reflexivity |].
  split; [reflexivity |].
  exists out, s. split; [| split; [exact Hs | now symmetry]].
  right. now left.
Qed.

Lemma deployStack_result_witness :
  exists res,
    fst (run (deployStack (deploy_options None None None None))
             (world_of first_deployment)) = Ok res /\
    stackArtifact res = dso_stack (deploy_options None None None None) /\
    outputs res !! "QueueName" = Some "orders-queue" /\
    outputs res !! "TopicArn" = None.
Proof.
  destruct (run (deployStack (deploy_options None None None None))
                (world_of first_deployment)) as [r tr] eqn:Hrun.
  pose proof Hrun as Hconcrete. vm_compute in Hconcrete.
  destruct r as [res | e];
    [| apply (f_equal fst) in Hconcrete; discriminate Hconcrete].
  destruct (deployStack_result _ _ res tr Hrun)
    as (Hart & (pre & d & Htr & _ & Houts) & _).
  assert (Hin : In (EvDescribeStack "Orders" (Ok d)) tr).
  { rewrite Htr. apply in_or_app. right. now left. }
  pose proof (f_equal snd Hconcrete) as Htc. cbn [snd] in Htc.
  rewrite <- Htc in Hin. cbn in Hin.
  repeat (destruct Hin as [Hin | Hin]; try discriminate Hin);
    [| contradiction].
  inversion Hin; subst d.
  exists res. split; [reflexivity |]. split; [exact Hart |]. split.
  - apply Houts. split; [discriminate |].
    exists (orders_description "UPDATE_COMPLETE"), [],
      {| OutputKey := "QueueName"; OutputValue := "orders-queue" |}, [].
    repeat split; try reflexivity. intros o' [].
  - destruct (outputs res !! "TopicArn") as [v |] eqn:Hv; [| reflexivity].
    apply Houts in Hv as [_ (d' & p & o & q & Hd & Ho & Hkey & _)].
    inversion Hd; subst d'. cbn in Ho.
    destruct p as [| ? [| ? ?]]; inversion Ho; subst. discriminate Hkey.
Defined.

(** ** [destroyStack] *)

Lemma destroyStack_anatomy (o : DestroyStackOptions) (w : World)
    (r : Outcome unit) (tr : list Event) :
  run (destroyStack o) w = (r, tr) -> destroying o w r tr.
Proof.
  unfold destroyStack. unfold_ops. unfold_monad. cbn.
  intros Hrun. fold (destroy_name o) in Hrun.
  repeat head_step Hrun; simplify_eq; unit_tt; tidy_trace.
  all: try match goal with
       | Hb : negb ?b = _ |- context [EvStackExists _ (Ok ?b)] =>
           destruct b; try discriminate Hb; clear Hb
       end.
  all: try match goal with
       | Henv : art_environment _ = Some ?env,
         Hq : truthy_flag (dst_quiet ?o') = _ |- destroying _ ?w' _ _ =>
           pose proof (destroying_delete_throws o' w' env) as D1;
           pose proof (destroying_wait_throws o' w' env) as D2;
           pose proof (destroying_waited o' w' env) as D3;
           unfold destroy_monitor_started, destroy_monitor_stopped, destroyed,
             session_event in D1, D2, D3;
           rewrite Hq in D1, D2, D3; cbn [app] in D1, D2, D3
       end.
  all: try (eapply D1; eassumption).
  all: try (eapply D2; eassumption).
  all: try match goal with
       | |- context [EvWaitForStack _ false (Ok ?st)] =>
           specialize (D3 st); cbn beta iota in D3
       end.
  all: try match goal with
       | Hs : negb (_ =? "DELETE_COMPLETE") = _ |- _ =>
           apply (f_equal negb) in Hs; rewrite negb_involutive in Hs;
           cbn [negb] in Hs; rewrite Hs in D3
       end.
  all: try (eapply D3; eassumption).
  all: try (eapply destroying_stop_throws; eassumption).
  all: eauto using destroying.
Qed.

Ltac destroy_cases H :=
  inversion H as [Henv | env e Henv | env e Henv | env Henv | env e Henv
                 | env e Henv | env st e Henv Hquiet | env st Henv];
  subst; unfold destroy_monitor_started, destroy_monitor_stopped,
    session_event in *;
  try destruct (truthy_flag (dst_quiet _)) eqn:Hq; cbn [app] in *.

(** X11.  [destroyStack] returns normally only when the stack is gone: when
    it was told that the stack does not exist, or when the delete it issued
    succeeded and the wait that followed ended on absence or on a stack in
    [DELETE_COMPLETE].  A wait that ends on a stack in any other status
    makes it fail, with [Failed to destroy <name>: <status>] unless stopping
    the monitor failed first. *)
Theorem destroyStack_outcome (w : World) (o : DestroyStackOptions)
    (r : Outcome unit) (tr : list Event) :
  run (destroyStack o) w = (r, tr) ->
  let n := destroy_name o in
  (r = Ok tt ->
   In (EvStackExists n (Ok false)) tr \/
   In (EvDeleteStack n (dst_roleArn o) (Ok tt)) tr /\
   exists st,
     In (EvWaitForStack n false (Ok st)) tr /\
     (st = None \/
      exists d, st = Some d /\ StackStatus d = "DELETE_COMPLETE")) /\
  (forall d,
     In (EvWaitForStack n false (Ok (Some d))) tr ->
     StackStatus d <> "DELETE_COMPLETE" ->
     r = Throw (Error (failed_destroy_message n (StackStatus_toString w d))) \/
     exists e, In (EvMonitorStop n (Throw e)) tr /\ r = Throw e).
Proof.
  intros Hrun n. apply destroyStack_anatomy in Hrun. split.
  - intros ->. subst n.
    destroy_cases Hrun.
    all: try (left; cbn; tauto).
    all: right; (split; [cbn; tauto |]); exists st; (split; [cbn; tauto |]).
    all: destruct st as [d |]; [right | now left].
    all: exists d; split; [reflexivity |]; unfold destroyed in *.
    all: destruct (String.eqb_spec (StackStatus d) "DELETE_COMPLETE");
      [assumption | discriminate].
  - intros d Hin Hbad. subst n.
    destroy_cases Hrun; finish_in Hin.
    all: try (right; eexists; split; [cbn; eauto 10 | reflexivity]).
    all: left; unfold destroyed.
    all: apply String.eqb_neq in Hbad; now rewrite Hbad.
Qed.

Lemma destroyStack_outcome_witness :
  fst (run (destroyStack destroy_options) (world_of stuck_deletion)) =
  Throw (Error (failed_destroy_message "Orders" "DELETE_FAILED")).
Proof.
  destruct (run (destroyStack destroy_options) (world_of stuck_deletion))
    as [r tr] eqn:Hrun.
  destruct (proj2 (destroyStack_outcome (world_of stuck_deletion)
                     destroy_options r tr Hrun)
              (orders_description "DELETE_FAILED"))
    as [Hr | (e & Hstop & _)].
  - vm_compute in Hrun. inversion Hrun. vm_compute. tauto.
  - vm_compute. discriminate.
  - exact Hr.
  - exfalso. vm_compute in Hrun. inversion Hrun; subst tr.
    vm_compute in Hstop. intuition discriminate.
Defined.

(** X12.  [destroyStack] issues at most one delete, and no changeset call
    or template read at all.  The delete is for the deploy name, with the
    caller's role, and is issued only after [stackExists] answered that the
    stack exists, with nothing but the start of the monitor in between.  A
    delete that fails ends the destruction with its error; one that
    succeeds is followed at once by the wait for the deletion. *)
Theorem destroyStack_delete (w : World) (o : DestroyStackOptions)
    (r : Outcome unit) (tr : list Event) :
  run (destroyStack o) w = (r, tr) ->
  let n := destroy_name o in
  (count is_delete_stack tr <= 1)%nat /\
  count is_change_set_call tr = 0%nat /\
  count is_skip_read tr = 0%nat /\
  forall n' role x,
    In (EvDeleteStack n' role x) tr ->
    n' = n /\ role = dst_roleArn o /\
    exists pre post,
      tr = (pre ++ EvStackExists n (Ok true) ::
                   (if truthy_flag (dst_quiet o) then []
                    else [EvMonitorStart n None]) ++
                   EvDeleteStack n role x :: post)%list /\
      match x with
      | Ok _ => exists y rest, post = EvWaitForStack n false y :: rest
      | Throw e => post = [] /\ r = Throw e
      end.
Proof.
  intros Hrun n. apply destroyStack_anatomy in Hrun. subst n.
  destroy_cases Hrun.
  all: split; [unfold count; cbn; lia |].
  all: split; [reflexivity |]. 
  all: split; [reflexivity |].
  all: intros n' role x Hin; finish_in Hin.
  all: split; [reflexivity |]; split; [reflexivity |].
  all: eexists [_], _; cbn [app]; split; [reflexivity |]; eauto.
Qed.

Lemma destroyStack_delete_witness :
  (count is_delete_stack
     (snd (run (destroyStack destroy_options) (world_of unchanged))) <= 1)%nat.
Proof.
  destruct (run (destroyStack destroy_options) (world_of unchanged))
    as [r tr] eqn:Hrun.
  exact (proj1 (destroyStack_delete (world_of unchanged) destroy_options r tr
                  Hrun)).
Defined.

Lemma conclusion_monitor o w n cs c desc r s4 :
  conclusion o w n cs c desc r s4 ->
  (truthy_flag (dso_quiet o) = true -> count is_monitor_event s4 = 0%nat) /\
  forall n' k,
    In (EvMonitorStart n' k) s4 ->
    truthy_flag (dso_quiet o) = false /\ n' = n /\
    k = Some (change_count desc) /\
    exists post,
      s4 = EvExecuteChangeSet n cs (Ok tt) :: EvMonitorStart n k :: post.
Proof.
  intros Hcon.
  inversion Hcon; subst; unfold monitor_started, monitor_stopped;
    destruct (truthy_flag (dso_quiet o)) eqn:Hq; cbn [app].
  all: try congruence.
  all: split; [intros Hquiet; try discriminate Hquiet; reflexivity |].
  all: intros n' k Hin; finish_in Hin.
  all: repeat split; eauto.
Qed.

(** X13.  The activity monitor is never started, nor stopped, by an
    operation that was asked to be quiet.  Otherwise [deployStack] starts it
    only right after a changeset was executed, for the deploy name and with
    the number of changes of that changeset as the total to expect, and
    [destroyStack] only between the answer that the stack exists and the
    delete, for the deploy name and without a total. *)
Theorem monitor_scope (w : World) (op : Operation) :
  (operation_quiet op = true ->
   count is_monitor_event (trace_of op w) = 0%nat) /\
  forall n k,
    In (EvMonitorStart n k) (trace_of op w) ->
    operation_quiet op = false /\
    match op with
    | Deploy o =>
        n = deploy_name o /\
        exists pre cs desc post,
          trace_of op w =
          (pre ++ EvWaitForChangeSet n cs (Ok desc) ::
                  EvExecuteChangeSet n cs (Ok tt) ::
                  EvMonitorStart n k :: post)%list /\
          k = Some (length (default [] (dcs_Changes desc)))
    | Destroy o =>
        n = destroy_name o /\ k = None /\
        exists pre x post,
          trace_of op w =
          (pre ++ EvStackExists n (Ok true) :: EvMonitorStart n k ::
                  EvDeleteStack n (dst_roleArn o) x :: post)%list
    end.
Proof.
  destruct op as [o | o]; cbn [trace_of operation_quiet].
  - destruct (run (deployStack o) w) as [r tr] eqn:Hrun. cbn [snd].
    apply deployStack_concluded in Hrun
      as [Hp | (pre & input & c & desc & s4 & -> & Hpre & _ & _ & Hcon)].
    { split.
      - intros _. apply preparatory_count; [exact Hp | kind_cases].
      - intros n k Hin. kind_contradiction. }
    destruct (conclusion_monitor _ _ _ _ _ _ _ _ Hcon) as [Hquiet Hloc].
    split.
    + intros Hq. change (?a :: ?b :: s4)%list with ([a; b] ++ s4)%list.
      rewrite !count_app, (preparatory_count _ pre Hpre), (Hquiet Hq)
        by kind_cases.
      reflexivity.
    + intros n k Hin.
      apply in_app_or in Hin as [Hin | [Hin | [Hin | Hin]]];
        [kind_contradiction | discriminate Hin | discriminate Hin |].
      destruct (Hloc _ _ Hin) as (Hq & -> & -> & post & ->).
      split; [exact Hq |]. split; [reflexivity |].
      exists (pre ++ [EvCreateChangeSet input (Ok c)])%list,
        (ccs_ChangeSetName input), desc, post.
      split; [now rewrite <- app_assoc | reflexivity].
  - destruct (run (destroyStack o) w) as [r tr] eqn:Hrun. cbn [snd].
    apply destroyStack_anatomy in Hrun.
    destroy_cases Hrun.
    all: try congruence.
    all: split; [intros Hqq; try discriminate Hqq; reflexivity |].
    all: intros n k Hin; finish_in Hin.
    all: split; [reflexivity |]; split; [reflexivity |].
    all: split; [reflexivity |]; eexists [_], _, _; reflexivity.
Qed.

Lemma monitor_scope_witness :
  count is_monitor_event
    (trace_of (Deploy (deploy_options None None (Some true) None))
              (world_of first_deployment)) = 0%nat.
Proof.
  exact (proj1 (monitor_scope (world_of first_deployment)
                  (Deploy (deploy_options None None (Some true) None)))
           eq_refl).
Defined.

Lemma conclusion_awaited o w n cs c desc r s4 :
  conclusion o w n cs c desc r s4 ->
  forall n' cs',
    In (EvExecuteChangeSet n' cs' (Ok tt)) s4 ->
    n' = n /\ cs' = cs /\
    exists x post,
      s4 = (EvExecuteChangeSet n cs (Ok tt) ::
            (if truthy_flag (dso_quiet o) then []
             else [EvMonitorStart n (Some (change_count desc))]) ++
            EvWaitForStack n true x :: post)%list /\
      (forall e, x = Throw e -> post = [] /\ r = Throw e) /\
      (forall res, r = Ok res -> is_ok x = true /\ noOp res = false).
Proof.
  intros Hcon n' cs' Hin.
  inversion Hcon as [| dr | dr | | | | st dr]; subst;
    unfold monitor_started, monitor_stopped, described in *;
    destruct (truthy_flag (dso_quiet o)) eqn:Hq; cbn [app] in *;
    finish_in Hin; try congruence.
  all: do 2 (split; [reflexivity |]); eexists _, _; (split; [reflexivity |]).
  all: split; [intros e' He'; try discriminate He'; inversion He'; auto |].
  all: intros res Hres; try discriminate Hres.
  all: destruct dr; try discriminate Hres; inversion Hres; auto.
Qed.

(** X14.  A changeset that [deployStack] has executed is always waited
    for: the call that follows the execution, after the start of the
    monitor if there is one, is the wait for the stack under the deploy
    name, with a deleted stack counting as a failure.  When that wait fails
    the deployment fails with its error and calls nothing else; a result is
    returned only when it succeeded, and it then reports [noOp = false]. *)
Theorem deployStack_execution_awaited (w : World) (o : DeployStackOptions)
    (r : Outcome DeployStackResult) (tr : list Event) (n cs : string) :
  run (deployStack o) w = (r, tr) ->
  In (EvExecuteChangeSet n cs (Ok tt)) tr ->
  exists pre x post desc,
    In (EvWaitForChangeSet n cs (Ok desc)) pre /\
    tr = (pre ++ EvExecuteChangeSet n cs (Ok tt) ::
                 (if truthy_flag (dso_quiet o) then []
                  else [EvMonitorStart n
                          (Some (length (default [] (dcs_Changes desc))))]) ++
                 EvWaitForStack n true x :: post)%list /\
    (forall e, x = Throw e -> post = [] /\ r = Throw e) /\
    (forall res, r = Ok res -> is_ok x = true /\ noOp res = false).
Proof.
  intros Hrun Hin.
  apply deployStack_concluded in Hrun
    as [Hp | (pre & input & c & desc & s4 & -> & Hpre & _ & _ & Hcon)].
  { kind_contradiction. }
  apply in_app_or in Hin as [Hin | [Hin | [Hin | Hin]]];
    [kind_contradiction | discriminate Hin | discriminate Hin |].
  destruct (conclusion_awaited _ _ _ _ _ _ _ _ Hcon _ _ Hin)
    as (-> & -> & x & post & -> & Hthrow & Hok).
  exists (pre ++ [EvCreateChangeSet input (Ok c);
                  EvWaitForChangeSet (deploy_name o) (ccs_ChangeSetName input)
                    (Ok desc)])%list, x, post, desc.
  split; [apply in_or_app; right; right; now left |].
  split; [now rewrite <- app_assoc |]. split; assumption.
Qed.

Lemma deployStack_execution_awaited_witness :
  exists x,
    In (EvWaitForStack "Orders" true x)
       (snd (run (deployStack (deploy_options None None None None))
                 (world_of wait_fails))) /\
    (forall e, x = Throw e ->
               fst (run (deployStack (deploy_options None None None None))
                        (world_of wait_fails)) = Throw e).
Proof.
  destruct (run (deployStack (deploy_options None None None None))
                (world_of wait_fails)) as [r tr] eqn:Hrun.
  destruct (deployStack_execution_awaited (world_of wait_fails)
              (deploy_options None None None None) r tr "Orders"
              ("CDK-" +:+ scenario_execution_id) Hrun)
    as (pre & x & post & desc & _ & -> & Hthrow & _).
  - vm_compute in Hrun. inversion Hrun. vm_compute. tauto.
  - exists x. split.
    + apply in_or_app. right. right. apply in_or_app. right. now left.
    + intros e He. exact (proj2 (Hthrow e He)).
Defined.

(** ** Errors end the run *)

Lemma fails_fast_app (err : option JsError) (a b : list Event) :
  fails_fast None a -> fails_fast err b -> fails_fast err (a ++ b)%list.
Proof.
  induction a as [| e a IH]; cbn; [auto |].
  unfold harmless. destruct (thrown e) as [x |] eqn:Hx.
  - destruct (absorbed e); [auto |]. intros [_ Habs]. discriminate Habs.
  - auto.
Qed.

Lemma fails_fast_spec (err : option JsError) (s pre post : list Event)
    (e : Event) :
  fails_fast err s -> s = (pre ++ e :: post)%list ->
  harmless e = false -> post = [] /\ err = thrown e.
Proof.
  revert s. induction pre as [| p pre IH]; intros s Hs -> Hbad; cbn in Hs.
  - now rewrite Hbad in Hs.
  - destruct (harmless p).
    + eapply IH; eauto.
    + destruct Hs as [Hnil _]. now destruct pre.
Qed.

Lemma lookup_fails_fast (n : string) (w : World) (h h2 : list Event)
    (r : Outcome (option DeployedTemplate)) :
  getDeployedTemplate n w h = (r, h2) ->
  exists s, h2 = (h ++ s)%list /\ fails_fast (error_of r) s.
Proof.
  unfold getDeployedTemplate, getStackId, readCurrentTemplate.
  unfold_ops. unfold_monad. cbn.
  intros Hrun. repeat head_step Hrun; simplify_eq; tidy_trace.
  all: eexists; split; [reflexivity |]; cbn.
  all: unfold harmless; cbn.
  all: repeat match goal with
       | H : includes _ _ = _ |- _ => rewrite H
       | H : code_is _ _ && _ = _ |- _ => rewrite H
       end.
  all: auto.
Qed.

Lemma staging_fails_fast (st : CloudFormationStackArtifact)
    (tk : option ToolkitInfo) (w : World) (h hb : list Event)
    (r : Outcome TemplateBodyParameter) :
  makeBodyParameter st tk w h = (r, hb) ->
  exists s, hb = (h ++ s)%list /\ fails_fast (error_of r) s.
Proof.
  unfold makeBodyParameter. unfold_ops. unfold_monad. cbn.
  intros Hrun. repeat head_step Hrun; simplify_eq; tidy_trace.
  all: try (exists []; rewrite app_nil_r; split; [reflexivity | exact I]).
  all: eexists; split; [reflexivity |]; cbn; auto.
Qed.

Lemma recovery_fails_fast (n : string) (st : Outcome unit) (s : list Event) :
  recovery n st s -> fails_fast (error_of st) s.
Proof. intros H; inversion H; subst; cbn; auto. Qed.

Lemma conclusion_fails_fast o w n cs c desc r s :
  conclusion o w n cs c desc r s -> fails_fast (error_of r) s.
Proof.
  intros H; inversion H as [| dr | dr | | | | st dr]; subst;
    unfold monitor_started, monitor_stopped, described;
    destruct (truthy_flag (dso_quiet o)); try destruct dr; cbn; auto.
Qed.

Lemma after_request_fails_fast o w n cs input out r post :
  after_request o w n cs out r post ->
  fails_fast (error_of r) (EvCreateChangeSet input out :: post).
Proof.
  intros H; inversion H as [| | c desc r' s4 Hcon]; subst; cbn; auto.
  now apply conclusion_fails_fast in Hcon.
Qed.

Lemma proceeding_fails_fast o w n h r tr :
  proceeding o w n h r tr ->
  exists s, tr = (h ++ s)%list /\ fails_fast (error_of r) s.
Proof.
  intros H.
  inversion H as [e Ha | assets e hb Ha Hb | assets body hb e s2 Ha Hb Hr
                 | assets body hb s2 e Ha Hb Hr
                 | assets body hb s2 update out r' post Ha Hb Hr xid input Hp];
    subst;
    try (apply staging_fails_fast in Hb as (sb & -> & Hsb));
    try (apply recovery_fails_fast in Hr);
    try (apply (after_request_fails_fast _ _ _ _ input) in Hp);
    eexists; rewrite <- ?app_assoc; (split; [reflexivity |]).
  - cbn. auto.
  - cbn. exact Hsb.
  - cbn. apply fails_fast_app; assumption.
  - cbn. apply fails_fast_app; [exact Hsb |].
    apply fails_fast_app; [exact Hr |]. cbn. auto.
  - cbn. apply fails_fast_app; [exact Hsb |].
    apply fails_fast_app; [exact Hr |]. cbn. exact Hp.
Qed.

Lemma deploying_fails_fast o w r tr :
  deploying o w r tr -> fails_fast (error_of r) tr.
Proof.
  intros H.
  inversion H as [Henv | env e Henv Hcf | env r' tr' Henv Hcf Hforce Hp
                 | env e h2 Henv Hcf Hforce Hd
                 | env h2 r' tr' Henv Hcf Hforce Hd Hp
                 | env d h2 r' tr' Henv Hcf Hforce Hd Hne Hp
                 | env d h2 Henv Hcf Hforce Hd Heq dr];
    subst;
    try (apply lookup_fails_fast in Hd as (reads & -> & Hreads));
    try (apply proceeding_fails_fast in Hp as (rest & -> & Hrest));
    unfold session_event in *; rewrite <- ?app_assoc; cbn [app].
  - exact I.
  - cbn. auto.
  - cbn. exact Hrest.
  - cbn. exact Hreads.
  - cbn. apply fails_fast_app; assumption.
  - cbn. apply fails_fast_app; assumption.
  - cbn. apply fails_fast_app; [exact Hreads |].
    unfold skipped. destruct dr; cbn; auto.
Qed.

Lemma destroying_fails_fast o w r tr :
  destroying o w r tr -> fails_fast (error_of r) tr.
Proof.
  intros H. destroy_cases H; cbn; auto.
  all: unfold destroyed; destruct st as [d |]; cbn; auto.
  all: destruct (StackStatus d =? "DELETE_COMPLETE"); cbn; auto.
Qed.

(** X15.  Apart from the two errors that the lookups absorb, a
    describe-stacks error that mentions [does not exist] and the
    get-template validation error for the stack asked for, the first call
    that fails ends the operation: [deployStack] and [destroyStack] make no
    call after it and fail with the very error it threw. *)
Theorem operation_fails_fast (w : World) (op : Operation)
    (pre post : list Event) (e : Event) (err : JsError) :
  trace_of op w = (pre ++ e :: post)%list ->
  thrown e = Some err ->
  absorbed e = false ->
  post = [] /\ operation_error op w = Some err.
Proof.
  intros Htr Hthrown Habs.
  assert (Hff : fails_fast (operation_error op w) (trace_of op w)).
  { destruct op as [o | o]; cbn [trace_of operation_error].
    - destruct (run (deployStack o) w) as [r tr] eqn:Hrun.
      apply (deploying_fails_fast o w), deployStack_anatomy, Hrun.
    - destruct (run (destroyStack o) w) as [r tr] eqn:Hrun.
      apply (destroying_fails_fast o w), destroyStack_anatomy, Hrun. }
  rewrite <- Hthrown. eapply fails_fast_spec; [exact Hff | exact Htr |].
  unfold harmless. now rewrite Hthrown.
Qed.

Lemma operation_fails_fast_witness :
  operation_error (Deploy (deploy_options None None None None))
    (world_of wait_fails) = Some timeout_error.
Proof.
  refine (proj2 (operation_fails_fast (world_of wait_fails)
                   (Deploy (deploy_options None None None None))
                   (removelast
                      (trace_of (Deploy (deploy_options None None None None))
                         (world_of wait_fails)))
                   [] (EvWaitForStack "Orders" true (Throw timeout_error))
                   timeout_error _ _ _));
    reflexivity.
Defined.

(** ** The small functions *)

(** X16.  The outputs that [getStackOutputs] collects from a description:
    a key other than [__proto__] has the value of the last output listed
    under it, a key that no output carries is not in the result, nothing is
    ever stored under [__proto__], which the assignment to a plain object
    hands to the prototype setter, and a missing description or one without
    outputs gives no outputs at all. *)
Theorem getStackOutputs_last_wins (d : Stack) (outs : list Output) :
  Outputs d = Some outs ->
  (forall pre o post,
     outs = (pre ++ o :: post)%list ->
     OutputKey o <> "__proto__" ->
     (forall o', In o' post -> OutputKey o' <> OutputKey o) ->
     outputs_of (Some d) !! OutputKey o = Some (OutputValue o)) /\
  (forall k,
     (forall o, In o outs -> OutputKey o <> k) ->
     outputs_of (Some d) !! k = None) /\
  outputs_of (Some d) !! "__proto__" = None /\
  outputs_of None = ∅ /\
  outputs_of (Some {| StackId := StackId d; StackStatus := StackStatus d;
                      Outputs := None |}) = ∅.
Proof.
  intros Houts. split; [| split; [| split; [| split; reflexivity]]].
  - intros pre o post -> Hkey Hpost.
    apply outputs_of_lookup. split; [exact Hkey |].
    exists d, pre, o, post. auto.
  - intros k Hk.
    destruct (outputs_of (Some d) !! k) as [v |] eqn:Hv; [| reflexivity].
    apply outputs_of_lookup in Hv
      as [_ (d' & pre & o & post & Hd & Ho & Hkey & _)].
    inversion Hd; subst d'. rewrite Houts in Ho. inversion Ho; subst outs.
    exfalso. apply (Hk o); [apply in_or_app; right; now left | exact Hkey].
  - destruct (outputs_of (Some d) !! "__proto__") as [v |] eqn:Hv;
      [| reflexivity].
    apply outputs_of_lookup in Hv as [Hp _]. congruence.
Qed.

Lemma getStackOutputs_last_wins_witness :
  outputs_of (Some (orders_description "CREATE_COMPLETE")) !! "QueueName" =
  Some "orders-queue".
Proof.
  refine (proj1 (getStackOutputs_last_wins
                   (orders_description "CREATE_COMPLETE") _ eq_refl)
            [] {| OutputKey := "QueueName"; OutputValue := "orders-queue" |}
            [] eq_refl _ _).
  - discriminate.
  - intros o' [].
Defined.

(** X17.  [readCurrentTemplate] makes one call, the get-template for the
    stack asked for.  The document it returns is never a falsy one: it is
    the deserialized body when the answer has a non-empty body whose
    deserialization is not falsy, and the empty object in every other case
    in which it returns. *)
Theorem readCurrentTemplate_document (w : World) (h h2 : list Event)
    (n : string) (r : Outcome json) :
  readCurrentTemplate n w h = (r, h2) ->
  h2 = (h ++ [EvGetTemplate n (cfn_getTemplate w h n)])%list /\
  (forall doc,
     r = Ok doc ->
     truthy_json doc = true /\
     (doc = JObj [] \/
      exists out body,
        cfn_getTemplate w h n = Ok out /\
        got_TemplateBody out = Some body /\ body <> "" /\
        deserializeStructure w body = Ok doc)) /\
  (forall out body doc,
     cfn_getTemplate w h n = Ok out ->
     got_TemplateBody out = Some body -> body <> "" ->
     deserializeStructure w body = Ok doc ->
     r = Ok (if truthy_json doc then doc else JObj [])).
Proof.
  unfold readCurrentTemplate. unfold_ops. unfold_monad. cbn.
  intros Hrun. repeat head_step Hrun; simplify_eq; tidy_trace.
  all: split; [reflexivity |].
  all: split;
    [ intros doc Hdoc; try discriminate Hdoc; inversion Hdoc; subst doc
    | intros out body doc Hout Hbody Hne Hparse; simplify_eq;
      try reflexivity;
      try (apply String.eqb_eq in Heqb; congruence) ].
  all: try (split; [reflexivity | now left]).
  all: try congruence.
  - apply String.eqb_neq in Heqb.
    destruct (truthy_json a0) eqn:Ht; [| split; [reflexivity | now left]].
    split; [exact Ht |]. right. exists a, s. auto.
  - rewrite Heqo1 in Hparse. now inversion Hparse.
Qed.

Lemma readCurrentTemplate_document_witness :
  fst (readCurrentTemplate "Orders" (world_of unchanged) []) =
  Ok orders_template.
Proof.
  destruct (readCurrentTemplate "Orders" (world_of unchanged) [])
    as [r h2] eqn:Hrun.
  exact (proj2 (proj2 (readCurrentTemplate_document (world_of unchanged) []
                         h2 "Orders" r Hrun))
           {| got_TemplateBody := Some orders_yaml |} orders_yaml
           orders_template eq_refl eq_refl ltac:(discriminate) eq_refl).
Defined.

(** X18.  The calls of a deployment come in a fixed order of phases: first
    the session and the reads of the skip check, then the preparation of
    the assets and the upload of the template, then the recovery from a
    failed creation, then the existence check with the request for the
    changeset and the wait for it, and last what is done with the
    changeset.  Assets are prepared at most once and the template is
    uploaded at most once, and both before the stack is looked at for
    recovery. *)
Theorem deployStack_phases (w : World) (o : DeployStackOptions) :
  exists reads staged recover request conclude,
    snd (run (deployStack o) w) =
    (reads ++ staged ++ recover ++ request ++ conclude)%list /\
    guard_only reads /\ staging_only staged /\ recovery_only recover /\
    request_only request /\ conclusion_only conclude /\
    (count is_upload staged <= 1)%nat /\
    (length staged <= 2)%nat.
Proof.
  destruct (run (deployStack o) w) as [r tr] eqn:Hrun. cbn [snd].
  apply deployStack_anatomy, deploying_cases in Hrun.
  destruct Hrun as [Hg | (env & h & Henv & Hg & Hp)].
  { exists tr, [], [], [], []. rewrite !app_nil_r.
    repeat split; auto; try constructor; cbn; lia. }
  exists h.
  assert (Hstaged : forall assets rb hb,
             makeBodyParameter (dso_stack o) (dso_toolkitInfo o) w
               (h ++ [assets_event o (Ok assets)])%list = (rb, hb) ->
             exists sb,
               hb = (h ++ assets_event o (Ok assets) :: sb)%list /\
               staging_only (assets_event o (Ok assets) :: sb) /\
               (count is_upload (assets_event o (Ok assets) :: sb) <= 1)%nat /\
               (length (assets_event o (Ok assets) :: sb) <= 2)%nat).
  { intros assets rb hb. unfold makeBodyParameter. unfold_ops. unfold_monad.
    cbn. intros Hb. repeat head_step Hb; simplify_eq; tidy_trace.
    all: try (exists []; rewrite ?app_nil_r; split; [reflexivity |];
              repeat constructor).
    all: eexists [_]; split; [reflexivity |]; repeat constructor. }
  inversion Hp as [e Ha | assets e hb Ha Hb | assets body hb e s2 Ha Hb Hr
                  | assets body hb s2 e Ha Hb Hr
                  | assets body hb s2 update out r' post Ha Hb Hr xid input Hpost];
    subst;
    try (apply Hstaged in Hb as (sb & -> & Hsb & Hup & Hlen));
    try (pose proof (recovery_kind _ _ _ Hr) as Hs2).
  - exists [assets_event o (Throw e)], [], [], []. rewrite !app_nil_r.
    repeat split; auto; repeat constructor.
  - exists (assets_event o (Ok assets) :: sb), [], [], [].
    rewrite !app_nil_r. repeat split; auto; constructor.
  - exists (assets_event o (Ok assets) :: sb), s2, [], [].
    rewrite !app_nil_r, <- app_assoc. repeat split; auto; constructor.
  - exists (assets_event o (Ok assets) :: sb), s2,
      [EvStackExists (deploy_name o) (Throw e)], [].
    rewrite !app_nil_r, <- !app_assoc. repeat split; auto; repeat constructor.
  - inversion Hpost as [e | c e | c desc r'' s4 Hcon]; subst.
    + exists (assets_event o (Ok assets) :: sb), s2,
        [EvStackExists (deploy_name o) (Ok update);
         EvCreateChangeSet input (Throw e)], [].
      rewrite !app_nil_r, <- !app_assoc.
      repeat split; auto; repeat constructor.
    + exists (assets_event o (Ok assets) :: sb), s2,
        [EvStackExists (deploy_name o) (Ok update);
         EvCreateChangeSet input (Ok c);
         EvWaitForChangeSet (deploy_name o) (ccs_ChangeSetName input)
           (Throw e)], [].
      rewrite !app_nil_r, <- !app_assoc.
      repeat split; auto; repeat constructor.
    + exists (assets_event o (Ok assets) :: sb), s2,
        [EvStackExists (deploy_name o) (Ok update);
         EvCreateChangeSet input (Ok c);
         EvWaitForChangeSet (deploy_name o) (ccs_ChangeSetName input)
           (Ok desc)], s4.
      rewrite <- !app_assoc.
      repeat split; auto; repeat constructor.
      eapply conclusion_kind; eassumption.
Qed.
